(** * Contractor quote portal

    A shallow embedding of the server side of the contractor quote portal:
    the validation utilities ([utils/validation.js]), the quote schema
    ([models/Quote.js]), the request validation middleware
    ([middleware/validateRequest.js]) and the quote controller
    ([controllers/quoteController.js]), together with the theorems that
    relate them to the specification of the portal.

    Conventions of the embedding.
    - A JavaScript string is a [string].  Upper-casing, trimming and the
      regular expressions of the source are written out as they act on
      ASCII text; a statement that would differ on other characters
      assumes [JS.isASCII].
    - A JavaScript value is [undefined], [null], a boolean, a number or a
      string.  Arrays and objects are outside the embedding.
    - A JavaScript number is [NaN], an integer, a decimal fraction or an
      infinity, and it is exact: the rounding of a numeric text or of an
      arithmetic result to a double is outside the embedding.  Time stamps
      are integers (milliseconds).
    - An exception is an explicit [Throw] in the result type.
    - A request reads the clock once: the chains and the schema compare a
      date with the same instant.
    - The document store is a list of quotes in insertion order; [find],
      [sort], [skip], [limit] and [countDocuments] are functions on it. *)

From Stdlib Require Import ZArith QArith Qround String Ascii List Lia Bool.
From Stdlib Require Import DecimalString DecimalPos.
From stdpp Require Import base gmap strings list sorting.

Open Scope string_scope.

(** ** The fragment of JavaScript the portal relies on *)

Module JS.

(** A number: [NaN], an integer, a decimal fraction [m / 10^e], or an
    infinity.  A fraction is in normal form when [m] is not a multiple of
    ten, and is then no integer. *)
Inductive Number : Type :=
| NaN
| Num (n : Z)
| Dec (m : Z) (e : positive)
| Inf (negative : bool).

Inductive Value : Type :=
| Undefined
| Null
| Boolean (b : bool)
| Numeric (n : Number)
| Str (s : string).

Inductive Error : Type :=
| TypeError.

(** The outcome of a call: a value, or an exception that was thrown. *)
Inductive Completion (A : Type) : Type :=
| Normal (a : A)
| Throw (e : Error).
Arguments Normal {A} a.
Arguments Throw {A} e.

Definition returns {A} (c : Completion A) : bool :=
  match c with Normal _ => true | Throw _ => false end.

(** [if (v)]: the truthiness of a value. *)
Definition truthy (v : Value) : bool :=
  match v with
  | Undefined | Null => false
  | Boolean b => b
  | Numeric NaN => false
  | Numeric (Num n) => negb (n =? 0)%Z
  | Numeric (Dec m _) => negb (m =? 0)%Z
  | Numeric (Inf _) => true
  | Str s => negb (s =? "")
  end.

Definition code (c : ascii) : nat := nat_of_ascii c.

Definition between (lo hi : nat) (c : ascii) : bool :=
  (lo <=? code c)%nat && (code c <=? hi)%nat.

(** The class [\s] and the characters [trim] strips: tab, line feed,
    vertical tab, form feed, carriage return and space. *)
Definition isWhiteSpace (c : ascii) : bool := between 9 13 c || (code c =? 32)%nat.
Definition isDigit (c : ascii) : bool := between 48 57 c.
Definition isUpper (c : ascii) : bool := between 65 90 c.
Definition isLower (c : ascii) : bool := between 97 122 c.
Definition isLetter (c : ascii) : bool := isUpper c || isLower c.

Fixpoint map_chars (f : ascii -> ascii) (s : string) : string :=
  match s with
  | EmptyString => EmptyString
  | String c s' => String (f c) (map_chars f s')
  end.

Fixpoint all_chars (p : ascii -> bool) (s : string) : bool :=
  match s with
  | EmptyString => true
  | String c s' => p c && all_chars p s'
  end.

Fixpoint filter_chars (p : ascii -> bool) (s : string) : string :=
  match s with
  | EmptyString => EmptyString
  | String c s' => if p c then String c (filter_chars p s') else filter_chars p s'
  end.

(** A text of ASCII characters, the texts on which the functions below
    are the ones of JavaScript. *)
Definition isASCII (s : string) : bool := all_chars (fun c => (code c <? 128)%nat) s.

(** [s.replace(/c/g, by)] for a single character [c]. *)
Fixpoint replaceAll (c : ascii) (by_ : string) (s : string) : string :=
  match s with
  | EmptyString => EmptyString
  | String d s' =>
      if Ascii.eqb c d then by_ +:+ replaceAll c by_ s'
      else String d (replaceAll c by_ s')
  end.

(** [s.includes(c)] for a single character [c]. *)
Fixpoint includesChar (c : ascii) (s : string) : bool :=
  match s with
  | EmptyString => false
  | String d s' => Ascii.eqb c d || includesChar c s'
  end.

Definition upperChar (c : ascii) : ascii :=
  if isLower c then ascii_of_nat (code c - 32) else c.
Definition lowerChar (c : ascii) : ascii :=
  if isUpper c then ascii_of_nat (code c + 32) else c.

(** [toUpperCase] and [toLowerCase] as they act on ASCII text: the
    letters [a] to [z] and [A] to [Z] change, nothing else does.  The case
    mappings of other characters (some change the length of the text) are
    outside the embedding; a statement that depends on them assumes
    [isASCII]. *)
Definition toUpperCase : string -> string := map_chars upperChar.
Definition toLowerCase : string -> string := map_chars lowerChar.

Fixpoint trimStart (s : string) : string :=
  match s with
  | EmptyString => EmptyString
  | String c s' => if isWhiteSpace c then trimStart s' else s
  end.

Fixpoint trimEnd (s : string) : string :=
  match s with
  | EmptyString => EmptyString
  | String c s' =>
      match trimEnd s' with
      | EmptyString => if isWhiteSpace c then EmptyString else String c EmptyString
      | t => String c t
      end
  end.

Definition trim (s : string) : string := trimEnd (trimStart s).

(** [arr.join(sep)] on an array of strings. *)
Fixpoint join (sep : string) (l : list string) : string :=
  match l with
  | [] => EmptyString
  | [x] => x
  | x :: l' => x +:+ sep +:+ join sep l'
  end.

(** [String(n)] for an integer: its decimal digits, after a minus sign
    when it is negative (the rendering of every integer below 10^21 in
    absolute value). *)
Definition toString (n : Z) : string := NilZero.string_of_int (Z.to_int n).

Definition digitValue (c : ascii) : Z := Z.of_nat (code c - 48).

(** The value of a run of decimal digits, most significant first. *)
Fixpoint digitsValue (acc : Z) (s : string) : Z :=
  match s with
  | EmptyString => acc
  | String c s' => digitsValue (10 * acc + digitValue c)%Z s'
  end.

(** The longest prefix of digits, and the rest. *)
Fixpoint spanDigits (s : string) : string * string :=
  match s with
  | EmptyString => (EmptyString, EmptyString)
  | String c s' =>
      if isDigit c then let '(d, r) := spanDigits s' in (String c d, r)
      else (EmptyString, s)
  end.

(** An optional sign: [-1] after a minus, [1] otherwise. *)
Definition spanSign (s : string) : Z * string :=
  match s with
  | String "-" s' => ((-1)%Z, s')
  | String "+" s' => (1%Z, s')
  | _ => (1%Z, s)
  end.

(** *** Numbers and their texts *)

(** [count] zeros. *)
Fixpoint zeros (count : nat) : string :=
  match count with
  | O => EmptyString
  | S k => String "0" (zeros k)
  end.

(** A run of digits without the zeros at its end. *)
Fixpoint stripZeros (s : string) : string :=
  match s with
  | EmptyString => EmptyString
  | String c s' =>
      match stripZeros s' with
      | EmptyString => if Ascii.eqb c "0" then EmptyString else String c EmptyString
      | t => String c t
      end
  end.

Fixpoint takeChars (n : nat) (s : string) : string :=
  match n, s with
  | S k, String c s' => String c (takeChars k s')
  | _, _ => EmptyString
  end.

Fixpoint dropChars (n : nat) (s : string) : string :=
  match n, s with
  | S k, String _ s' => dropChars k s'
  | _, _ => s
  end.

(** The text of the positive number [0.s * 10^n], for digits [s] that
    neither start nor end with a zero, as [Number.prototype.toString]
    writes it: plain digits up to 21 places before the point and 6 zeros
    after it, and the exponent form beyond. *)
Definition renderDigits (s : string) (n : Z) : string :=
  let k := Z.of_nat (String.length s) in
  if (k <=? n)%Z && (n <=? 21)%Z then s +:+ zeros (Z.to_nat (n - k))
  else if (0 <? n)%Z && (n <=? 21)%Z then
    takeChars (Z.to_nat n) s +:+ "." +:+ dropChars (Z.to_nat n) s
  else if (-6 <? n)%Z && (n <=? 0)%Z then "0." +:+ zeros (Z.to_nat (- n)) +:+ s
  else
    let mantissa :=
      match s with
      | String c EmptyString => s
      | String c rest => String c ("." +:+ rest)
      | EmptyString => s
      end in
    mantissa +:+ "e" +:+ (if (n - 1 <? 0)%Z then "-" else "+")
    +:+ toString (Z.abs (n - 1)).

(** The text of [m * 10^shift] for an integer [m] that is not zero. *)
Definition renderScaled (m : Z) (shift : Z) : string :=
  let all := toString (Z.abs m) in
  (if (m <? 0)%Z then "-" else "")
  +:+ renderDigits (stripZeros all) (Z.of_nat (String.length all) + shift).

(** [String(x)] for a number.  The digits are those of the exact value:
    the rounding of a number with more than 15 significant digits to a
    double is outside the embedding. *)
Definition numberToString (x : Number) : string :=
  match x with
  | NaN => "NaN"
  | Inf negative => if negative then "-Infinity" else "Infinity"
  | Num n =>
      if (Z.abs n <? 10 ^ 21)%Z then toString n else renderScaled n 0
  | Dec m e => if (m =? 0)%Z then "0" else renderScaled m (- Z.pos e)
  end.

(** [m / 10^e] in normal form: an integer when the division is exact. *)
Fixpoint normalize (m : Z) (e : nat) : Number :=
  match e with
  | O => Num m
  | S e' =>
      if (m mod 10 =? 0)%Z then normalize (m / 10) e'
      else Dec m (Pos.of_nat e)
  end.

(** [m * 10^e]. *)
Definition scaled (m e : Z) : Number :=
  if (0 <=? e)%Z then Num (m * 10 ^ e) else normalize m (Z.to_nat (- e)).

(** The exponent part [[eE][+-]?[0-9]+] of a numeric text, or nothing:
    its value when the text is one of the two. *)
Definition exponentPart (s : string) : option Z :=
  match s with
  | EmptyString => Some 0%Z
  | String c r =>
      if Ascii.eqb c "e" || Ascii.eqb c "E" then
        let '(sign, r') := spanSign r in
        let '(d, rest) := spanDigits r' in
        if negb (d =? "") && (rest =? "") then Some (sign * digitsValue 0 d)%Z
        else None
      else None
  end.

(** The value of a digit in a base up to sixteen, when it is one. *)
Definition digitIn (base : Z) (c : ascii) : option Z :=
  let v :=
    if isDigit c then Some (Z.of_nat (code c - 48))
    else if between 97 102 c then Some (Z.of_nat (code c - 87))
    else if between 65 70 c then Some (Z.of_nat (code c - 55))
    else None in
  match v with
  | Some d => if (d <? base)%Z then Some d else None
  | None => None
  end.

(** The value of a text made of digits of the base alone. *)
Fixpoint digitsIn (base : Z) (acc : Z) (s : string) : option Z :=
  match s with
  | EmptyString => Some acc
  | String c s' =>
      match digitIn base c with
      | Some d => digitsIn base (base * acc + d)%Z s'
      | None => None
      end
  end.

(** The literals [0x...], [0o...] and [0b...], which take no sign. *)
Definition radixLiteral (t : string) : option Number :=
  match t with
  | String "0" (String c r) =>
      let base :=
        if Ascii.eqb c "x" || Ascii.eqb c "X" then Some 16%Z
        else if Ascii.eqb c "o" || Ascii.eqb c "O" then Some 8%Z
        else if Ascii.eqb c "b" || Ascii.eqb c "B" then Some 2%Z
        else None in
      match base with
      | Some b =>
          Some (if r =? "" then NaN
                else match digitsIn b 0 r with Some v => Num v | None => NaN end)
      | None => None
      end
  | _ => None
  end.

(** A signed decimal literal: digits, a point, digits and an exponent,
    with a digit before or after the point; or a signed [Infinity]. *)
Definition decimalLiteral (t : string) : Number :=
  let '(sign, r0) := spanSign t in
  if r0 =? "Infinity" then Inf (sign <? 0)%Z
  else
    let '(ip, r1) := spanDigits r0 in
    let '(fp, r2) :=
      match r1 with
      | String "." r => spanDigits r
      | _ => (EmptyString, r1)
      end in
    match exponentPart r2 with
    | None => NaN
    | Some e =>
        if (ip =? "") && (fp =? "") then NaN
        else scaled (sign * digitsValue 0 (ip +:+ fp)) (e - Z.of_nat (String.length fp))
    end.

(** [Number(s)]: surrounding white space is dropped, the empty string is
    0, a numeric literal is its exact value and everything else is
    [NaN]. *)
Definition StringToNumber (s : string) : Number :=
  let t := trim s in
  if t =? "" then Num 0
  else
    match radixLiteral t with
    | Some n => n
    | None => decimalLiteral t
    end.

Definition ToNumber (v : Value) : Number :=
  match v with
  | Undefined => NaN
  | Null => Num 0
  | Boolean b => Num (if b then 1 else 0)
  | Numeric n => n
  | Str s => StringToNumber s
  end.

(** [v > n] and [v <= n] against a number literal: the left operand is
    converted with [ToNumber], and a comparison with [NaN] is false. *)
Definition gt (v : Value) (n : Z) : bool :=
  match ToNumber v with
  | Num x => (n <? x)%Z
  | Dec m e => (n * 10 ^ Z.pos e <? m)%Z
  | Inf negative => negb negative
  | NaN => false
  end.
Definition le (v : Value) (n : Z) : bool :=
  match ToNumber v with
  | Num x => (x <=? n)%Z
  | Dec m e => (m <=? n * 10 ^ Z.pos e)%Z
  | Inf negative => negative
  | NaN => false
  end.

(** [v >= n] and [v < n]. *)
Definition ge (v : Value) (n : Z) : bool :=
  match ToNumber v with
  | Num x => (n <=? x)%Z
  | Dec m e => (n * 10 ^ Z.pos e <=? m)%Z
  | Inf negative => negb negative
  | NaN => false
  end.
Definition lt (v : Value) (n : Z) : bool :=
  match ToNumber v with
  | Num x => (x <? n)%Z
  | Dec m e => (m <? n * 10 ^ Z.pos e)%Z
  | Inf negative => negative
  | NaN => false
  end.

End JS.

(** A text where a value is wanted is the string value. *)
Coercion JS.Str : string >-> JS.Value.

(** [String(v)], the conversion that a template literal, [join] and the
    [test] of a regular expression apply. *)
Definition ToString (v : JS.Value) : string :=
  match v with
  | JS.Undefined => "undefined"
  | JS.Null => "null"
  | JS.Boolean b => if b then "true" else "false"
  | JS.Numeric n => JS.numberToString n
  | JS.Str s => s
  end.

(** ** utils/validation.js *)

(** [str.trim().replace(/[^a-zA-Z0-9\s\-']/g, "")]: the characters that
    survive are letters, digits, white space, hyphens and apostrophes. *)
Definition sanitizeAllowed (c : ascii) : bool :=
  JS.isLetter c || JS.isDigit c || JS.isWhiteSpace c
  || Ascii.eqb c "-" || Ascii.eqb c "'".

Definition sanitizeText (s : string) : string :=
  JS.filter_chars sanitizeAllowed (JS.trim s).

Definition sanitizeString (str : JS.Value) : JS.Value :=
  match str with
  | JS.Str s => JS.Str (sanitizeText s)
  | _ => str
  end.

Definition validateRoofSize (size : JS.Value) : bool :=
  JS.gt size 0 && JS.le size 1000000.

Definition validStateCodes : list string :=
  [ "AL"; "AK"; "AZ"; "AR"; "CA"; "CO"; "CT"; "DE"; "FL"; "GA";
    "HI"; "ID"; "IL"; "IN"; "IA"; "KS"; "KY"; "LA"; "ME"; "MD";
    "MA"; "MI"; "MN"; "MS"; "MO"; "MT"; "NE"; "NV"; "NH"; "NJ";
    "NM"; "NY"; "NC"; "ND"; "OH"; "OK"; "OR"; "PA"; "RI"; "SC";
    "SD"; "TN"; "TX"; "UT"; "VT"; "VA"; "WA"; "WV"; "WI"; "WY" ].

(** [validStateCodes.includes(stateCode.toUpperCase())]: reading the
    property [toUpperCase] of [null] or [undefined] throws, and calling it
    on a number or a boolean throws as well, since they have no such
    method. *)
Definition validateStateCode (stateCode : JS.Value) : JS.Completion bool :=
  match stateCode with
  | JS.Str s => JS.Normal (bool_decide (JS.toUpperCase s ∈ validStateCodes))
  | _ => JS.Throw JS.TypeError
  end.

(** [date >= now && date <= twoYearsFromNow] on time values; the two
    instants are read from the clock by the caller. *)
Definition validateDate (now twoYearsFromNow : Z) (date : Z) : bool :=
  (now <=? date)%Z && (date <=? twoYearsFromNow)%Z.

Definition validTypes : list string := [ "Metal"; "TPO"; "Foam"; "Other" ].

(** [validTypes.includes(type)]: a value that is not a string equals none
    of the four. *)
Definition validateRoofType (type : JS.Value) : bool :=
  match type with
  | JS.Str s => bool_decide (s ∈ validTypes)
  | _ => false
  end.

(** ** validator.js, as called through express-validator *)

Module Validator.

Definition trim : string -> string := JS.trim.

(** [isLength({min, max})]. *)
Definition isLength (min max : nat) (s : string) : bool :=
  (min <=? String.length s)%nat && (String.length s <=? max)%nat.

(** [escape]: the eight replacements, in the order the library applies
    them. *)
Definition escape (s : string) : string :=
  JS.replaceAll "`" "&#96;"
    (JS.replaceAll "\" "&#x5C;"
      (JS.replaceAll "/" "&#x2F;"
        (JS.replaceAll ">" "&gt;"
          (JS.replaceAll "<" "&lt;"
            (JS.replaceAll "'" "&#x27;"
              (JS.replaceAll "034" "&quot;"
                (JS.replaceAll "&" "&amp;" s))))))).

(** [isNumeric]: the pattern [^[+-]?([0-9]*[.])?[0-9]+$]. *)
Definition isNumeric (s : string) : bool :=
  let '(_, r) := JS.spanSign s in
  let '(d1, r1) := JS.spanDigits r in
  match r1 with
  | EmptyString => negb (d1 =? "")
  | String "." r2 =>
      let '(d2, r3) := JS.spanDigits r2 in
      negb (d2 =? "") && (r3 =? "")
  | _ => false
  end.

(** The exponent part [(?:[eE][+-]?[0-9]+)?$] of the float pattern:
    its value when the rest of the string matches it. *)
Definition exponent (s : string) : option Z :=
  match s with
  | EmptyString => Some 0%Z
  | String c r =>
      if Ascii.eqb c "e" || Ascii.eqb c "E" then
        let '(sign, r') := JS.spanSign r in
        let '(d, rest) := JS.spanDigits r' in
        if negb (d =? "") && (rest =? "") then Some (sign * JS.digitsValue 0 d)%Z
        else None
      else None
  end.

(** A string that matches the float pattern (an optional sign, optional
    digits, an optional point followed by optional digits, an optional
    exponent), read by [parseFloat]:
    [None] when the pattern does not match, [Some None] when it matches
    but [parseFloat] finds no digit and answers [NaN], and otherwise the
    exact decimal value. *)
Definition parseFloat (s : string) : option (option Q) :=
  let '(sign, r0) := JS.spanSign s in
  let '(ip, r1) := JS.spanDigits r0 in
  let '(fp, r2) :=
    match r1 with
    | String "." r => JS.spanDigits r
    | _ => (EmptyString, r1)
    end in
  match exponent r2 with
  | None => None
  | Some e =>
      if (ip =? "") && (fp =? "") then Some None
      else
        let mantissa := (sign * JS.digitsValue 0 (ip +:+ fp))%Z in
        Some (Some (inject_Z mantissa
                    * Qpower (inject_Z 10) (e - Z.of_nat (String.length fp)))%Q)
  end.

Definition Qlt_bool (a b : Q) : bool := negb (Qle_bool b a).

(** [isFloat({gt, lt})]. *)
Definition isFloat (gt lt : Z) (s : string) : bool :=
  if (s =? "") || (s =? ".") || (s =? ",") || (s =? "-") || (s =? "+") then false
  else
    match parseFloat s with
    | Some (Some value) => Qlt_bool value (inject_Z lt) && Qlt_bool (inject_Z gt) value
    | _ => false
    end.

(** [isIn(values)]. *)
Definition isIn (values : list string) (s : string) : bool :=
  bool_decide (s ∈ values).

(** [isUppercase]: [str === str.toUpperCase()]. *)
Definition isUppercase (s : string) : bool := s =? JS.toUpperCase s.

End Validator.

(** The two patterns of the validation rules. *)

(** [/^[a-zA-Z\s-']+$/]. *)
Definition nameChar (c : ascii) : bool :=
  JS.isLetter c || JS.isWhiteSpace c || Ascii.eqb c "-" || Ascii.eqb c "'".
Definition matchesName (s : string) : bool :=
  negb (s =? "") && JS.all_chars nameChar s.

(** [/^[A-Z]{2}$/]. *)
Definition matchesTwoUpper (s : string) : bool :=
  (String.length s =? 2)%nat && JS.all_chars JS.isUpper s.

(** ** express-validator: chains, their errors and their results *)

Module ValidationError.
Record t : Type := mk {
  param : string;
  msg : string;
  value : JS.Value
}.
End ValidationError.

(** [toString] of express-validator: the text that a standard validator
    or sanitizer reads for the value of a field.  [undefined], [null] and
    [NaN] are the empty text. *)
Definition fieldText (v : JS.Value) : string :=
  match v with
  | JS.Undefined | JS.Null => EmptyString
  | JS.Boolean b => if b then "true" else "false"
  | JS.Numeric JS.NaN => EmptyString
  | JS.Numeric n => JS.numberToString n
  | JS.Str s => s
  end.

(** An item of a chain: a sanitizer, which replaces the value of the field
    by a text, a standard validator with the message it reports, or a
    custom validator, which is given the value itself and fails by
    throwing an error with a message. *)
Inductive ChainItem : Type :=
| Sanitizer (f : string -> string)
| StdValidator (p : string -> bool) (message : string)
| Custom (f : JS.Value -> option string).

Definition Chain : Type := list ChainItem.

(** The message of a validator that has no [withMessage]. *)
Definition invalidValue : string := "Invalid value".

(** Running a chain on a field: the items run in order, none stops the
    chain.  [v] is the text of the current value of the field and
    [reify v] that value: the value of the request until a sanitizer has
    run, and the text itself from then on.  The result is the value the
    chain leaves in the request, with the errors it reported. *)
Fixpoint runChain (field : string) (reify : string -> JS.Value)
    (c : Chain) (v : string) : JS.Value * list ValidationError.t :=
  match c with
  | [] => (reify v, [])
  | Sanitizer f :: c' => runChain field JS.Str c' (f v)
  | StdValidator p message :: c' =>
      let '(v', errs) := runChain field reify c' v in
      (v', if p v then errs else ValidationError.mk field message (reify v) :: errs)
  | Custom f :: c' =>
      let '(v', errs) := runChain field reify c' v in
      (v', match f (reify v) with
           | None => errs
           | Some message => ValidationError.mk field message (reify v) :: errs
           end)
  end.

(** A chain on the value [raw] that the request holds in [field]. *)
Definition runField (field : string) (c : Chain) (raw : JS.Value)
    : JS.Value * list ValidationError.t :=
  runChain field (fun _ => raw) c (fieldText raw).

(** What a request handler reads from its surroundings: the clock
    ([new Date()], and the same instant two calendar years later), the
    calendar check of [isDate], the time value of [new Date(text)], the
    rendering of [toLocaleDateString], and the identifiers of the store:
    the cast of a text to an identifier, which fails on a malformed text,
    and the text of an identifier. *)
Record Env : Type := mkEnv {
  now : Z;
  twoYearsFromNow : Z;
  isDate : string -> bool;
  parseDate : string -> JS.Number;
  toLocaleDateString : Z -> string;
  castObjectId : string -> option nat;
  objectIdText : nat -> string
}.

(** ** The request body of a submission

    A decoded JSON body, read at the seven paths the chains name.  A path
    holds [undefined] when the body has no such key, and otherwise
    [null], a boolean, a number or a string.  Arrays and objects in these
    paths are outside the embedding, and so is a body with further keys:
    the schema would read an identifier and time stamps from it.

    The application mounts its security middleware, xss-clean among it,
    before the body parser: no body exists yet when those filters run, and
    the route receives the body as the parser decoded it. *)

Module Body.
Record t : Type := mk {
  contractorName : JS.Value;
  company : JS.Value;
  roofSize : JS.Value;
  roofType : JS.Value;
  projectCity : JS.Value;
  projectState : JS.Value;
  projectDate : JS.Value
}.

(** [req.body[field]]. *)
Definition get (b : t) (field : string) : JS.Value :=
  if field =? "contractorName" then contractorName b
  else if field =? "company" then company b
  else if field =? "roofSize" then roofSize b
  else if field =? "roofType" then roofType b
  else if field =? "projectCity" then projectCity b
  else if field =? "projectState" then projectState b
  else if field =? "projectDate" then projectDate b
  else JS.Undefined.
End Body.

(** ** controllers/quoteController.js: validateQuote *)

Definition contractorNameChain : Chain :=
  [ Sanitizer Validator.trim;
    StdValidator (Validator.isLength 2 100) invalidValue;
    StdValidator matchesName
      "Contractor name must contain only letters, spaces, hyphens and apostrophes";
    Sanitizer Validator.escape ].

Definition companyChain : Chain :=
  [ Sanitizer Validator.trim;
    StdValidator (Validator.isLength 2 100) invalidValue;
    Sanitizer Validator.escape ].

Definition roofSizeChain : Chain :=
  [ StdValidator Validator.isNumeric invalidValue;
    StdValidator (Validator.isFloat 0 1000000)
      "Roof size must be between 1 and 1,000,000 square feet" ].

Definition roofTypeChain : Chain :=
  [ StdValidator (Validator.isIn ["Metal"; "TPO"; "Foam"; "Other"])
      "Invalid roof type" ].

Definition projectCityChain : Chain :=
  [ Sanitizer Validator.trim;
    StdValidator matchesName
      "City name must contain only letters, spaces, hyphens and apostrophes";
    Sanitizer Validator.escape ].

Definition projectStateChain : Chain :=
  [ Sanitizer Validator.trim;
    StdValidator (Validator.isLength 2 2) invalidValue;
    StdValidator Validator.isUppercase invalidValue;
    StdValidator matchesTwoUpper "Please use 2-letter state code (e.g., CA)";
    Sanitizer Validator.escape ].

(** The time value of a date built from a number: not a time when the
    number is not finite or beyond 8.64e15 milliseconds, and otherwise the
    number without its fraction. *)
Definition timeClip (n : JS.Number) : JS.Number :=
  match n with
  | JS.Num z => if (Z.abs z <=? 8640000000000000)%Z then JS.Num z else JS.NaN
  | JS.Dec m e =>
      if (Z.abs m <=? 8640000000000000 * 10 ^ Z.pos e)%Z
      then JS.Num (Z.quot m (10 ^ Z.pos e)) else JS.NaN
  | _ => JS.NaN
  end.

(** The time value of [new Date(value)]: a text is parsed, any other
    value is converted to a number. *)
Definition newDate (env : Env) (value : JS.Value) : JS.Number :=
  match value with
  | JS.Str s => timeClip (parseDate env s)
  | _ => timeClip (JS.ToNumber value)
  end.

(** [date < now] and [date > twoYearsFromNow] on a date that may be
    invalid: a comparison with an invalid date is false. *)
Definition dateBefore (d : JS.Number) (t : Z) : bool :=
  match d with JS.Num x => (x <? t)%Z | _ => false end.
Definition dateAfter (d : JS.Number) (t : Z) : bool :=
  match d with JS.Num x => (t <? x)%Z | _ => false end.

Definition projectDateCustom (env : Env) (value : JS.Value) : option string :=
  let date := newDate env value in
  if dateBefore date (now env) then Some "Project date cannot be in the past"
  else if dateAfter date (twoYearsFromNow env) then
    Some "Project date cannot be more than 2 years in the future"
  else None.

Definition projectDateChain (env : Env) : Chain :=
  [ StdValidator (isDate env) invalidValue;
    Custom (projectDateCustom env) ].

(** The names of the seven fields, in the order of their chains. *)
Definition fields : list string :=
  [ "contractorName"; "company"; "roofSize"; "roofType";
    "projectCity"; "projectState"; "projectDate" ].

(** The seven chains run one after the other on the body; the request
    leaves them with the sanitized fields and with the errors of all of
    them, which is what [validationResult(req).array()] returns. *)
Definition validateQuote (env : Env) (b : Body.t) : Body.t * list ValidationError.t :=
  let '(name, e1) := runField "contractorName" contractorNameChain (Body.contractorName b) in
  let '(comp, e2) := runField "company" companyChain (Body.company b) in
  let '(size, e3) := runField "roofSize" roofSizeChain (Body.roofSize b) in
  let '(type, e4) := runField "roofType" roofTypeChain (Body.roofType b) in
  let '(city, e5) := runField "projectCity" projectCityChain (Body.projectCity b) in
  let '(state, e6) := runField "projectState" projectStateChain (Body.projectState b) in
  let '(date, e7) := runField "projectDate" (projectDateChain env) (Body.projectDate b) in
  (Body.mk name comp size type city state date,
   (e1 ++ e2 ++ e3 ++ e4 ++ e5 ++ e6 ++ e7)%list).

(** ** utils/AppError.js *)

Module AppError.
Record t : Type := mk {
  message : string;
  statusCode : Z;
  status : string;
  isOperational : bool
}.

Definition startsWith4 (s : string) : bool :=
  match s with String "4" _ => true | _ => false end.

(** [new AppError(message, statusCode)]. *)
Definition new (message : string) (statusCode : Z) : t :=
  mk message statusCode
     (if startsWith4 (JS.toString statusCode) then "fail" else "error")
     true.
End AppError.

(** ** middleware/validateRequest.js *)

Module ErrorMessage.
Record t : Type := mk {
  field : string;
  message : string;
  value : JS.Value
}.
End ErrorMessage.

(** [errors.array().map(...)]: one formatted entry for each error. *)
Definition errorMessages (errors : list ValidationError.t) : list ErrorMessage.t :=
  map (fun error =>
         ErrorMessage.mk (ValidationError.param error) (ValidationError.msg error)
                         (ValidationError.value error))
      errors.

Definition formatMessage (errs : list ErrorMessage.t) : string :=
  JS.join ". "
    (map (fun err => ErrorMessage.field err +:+ ": " +:+ ErrorMessage.message err) errs).

(** [None] is the call [next()], [Some e] the call [next(e)]. *)
Definition validateRequest (errors : list ValidationError.t) : option AppError.t :=
  match errors with
  | [] => None
  | _ => Some (AppError.new (formatMessage (errorMessages errors)) 400)
  end.

(** ** models/Quote.js *)

Module Quote.
Record t : Type := mk {
  _id : nat;
  contractorName : string;
  company : string;
  roofSize : JS.Number;
  roofType : string;
  projectCity : string;
  projectState : string;
  projectDate : Z;
  createdAt : Z;
  updatedAt : Z
}.

(** The virtual [location]. *)
Definition location (q : t) : string :=
  projectCity q +:+ ", " +:+ projectState q.
End Quote.

(** What a path of a new document holds once its setters and the cast of
    its type have run: nothing, a cast that failed, or a value. *)
Inductive Cast (A : Type) : Type :=
| Absent
| CastFailed
| Held (a : A).
Arguments Absent {A}.
Arguments CastFailed {A}.
Arguments Held {A} a.

(** The cast of a string path: a number or a boolean becomes its text. *)
Definition castString (v : JS.Value) : Cast string :=
  match v with
  | JS.Undefined | JS.Null => Absent
  | JS.Boolean b => Held (if b then "true" else "false")
  | JS.Numeric n => Held (JS.numberToString n)
  | JS.Str s => Held s
  end.

(** The setters of a string path that declares [trim: true] and
    [set: sanitizeString], on a text: the custom setter runs, then the
    trim. *)
Definition setSanitized (s : string) : string :=
  match sanitizeString (JS.Str s) with
  | JS.Str t => JS.trim t
  | _ => s
  end.

(** The same path on any value: [sanitizeString] returns what is not a
    string as it is, and the trim casts it to a text first. *)
Definition sanitizedPath (v : JS.Value) : Cast string :=
  match v with
  | JS.Str s => Held (setSanitized s)
  | _ => match castString v with
         | Held s => Held (JS.trim s)
         | other => other
         end
  end.

(** A string path that declares [uppercase: true]. *)
Definition uppercasePath (v : JS.Value) : Cast string :=
  match castString v with
  | Held s => Held (JS.toUpperCase s)
  | other => other
  end.

(** The cast of a number path: the empty text is no value, any other text
    and a boolean are converted, and what is not a number fails. *)
Definition castNumber (v : JS.Value) : Cast JS.Number :=
  match v with
  | JS.Undefined | JS.Null => Absent
  | JS.Str s =>
      if s =? "" then Absent
      else match JS.StringToNumber s with
           | JS.NaN => CastFailed
           | n => Held n
           end
  | JS.Boolean b => Held (JS.Num (if b then 1 else 0))
  | JS.Numeric JS.NaN => CastFailed
  | JS.Numeric n => Held n
  end.

(** The cast of a date path: the empty text is no value, a boolean fails,
    a number is a time in milliseconds, and so is a numeric text from
    275761 on or below -271820; any other text is parsed.  A date that is
    not a time fails. *)
Definition castDate (env : Env) (v : JS.Value) : Cast Z :=
  let held (time : JS.Number) : Cast Z :=
    match timeClip time with
    | JS.Num t => Held t
    | _ => CastFailed
    end in
  match v with
  | JS.Undefined | JS.Null => Absent
  | JS.Boolean _ => CastFailed
  | JS.Numeric n => held n
  | JS.Str s =>
      if s =? "" then Absent
      else
        let n := JS.StringToNumber s in
        if JS.ge (JS.Numeric n) 275761 || JS.lt (JS.Numeric n) (-271820) then held n
        else held (parseDate env s)
  end.

(** The document [new Quote(req.body)] builds, before it has an identifier
    and time stamps: every setter has run and every path is cast. *)
Module Candidate.
Record t : Type := mk {
  contractorName : Cast string;
  company : Cast string;
  roofSize : Cast JS.Number;
  roofType : Cast string;
  projectCity : Cast string;
  projectState : Cast string;
  projectDate : Cast Z
}.
End Candidate.

Definition newQuote (env : Env) (b : Body.t) : Candidate.t :=
  Candidate.mk (sanitizedPath (Body.contractorName b))
               (sanitizedPath (Body.company b))
               (castNumber (Body.roofSize b))
               (castString (Body.roofType b))
               (sanitizedPath (Body.projectCity b))
               (uppercasePath (Body.projectState b))
               (castDate env (Body.projectDate b)).

(** One validation error of the schema: the path, and the message of the
    rule that failed or the failure of the cast. *)
Inductive Failure : Type :=
| Message (text : string)
| CastFailure.

Definition PathError : Type := (string * Failure)%type.

(** The rules of one path: a path without a value fails [required], a
    path whose cast failed reports that, and a value is given to the
    validators of the path, of which the first that fails is the error.
    [required] refuses the empty text as well. *)
Definition checkPath {A} (path required : string) (c : Cast A)
    (empty : A -> bool) (rules : A -> list (string * bool)) : list PathError :=
  match c with
  | Absent => [(path, Message required)]
  | CastFailed => [(path, CastFailure)]
  | Held a =>
      if empty a then [(path, Message required)]
      else match list_find (fun rule => snd rule = false) (rules a) with
           | Some (_, (message, _)) => [(path, Message message)]
           | None => []
           end
  end.

Definition isEmpty (s : string) : bool := s =? "".

(** [validator(value)] of a custom validator: a validator that throws
    fails. *)
Definition holds (c : JS.Completion bool) : bool :=
  match c with JS.Normal ok => ok | JS.Throw _ => false end.

(** The validation that [save] runs: every path is checked. *)
Definition validateSync (env : Env) (c : Candidate.t) : list PathError :=
  (checkPath "contractorName" "Contractor name is required"
     (Candidate.contractorName c) isEmpty
     (fun s => [ ("Name must be at least 2 characters long",
                  (2 <=? String.length s)%nat);
                 ("Name cannot exceed 100 characters",
                  (String.length s <=? 100)%nat) ])
   ++ checkPath "company" "Company name is required"
     (Candidate.company c) isEmpty
     (fun s => [ ("Company name must be at least 2 characters long",
                  (2 <=? String.length s)%nat);
                 ("Company name cannot exceed 100 characters",
                  (String.length s <=? 100)%nat) ])
   ++ checkPath "roofSize" "Roof size is required"
     (Candidate.roofSize c) (fun _ => false)
     (fun n => [ ("Invalid roof size. Must be between 1 and 1,000,000 square feet",
                  validateRoofSize (JS.Numeric n)) ])
   ++ checkPath "roofType" "Roof type is required"
     (Candidate.roofType c) isEmpty
     (fun s => [ ("Invalid roof type. Must be Metal, TPO, Foam, or Other",
                  validateRoofType (JS.Str s)) ])
   ++ checkPath "projectCity" "Project city is required"
     (Candidate.projectCity c) isEmpty (fun _ => [])
   ++ checkPath "projectState" "Project state is required"
     (Candidate.projectState c) isEmpty
     (fun s => [ ("Invalid state code. Must be a 2-letter US state code",
                  holds (validateStateCode (JS.Str s))) ])
   ++ checkPath "projectDate" "Project date is required"
     (Candidate.projectDate c) (fun _ => false)
     (fun d => [ ("Project date must be between now and 2 years from now",
                  validateDate (now env) (twoYearsFromNow env) d) ]))%list.

(** ** The document store *)

Definition Store : Type := list Quote.t.

(** The identifier of the next document: one the store has not used. *)
Definition freshId (store : Store) : nat :=
  S (foldr (fun q m => Nat.max (Quote._id q) m) 0%nat store).

(** [save] of a candidate that passed validation: the store assigns the
    identifier and both time stamps and appends the document.  A path
    without a value leaves no document to save. *)
Definition insert (env : Env) (store : Store) (c : Candidate.t) : option Quote.t :=
  match Candidate.contractorName c, Candidate.company c, Candidate.roofSize c,
        Candidate.roofType c, Candidate.projectCity c, Candidate.projectState c,
        Candidate.projectDate c with
  | Held name, Held company, Held size, Held type, Held city, Held state, Held date =>
      Some (Quote.mk (freshId store) name company size type city state date
                     (now env) (now env))
  | _, _, _, _, _, _, _ => None
  end.

(** A query object: the paths it constrains, each with the value the path
    must equal. *)
Definition QueryObject : Type := gmap string string.

(** The string paths of a quote a query may name. *)
Definition path (q : Quote.t) (name : string) : option string :=
  if name =? "contractorName" then Some (Quote.contractorName q)
  else if name =? "company" then Some (Quote.company q)
  else if name =? "roofType" then Some (Quote.roofType q)
  else if name =? "projectCity" then Some (Quote.projectCity q)
  else if name =? "projectState" then Some (Quote.projectState q)
  else None.

(** A document matches a query when it satisfies every entry of it. *)
Definition matchesQuery (query : QueryObject) (q : Quote.t) : Prop :=
  map_Forall (fun name v => path q name = Some v) query.

#[global] Instance matchesQuery_dec query q : Decision (matchesQuery query q).
Proof. unfold matchesQuery. apply map_Forall_dec. intros; apply _. Defined.

(** [Quote.find(query)], in insertion order. *)
Definition find (query : QueryObject) (store : Store) : list Quote.t :=
  filter (matchesQuery query) store.

(** [Quote.countDocuments(query)]. *)
Definition countDocuments (query : QueryObject) (store : Store) : Z :=
  Z.of_nat (length (find query store)).

(** [sort({ createdAt: -1 })]: the newer document first. *)
Definition newestFirst (a b : Quote.t) : Prop :=
  (Quote.createdAt b <= Quote.createdAt a)%Z.

#[global] Instance newestFirst_dec a b : Decision (newestFirst a b).
Proof. unfold newestFirst. apply _. Defined.

Definition sortByCreatedAtDesc (l : list Quote.t) : list Quote.t :=
  merge_sort newestFirst l.

(** [limit(n)]: zero is no limit, and a negative limit is its absolute
    value. *)
Definition applyLimit (n : Z) (l : list Quote.t) : list Quote.t :=
  if (n =? 0)%Z then l else take (Z.to_nat (Z.abs n)) l.

(** [Quote.find(query, null, { sort, limit, skip })]: the store refuses a
    negative skip. *)
Definition findWithOptions (query : QueryObject) (limit skip : Z) (store : Store)
    : option (list Quote.t) :=
  if (skip <? 0)%Z then None
  else Some (applyLimit limit
               (drop (Z.to_nat skip) (sortByCreatedAtDesc (find query store)))).

(** ** controllers/quoteController.js: createQuote *)

(** What a handler passes to [next]: an application error, or the
    validation error of the schema. *)
Inductive HandlerError : Type :=
| Operational (e : AppError.t)
| SchemaValidation (errors : list PathError).

(** The response of the submission route. *)
Inductive SubmitResponse : Type :=
| Created (quote : Quote.t)
| InvalidInput (errors : list ValidationError.t)
| SubmitNext (e : HandlerError).

(** [errors] is [validationResult(req).array()] as the chains left it. *)
Definition createQuote (env : Env) (store : Store) (body : Body.t)
    (errors : list ValidationError.t) : Store * SubmitResponse :=
  match errors with
  | _ :: _ => (store, InvalidInput errors)
  | [] =>
      let candidate := newQuote env body in
      match validateSync env candidate, insert env store candidate with
      | [], Some saved => ((store ++ [saved])%list, Created saved)
      | failed, _ => (store, SubmitNext (SchemaValidation failed))
      end
  end.

(** The route [POST /api/quotes]: the chains of [validateQuote] on the
    body, [validateRequest], then [createQuote]. *)
Definition postQuote (env : Env) (store : Store) (raw : Body.t)
    : Store * SubmitResponse :=
  let '(body, errors) := validateQuote env raw in
  match validateRequest errors with
  | Some e => (store, SubmitNext (Operational e))
  | None => createQuote env store body errors
  end.

(** ** controllers/quoteController.js: getQuotes *)

(** [req.query] of a listing or export request, as the handler reads it.
    A filter is absent or a text (a filter that is given more than once is
    an array, outside the embedding); [page] and [limit] hold the integers
    [parseInt] reads from them. *)
Module ReqQuery.
Record t : Type := mk {
  state : option string;
  roofType : option string;
  page : option Z;
  limit : option Z
}.
End ReqQuery.

(** [if (x) query.name = f(x)] for an optional string [x]: the entry is
    added when [x] is present and not empty. *)
Definition setIfTruthy (name : string) (x : option string) (f : string -> string)
    (query : QueryObject) : QueryObject :=
  match x with
  | Some s => if JS.truthy (JS.Str s) then <[name := f s]> query else query
  | None => query
  end.

(** The first lines of both handlers. *)
Definition buildQuery (state roofType : option string) : QueryObject :=
  setIfTruthy "roofType" roofType id
    (setIfTruthy "projectState" state JS.toUpperCase ∅).

Module Pagination.
Record t : Type := mk {
  currentPage : Z;
  totalPages : option Z;
  totalQuotes : Z;
  hasMore : bool
}.
End Pagination.

Module Listing.
Record t : Type := mk {
  quotes : list Quote.t;
  pagination : Pagination.t
}.
End Listing.

(** [Math.ceil(a / b)]: the quotient is exact; a division by zero is not a
    finite number and gives [None]. *)
Definition ceilDiv (a b : Z) : option Z :=
  if (b =? 0)%Z then None else Some (Qceiling (inject_Z a / inject_Z b)).

Definition getQuotes (store : Store) (req : ReqQuery.t) : option Listing.t :=
  let state := ReqQuery.state req in
  let roofType := ReqQuery.roofType req in
  let page := default 1%Z (ReqQuery.page req) in
  let limit := default 10%Z (ReqQuery.limit req) in
  let query := buildQuery state roofType in
  match findWithOptions query limit ((page - 1) * limit)%Z store with
  | None => None
  | Some quotes =>
      let total := countDocuments query store in
      Some (Listing.mk quotes
              (Pagination.mk page (ceilDiv total limit) total
                             (page * limit <? total)%Z))
  end.

(** ** controllers/quoteController.js: exportQuotesCSV *)

Definition csvHeader : list string :=
  [ "Contractor Name"; "Company"; "Roof Size (sq ft)"; "Roof Type";
    "Project City"; "Project State"; "Project Date"; "Submission Date" ].

(** The records the export writes: [Quote.find(query).sort(...)]. *)
Definition exportedQuotes (store : Store) (req : ReqQuery.t) : list Quote.t :=
  sortByCreatedAtDesc
    (find (buildQuery (ReqQuery.state req) (ReqQuery.roofType req)) store).

(** The cells pushed for one quote, as [join] writes them. *)
Definition csvRow (env : Env) (quote : Quote.t) : list string :=
  [ Quote.contractorName quote;
    Quote.company quote;
    JS.numberToString (Quote.roofSize quote);
    Quote.roofType quote;
    Quote.projectCity quote;
    Quote.projectState quote;
    toLocaleDateString env (Quote.projectDate quote);
    toLocaleDateString env (Quote.createdAt quote) ].

Definition newline : string := String "010" EmptyString.

Definition csvRows (env : Env) (store : Store) (req : ReqQuery.t) : list (list string) :=
  csvHeader :: map (csvRow env) (exportedQuotes store req).

(** The body of the response: [csvRows.map(row => row.join(",")).join("\n")]. *)
Definition exportQuotesCSV (env : Env) (store : Store) (req : ReqQuery.t) : string :=
  JS.join newline (map (JS.join ",") (csvRows env store req)).

(** ** utils/csvGenerator.js: formatField

    The field formatter of the CSV generator module; the controller does
    not call it. *)
Definition quote : string := String "034" EmptyString.

Definition formatField (field : JS.Value) : string :=
  match field with
  | JS.Null | JS.Undefined => EmptyString
  | _ =>
      let stringField := ToString field in
      if JS.includesChar "," stringField
         || JS.includesChar "010" stringField
         || JS.includesChar "034" stringField
      then quote +:+ JS.replaceAll "034" (quote +:+ quote) stringField +:+ quote
      else stringField
  end.

(** ** Notions the statements use *)

(** A chain passes on a value when each of its validators accepts the
    value as the sanitizers before it left it. *)
Fixpoint passesOn (reify : string -> JS.Value) (c : Chain) (v : string) : bool :=
  match c with
  | [] => true
  | Sanitizer f :: c' => passesOn JS.Str c' (f v)
  | StdValidator p _ :: c' => p v && passesOn reify c' v
  | Custom f :: c' =>
      match f (reify v) with None => true | Some _ => false end
      && passesOn reify c' v
  end.

(** A chain on a text. *)
Definition passes (c : Chain) (v : string) : bool := passesOn JS.Str c v.

(** The chain of a field. *)
Definition chainOf (env : Env) (f : string) : Chain :=
  if f =? "contractorName" then contractorNameChain
  else if f =? "company" then companyChain
  else if f =? "roofSize" then roofSizeChain
  else if f =? "roofType" then roofTypeChain
  else if f =? "projectCity" then projectCityChain
  else if f =? "projectState" then projectStateChain
  else if f =? "projectDate" then projectDateChain env
  else [].

Definition errorsOf (env : Env) (b : Body.t) (f : string) : list ValidationError.t :=
  snd (runField f (chainOf env f) (Body.get b f)).

(** The rule that the chain of each field applies to the value of the
    field, written out.  [text] is the text of the value: the value
    itself when it is a string, nothing when it is absent or [null]. *)
Definition lengthBetween (lo hi : nat) (s : string) : bool :=
  (lo <=? String.length s)%nat && (String.length s <=? hi)%nat.

(** A name: 2 to 100 characters once trimmed, all of them letters, white
    space, hyphens or apostrophes. *)
Definition nameRule (v : JS.Value) : bool :=
  let text := JS.trim (fieldText v) in
  lengthBetween 2 100 text && JS.all_chars nameChar text.

(** A company: 2 to 100 characters once trimmed. *)
Definition companyRule (v : JS.Value) : bool :=
  lengthBetween 2 100 (JS.trim (fieldText v)).

(** A roof size: a numeric text (a sign, digits, a point and digits)
    that reads as a number above 0 and below 1,000,000. *)
Definition roofSizeRule (v : JS.Value) : bool :=
  Validator.isNumeric (fieldText v) && Validator.isFloat 0 1000000 (fieldText v).

(** A roof type: one of the four, as it is written. *)
Definition roofTypeRule (v : JS.Value) : bool :=
  bool_decide (fieldText v ∈ validTypes).

(** A city: not empty once trimmed, and made of letters, white space,
    hyphens and apostrophes. *)
Definition cityRule (v : JS.Value) : bool :=
  let text := JS.trim (fieldText v) in
  negb (text =? "") && JS.all_chars nameChar text.

(** A state: two upper-case letters once trimmed. *)
Definition stateRule (v : JS.Value) : bool :=
  let text := JS.trim (fieldText v) in
  (String.length text =? 2)%nat && JS.all_chars JS.isUpper text.

(** A date: a calendar date, neither before now nor more than two years
    from now when it is a time. *)
Definition dateRule (env : Env) (v : JS.Value) : bool :=
  isDate env (fieldText v)
  && negb (dateBefore (newDate env v) (now env))
  && negb (dateAfter (newDate env v) (twoYearsFromNow env)).

Definition fieldRule (env : Env) (f : string) (v : JS.Value) : bool :=
  if f =? "contractorName" then nameRule v
  else if f =? "company" then companyRule v
  else if f =? "roofSize" then roofSizeRule v
  else if f =? "roofType" then roofTypeRule v
  else if f =? "projectCity" then cityRule v
  else if f =? "projectState" then stateRule v
  else if f =? "projectDate" then dateRule env v
  else true.

(** The text a sanitized string path stores for the text of the request:
    the trim and the escape of the chain, then the setters of the
    schema. *)
Definition storedText (raw : string) : string :=
  setSanitized (Validator.escape (Validator.trim raw)).


(** The request for one page of a listing, with the filters and the limit
    of [req]. *)
Definition atPage (req : ReqQuery.t) (page : Z) : ReqQuery.t :=
  ReqQuery.mk (ReqQuery.state req) (ReqQuery.roofType req) (Some page)
              (ReqQuery.limit req).

(** ** Worked requests and stores *)

(** Identifiers as texts of 24 hexadecimal digits. *)
Definition hexDigit (d : nat) : ascii :=
  if (d <? 10)%nat then ascii_of_nat (48 + d) else ascii_of_nat (87 + d).

Fixpoint hexText (digits : nat) (n : nat) : string :=
  match digits with
  | O => EmptyString
  | S k => hexText k (n / 16) +:+ String (hexDigit (n mod 16)) EmptyString
  end.

Definition readObjectId (s : string) : option nat :=
  if (String.length s =? 24)%nat then Z.to_nat <$> JS.digitsIn 16 0 s else None.

(** A clock that stands at 2 November 2026, a calendar that knows the date
    2 December 2026, the rendering of the two instants in the US
    locale, and identifiers of 24 hexadecimal digits. *)
Definition exampleEnv : Env :=
  mkEnv 1793577600000 1856736000000
        (fun s => s =? "2026-12-02")
        (fun s => if s =? "2026-12-02" then JS.Num 1796169600000 else JS.NaN)
        (fun t => if (t =? 1796169600000)%Z then "12/2/2026"
                  else if (t =? 1793577600000)%Z then "11/2/2026"
                  else "Invalid Date")
        readObjectId (hexText 24).

Definition exampleBody (contractorName company : string) (roofSize : Z) : Body.t :=
  Body.mk contractorName company (JS.Numeric (JS.Num roofSize)) "Metal" "Austin" "TX"
          "2026-12-02".

(** A body with an empty name and a roof size at the strict bound. *)
Definition rejectedBody : Body.t := exampleBody "" "Smith Roofing LLC" 1000000.


(** A body whose state is two upper-case letters that are no state. *)
Definition unknownStateBody : Body.t :=
  Body.mk "John Smith" "Smith Roofing LLC" (JS.Numeric (JS.Num 2500)) "Metal" "Austin"
          "ZZ" "2026-12-02".

(** The company of the specification's example: [O'Brien, "Pro" Roofing]. *)
Definition obrienCompany : string :=
  "O'Brien, " +:+ quote +:+ "Pro" +:+ quote +:+ " Roofing".

Definition obrienQuote : Quote.t :=
  Quote.mk 1 "John Smith" obrienCompany (JS.Num 2500) "Metal" "Austin" "TX"
           1796169600000 1793577600000 1793577600000.

(** A company with a line break in it, which the submission route
    accepts. *)
Definition twoLineCompany : string := "Acme" +:+ newline +:+ "Roofing".

Definition smithQuote : Quote.t :=
  Quote.mk 1 "John Smith" "Smith Roofing LLC" (JS.Num 2500) "Metal" "Austin" "TX"
           1796169600000 1793577600000 1793577600000.

Definition exampleStore : Store :=
  [ smithQuote;
    Quote.mk 2 "Ann Lee" "Lee Roofs" (JS.Num 1200) "TPO" "Reno" "NV"
             1796169600000 1793577601000 1793577601000;
    Quote.mk 3 "Bo Diaz" "Diaz Foam" (JS.Num 900) "Foam" "Dallas" "TX"
             1796169600000 1793577602000 1793577602000 ].

(** The Texan quotes, one per page; the third page is past the end. *)
Definition texasPage3 : ReqQuery.t := ReqQuery.mk (Some "tx") None (Some 3%Z) (Some 1%Z).

(** * The rest of the code *)

(** ** More of the JavaScript fragment *)

Fixpoint countChar (c : ascii) (s : string) : nat :=
  match s with
  | EmptyString => 0
  | String d s' => (if Ascii.eqb c d then 1 else 0) + countChar c s'
  end.

(** The text before the first occurrence of [c], and the text after it;
    [None] when [c] does not occur. *)
Fixpoint splitAtFirst (c : ascii) (s : string) : option (string * string) :=
  match s with
  | EmptyString => None
  | String d s' =>
      if Ascii.eqb c d then Some (EmptyString, s')
      else match splitAtFirst c s' with
           | Some (a, b) => Some (String d a, b)
           | None => None
           end
  end.

(** ** utils/validation.js: the validators the schema does not use *)

(** The class [[^\s@]]. *)
Definition emailChar (c : ascii) : bool :=
  negb (JS.isWhiteSpace c) && negb (Ascii.eqb c "@").

(** [\.[^\s@]+$] somewhere in a run of [[^\s@]]: a point that is followed
    by at least one more character. *)
Fixpoint pointThenMore (s : string) : bool :=
  match s with
  | EmptyString => false
  | String c s' => (Ascii.eqb c "." && negb (s' =? "")) || pointThenMore s'
  end.

(** [/^[^\s@]+@[^\s@]+\.[^\s@]+$/]: the first run cannot cross an [@], so
    the [@] of the pattern is the first one of the string; what follows it
    is a run of [[^\s@]] of which a point, neither first nor last, is the
    [\.] of the pattern. *)
Definition emailRegex (s : string) : bool :=
  match splitAtFirst "@" s with
  | None => false
  | Some (name, domain) =>
      negb (name =? "") && JS.all_chars emailChar name
      && JS.all_chars emailChar domain
      && match domain with
         | EmptyString => false
         | String _ rest => pointThenMore rest
         end
  end.

(** [emailRegex.test(email)]: the test converts its argument to a text. *)
Definition validateEmail (email : JS.Value) : bool := emailRegex (ToString email).

(** The class [[\d+]] that [phone.replace(/[^\d+]/g, "")] keeps. *)
Definition phoneChar (c : ascii) : bool := JS.isDigit c || Ascii.eqb c "+".

(** [\d{lo,hi}$]. *)
Definition digitsBetween (lo hi : nat) (s : string) : bool :=
  JS.all_chars JS.isDigit s
  && (lo <=? String.length s)%nat && (String.length s <=? hi)%nat.

(** [/^\+?1?\d{10,14}$/]: a leading plus is taken when there is one (no
    other part of the pattern can match it); a leading 1 is taken as the
    optional [1], and when the rest then fails it is read as the first
    digit instead. *)
Definition phoneRegex (s : string) : bool :=
  let s1 := match s with String "+" r => r | _ => s end in
  match s1 with
  | String "1" r => digitsBetween 10 14 r || digitsBetween 10 14 s1
  | _ => digitsBetween 10 14 s1
  end.

(** [phone.replace] exists on strings only: any other value throws. *)
Definition validatePhone (phone : JS.Value) : JS.Completion bool :=
  match phone with
  | JS.Str s => JS.Normal (phoneRegex (JS.filter_chars phoneChar s))
  | _ => JS.Throw JS.TypeError
  end.

(** [typeof value === "number" && value >= 0 && value <= 1000000000]. *)
Definition validatePrice (value : JS.Value) : bool :=
  match value with
  | JS.Numeric _ => JS.ge value 0 && JS.le value 1000000000
  | _ => false
  end.

(** The digits of a telephone number, in the shape the pattern accepts:
    ten to fourteen digits, or fifteen digits of which the first is 1. *)
Definition phoneDigits (d : string) : Prop :=
  JS.all_chars JS.isDigit d = true
  /\ (10 <= String.length d <= 14
      \/ (String.length d = 15 /\ exists r, d = String "1" r)).

(** ** utils/csvGenerator.js: generateQuotesCSV *)

Definition generatorHeaders : list string :=
  [ "Contractor Name"; "Company"; "Roof Size (sq ft)"; "Roof Type";
    "Project City"; "Project State"; "Project Date" ].

(** The values of one quote that the generator formats.  [isoDate] is the
    date part of [toISOString()]; a stored project date is a date object,
    which is never falsy. *)
Definition generatorCells (isoDate : Z -> string) (quote : Quote.t) : list JS.Value :=
  [ JS.Str (Quote.contractorName quote);
    JS.Str (Quote.company quote);
    JS.Numeric (Quote.roofSize quote);
    JS.Str (Quote.roofType quote);
    JS.Str (Quote.projectCity quote);
    JS.Str (Quote.projectState quote);
    JS.Str (isoDate (Quote.projectDate quote)) ].

Definition generatorRow (isoDate : Z -> string) (quote : Quote.t) : string :=
  JS.join "," (map formatField (generatorCells isoDate quote)).

(** [quotesData] is [None] for [null] or [undefined]: its [length] is read
    for the log line before the guard, which throws.  The data are stored
    quotes. *)
Definition generateQuotesCSV (isoDate : Z -> string)
    (quotesData : option (list Quote.t)) : JS.Completion string :=
  match quotesData with
  | None => JS.Throw JS.TypeError
  | Some [] =>
      JS.Normal
        ("Contractor Name,Company,Roof Size (sq ft),Roof Type,Project City,Project State,Project Date"
         +:+ newline)
  | Some quotes =>
      JS.Normal
        (JS.join newline
           (JS.join "," generatorHeaders :: map (generatorRow isoDate) quotes))
  end.

(** ** Reading a CSV text

    The reader the generator is measured against: records end at a line
    feed or a carriage return that is not inside quotes, a cell that opens
    with a quote runs to the next quote that is not doubled, a doubled
    quote inside it is one quote, and any other cell runs to the next
    comma or to the end of the record. *)
Inductive CsvMode : Type := AtStart | InPlain | InQuoted | AfterQuote.

Definition isLineBreak (c : ascii) : bool := Ascii.eqb c "010" || Ascii.eqb c "013".

(** The records of a text.  [cell] is the cell being read and [row] the
    cells of the record before it; a line break at the very end of the
    text ends the last record and starts no other. *)
Fixpoint readCsv (m : CsvMode) (row : list string) (cell : string) (s : string)
    : list (list string) :=
  match s with
  | EmptyString =>
      match m, row, cell with
      | AtStart, [], EmptyString => []
      | _, _, _ => [(row ++ [cell])%list]
      end
  | String c s' =>
      match m with
      | InQuoted =>
          if Ascii.eqb c "034" then readCsv AfterQuote row cell s'
          else readCsv InQuoted row (cell +:+ String c EmptyString) s'
      | _ =>
          if Ascii.eqb c "," then readCsv AtStart (row ++ [cell])%list EmptyString s'
          else if isLineBreak c then (row ++ [cell])%list :: readCsv AtStart [] EmptyString s'
          else if Ascii.eqb c "034" then
            match m with
            | AtStart => readCsv InQuoted row cell s'
            | AfterQuote => readCsv InQuoted row (cell +:+ String c EmptyString) s'
            | _ => readCsv InPlain row (cell +:+ String c EmptyString) s'
            end
          else readCsv InPlain row (cell +:+ String c EmptyString) s'
      end
  end.

(** A text with no comma, line feed or quote in it. *)
Definition plainCell (s : string) : bool :=
  negb (JS.includesChar "," s || JS.includesChar "010" s || JS.includesChar "034" s).

(** A text with no carriage return in it. *)
Definition noCarriageReturn (s : string) : bool := negb (JS.includesChar "013" s).

(** ** controllers/quoteController.js: generateQuotePDF *)

(** [Quote.findById(id)]: the text is cast to an identifier first; on a
    malformed text the cast fails and the query is rejected ([None]), and
    otherwise the answer is the stored quote with that identifier, if
    any. *)
Definition findById (env : Env) (store : Store) (id : string) : option (option Quote.t) :=
  match castObjectId env id with
  | None => None
  | Some n => Some (snd <$> list_find (fun q => Quote._id q = n) store)
  end.

(** What the handler asks of the PDF document, in order. *)
Inductive PdfOp : Type :=
| FontSize (size : Z)
| Text (text : string) (centered : bool)
| MoveDown.

(** The answers of the handler: 404 with a message, the document, or the
    cast error of the identifier passed to [next]. *)
Inductive PdfResponse : Type :=
| PdfNotFound (message : string)
| PdfDocument (contentType contentDisposition : string) (doc : list PdfOp)
| PdfCastError.

Definition generateQuotePDF (env : Env) (store : Store) (id : string) : PdfResponse :=
  match findById env store id with
  | None => PdfCastError
  | Some None => PdfNotFound "Quote not found"
  | Some (Some quote) =>
      PdfDocument "application/pdf"
        ("attachment; filename=quote-" +:+ objectIdText env (Quote._id quote) +:+ ".pdf")
        [ FontSize 20; Text "Roofing Project Quote" true; MoveDown;
          FontSize 14; Text "Company Information" false;
          FontSize 12;
          Text ("Contractor: " +:+ Quote.contractorName quote) false;
          Text ("Company: " +:+ Quote.company quote) false;
          MoveDown;
          FontSize 14; Text "Project Details" false;
          FontSize 12;
          Text ("Roof Size: " +:+ JS.numberToString (Quote.roofSize quote) +:+ " sq ft") false;
          Text ("Roof Type: " +:+ Quote.roofType quote) false;
          Text ("Location: " +:+ Quote.projectCity quote +:+ ", "
                +:+ Quote.projectState quote) false;
          Text ("Project Date: " +:+ toLocaleDateString env (Quote.projectDate quote)) false;
          MoveDown;
          FontSize 10;
          Text "This quote is valid for 30 days from the project date." true ]
  end.

(** ** More notions the statements use *)

(** What a filter asks of a quote: nothing when it is absent or empty,
    and otherwise that the path equals the wanted text. *)
Definition filterHolds (wanted : option string) (f : string -> string)
    (actual : string) : Prop :=
  match wanted with
  | None => True
  | Some s => s = EmptyString \/ actual = f s
  end.

(** ** client/src/utils/api.js: getQuotes, and the fetch of QuotesList *)

(** The filters object the client passes: each entry may be absent; a
    page and a limit are integers. *)
Module Filters.
Record t : Type := mk {
  state : option string;
  roofType : option string;
  page : option Z;
  limit : option Z
}.
End Filters.

(** [if (filters.x) params.append("x", filters.x)] for a text: an empty
    text is not sent. *)
Definition appendText (x : option string) : option string :=
  match x with
  | Some s => if JS.truthy (JS.Str s) then Some s else None
  | None => None
  end.

(** The same for an integer: zero is not sent, and the server reads the
    digits that were sent back as the number. *)
Definition appendNumber (x : option Z) : option Z :=
  match x with
  | Some n => if JS.truthy (JS.Numeric (JS.Num n)) then Some n else None
  | None => None
  end.

(** The query string [getQuotes(filters)] requests. *)
Definition clientQuery (filters : Filters.t) : ReqQuery.t :=
  ReqQuery.mk (appendText (Filters.state filters))
              (appendText (Filters.roofType filters))
              (appendNumber (Filters.page filters))
              (appendNumber (Filters.limit filters)).

(** [fetchQuotes] of the list component: it passes its two filter texts
    and no page, and shows [data.quotes], or nothing when the request
    fails. *)
Definition fetchQuotes (store : Store) (state roofType : string) : list Quote.t :=
  match getQuotes store (clientQuery (Filters.mk (Some state) (Some roofType) None None)) with
  | Some data => Listing.quotes data
  | None => []
  end.

(** ** utils/AppError.js: the factories *)

(** [message || fallback]: an absent or empty message gives the fallback. *)
Definition orElse (message : option string) (fallback : string) : string :=
  match message with
  | Some m => if JS.truthy (JS.Str m) then m else fallback
  | None => fallback
  end.

(** [new AppError(message, 400)]: an absent message is the empty text. *)
Definition badRequest (message : option string) : AppError.t :=
  AppError.new (default EmptyString message) 400.
Definition unauthorized (message : option string) : AppError.t :=
  AppError.new (orElse message "Unauthorized access") 401.
Definition forbidden (message : option string) : AppError.t :=
  AppError.new (orElse message "Forbidden access") 403.
Definition notFound (message : option string) : AppError.t :=
  AppError.new (orElse message "Resource not found") 404.
Definition conflict (message : option string) : AppError.t :=
  AppError.new (orElse message "Resource conflict") 409.
Definition validation (message : option string) : AppError.t :=
  AppError.new (orElse message "Validation failed") 422.
Definition internal (message : option string) : AppError.t :=
  AppError.new (orElse message "Internal server error") 500.

(** ** middleware/errorHandler.js *)

(** An error as the handler reads it.  [name], [code], [type], [errors]
    and [errmsg] are the properties that the copy [{ ...err }] holds;
    [message] and [stack] are read from the error itself. *)
Module Err.
Record t : Type := mk {
  name : option string;
  code : option Z;
  type : option string;
  statusCode : option Z;
  status : option string;
  isOperational : bool;
  message : string;
  stack : string;
  path : JS.Value;
  value : JS.Value;
  errors : option (list string);
  errmsg : option string
}.
End Err.

(** An [AppError] as an error object: its name is the inherited [Error],
    and it holds its code, its status and the operational flag. *)
Definition ofAppError (e : AppError.t) : Err.t :=
  Err.mk (Some "Error") None None
         (Some (AppError.statusCode e)) (Some (AppError.status e))
         (AppError.isOperational e) (AppError.message e) EmptyString
         JS.Undefined JS.Undefined None None.

(** The copy of a thrown [AppError]: the inherited name is not copied. *)
Definition thrownAppError (e : AppError.t) : Err.t :=
  Err.mk None None None
         (Some (AppError.statusCode e)) (Some (AppError.status e))
         (AppError.isOperational e) (AppError.message e) EmptyString
         JS.Undefined JS.Undefined None None.

Definition isLineTerminator (c : ascii) : bool :=
  (JS.code c =? 10)%nat || (JS.code c =? 13)%nat.

Definition isQuoteChar (c : ascii) : bool := Ascii.eqb c "034" || Ascii.eqb c "'".

(** The rest of the pattern after an opening quote [q] (a lazy star of
    an optional backslash and one character, then the same quote again):
    the text up to and with the closing quote.  The lazy star leaves at
    the first [q]; otherwise one more step is taken, a backslash with the
    character after it first, and, when what follows then fails, the
    character alone. *)
Fixpoint quotedTail (q : ascii) (s : string) : option string :=
  match s with
  | EmptyString => None
  | String c rest =>
      if Ascii.eqb c q then Some (String c EmptyString)
      else
        let alone :=
          if isLineTerminator c then None
          else String c <$> quotedTail q rest in
        if Ascii.eqb c "\" then
          match rest with
          | String d rest' =>
              if isLineTerminator d then alone
              else match quotedTail q rest' with
                   | Some m => Some (String c (String d m))
                   | None => alone
                   end
          | EmptyString => alone
          end
        else alone
  end.

(** [errmsg.match] with the pattern of a quoted segment (a single or a
    double quote, the lazy star, the same quote): the leftmost match,
    [None] for [null]. *)
Fixpoint firstQuoted (s : string) : option string :=
  match s with
  | EmptyString => None
  | String c rest =>
      if isQuoteChar c then
        match quotedTail c rest with
        | Some m => Some (String c m)
        | None => firstQuoted rest
        end
      else firstQuoted rest
  end.

Definition handleCastErrorDB (err : Err.t) : AppError.t :=
  AppError.new ("Invalid " +:+ ToString (Err.path err) +:+ ": "
                +:+ ToString (Err.value err)) 400.

(** Reading [match] of an absent [errmsg], or [[0]] of [null], throws. *)
Definition handleDuplicateFieldsDB (err : Err.t) : JS.Completion AppError.t :=
  match Err.errmsg err with
  | None => JS.Throw JS.TypeError
  | Some errmsg =>
      match firstQuoted errmsg with
      | None => JS.Throw JS.TypeError
      | Some value =>
          JS.Normal
            (AppError.new ("Duplicate field value: " +:+ value
                           +:+ ". Please use another value!") 400)
      end
  end.

(** [Object.values] of absent [errors] throws. *)
Definition handleValidationErrorDB (err : Err.t) : JS.Completion AppError.t :=
  match Err.errors err with
  | None => JS.Throw JS.TypeError
  | Some errors =>
      JS.Normal (AppError.new ("Invalid input data. " +:+ JS.join ". " errors) 400)
  end.

Definition handleJSONParseError : AppError.t :=
  AppError.new "Invalid JSON format in request body" 400.

Definition handleMongooseError (err : Err.t) : Err.t :=
  if bool_decide (Err.name err = Some "MongooseError") then
    ofAppError (AppError.new "Database operation failed. Please try again." 500)
  else err.

Definition handleMongoServerError : AppError.t :=
  AppError.new "Database connection error. Please try again later." 503.

(** What the handler does with the response. *)
Inductive Handled : Type :=
| Delegated
| DevJson (statusCode : option Z) (status : option string) (error : Err.t)
    (message stack : string)
| ProdJson (statusCode : option Z) (status : option string) (message : string).

(** [x || fallback] on a number and on a text. *)
Definition codeOr (x : option Z) (fallback : Z) : Z :=
  match x with
  | Some n => if JS.truthy (JS.Numeric (JS.Num n)) then n else fallback
  | None => fallback
  end.

Definition sendErrorDev (err : Err.t) : Handled :=
  DevJson (Err.statusCode err) (Err.status err) err (Err.message err) (Err.stack err).

Definition sendErrorProd (err : Err.t) : Handled :=
  if Err.isOperational err then
    ProdJson (Err.statusCode err) (Err.status err) (Err.message err)
  else ProdJson (Some 500%Z) (Some "error") "Something went wrong!".

(** One [if (test) error = handler(error)] of the handler, after the ones
    before it. *)
Definition thenIf (test : Err.t -> bool) (handler : Err.t -> JS.Completion Err.t)
    (error : JS.Completion Err.t) : JS.Completion Err.t :=
  match error with
  | JS.Normal e => if test e then handler e else JS.Normal e
  | JS.Throw x => JS.Throw x
  end.

Definition mapNormal {A B} (f : A -> B) (c : JS.Completion A) : JS.Completion B :=
  match c with JS.Normal a => JS.Normal (f a) | JS.Throw x => JS.Throw x end.

(** The handler; [development] says whether [NODE_ENV] is
    ["development"]. *)
Definition errorHandler (development headersSent : bool) (err : Err.t)
    : JS.Completion Handled :=
  if headersSent then JS.Normal Delegated
  else
    let err :=
      Err.mk (Err.name err) (Err.code err) (Err.type err)
             (Some (codeOr (Err.statusCode err) 500))
             (Some (orElse (Err.status err) "error"))
             (Err.isOperational err) (Err.message err) (Err.stack err)
             (Err.path err) (Err.value err) (Err.errors err) (Err.errmsg err) in
    if development then JS.Normal (sendErrorDev err)
    else
      let error := JS.Normal err in
      let error :=
        thenIf (fun e => bool_decide (Err.name e = Some "CastError"))
               (fun e => JS.Normal (ofAppError (handleCastErrorDB e))) error in
      let error :=
        thenIf (fun e => bool_decide (Err.code e = Some 11000%Z))
               (fun e => mapNormal ofAppError (handleDuplicateFieldsDB e)) error in
      let error :=
        thenIf (fun e => bool_decide (Err.name e = Some "ValidationError"))
               (fun e => mapNormal ofAppError (handleValidationErrorDB e)) error in
      let error :=
        thenIf (fun e => bool_decide (Err.type e = Some "entity.parse.failed"))
               (fun _ => JS.Normal (ofAppError handleJSONParseError)) error in
      let error :=
        thenIf (fun e => bool_decide (Err.name e = Some "MongooseError"))
               (fun e => JS.Normal (handleMongooseError e)) error in
      let error :=
        thenIf (fun e => bool_decide (Err.name e = Some "MongoServerError"))
               (fun _ => JS.Normal (ofAppError handleMongoServerError)) error in
      mapNormal sendErrorProd error.

(** An error of a kind the handler knows. *)
Definition recognised (err : Err.t) : bool :=
  bool_decide (Err.name err = Some "CastError")
  || bool_decide (Err.code err = Some 11000%Z)
  || bool_decide (Err.name err = Some "ValidationError")
  || bool_decide (Err.type err = Some "entity.parse.failed")
  || bool_decide (Err.name err = Some "MongooseError")
  || bool_decide (Err.name err = Some "MongoServerError").

(** * Properties *)

(** ** Letter case *)

Lemma upperChar_lowerChar (c : ascii) : JS.upperChar (JS.lowerChar c) = JS.upperChar c.
Proof. destruct c as [[] [] [] [] [] [] [] []]; reflexivity. Qed.

Lemma upperChar_idem (c : ascii) : JS.upperChar (JS.upperChar c) = JS.upperChar c.
Proof. destruct c as [[] [] [] [] [] [] [] []]; reflexivity. Qed.

Lemma toUpperCase_toLowerCase (s : string) :
  JS.toUpperCase (JS.toLowerCase s) = JS.toUpperCase s.
Proof.
  unfold JS.toUpperCase, JS.toLowerCase.
  induction s as [|c s IH]; simpl; [reflexivity|].
  now rewrite upperChar_lowerChar, IH.
Qed.

Lemma toUpperCase_idem (s : string) :
  JS.toUpperCase (JS.toUpperCase s) = JS.toUpperCase s.
Proof.
  unfold JS.toUpperCase.
  induction s as [|c s IH]; simpl; [reflexivity|].
  now rewrite upperChar_idem, IH.
Qed.

Lemma map_chars_empty (f : ascii -> ascii) (s : string) :
  (JS.map_chars f s =? "") = (s =? "").
Proof. destruct s; reflexivity. Qed.

(** Two state filters that agree once upper-cased build the same query. *)
Lemma buildQuery_case (s1 s2 : string) (roofType : option string) :
  JS.toUpperCase s1 = JS.toUpperCase s2 ->
  buildQuery (Some s1) roofType = buildQuery (Some s2) roofType.
Proof.
  intros H. unfold buildQuery. f_equal. simpl.
  assert (E : (s1 =? "") = (s2 =? "")).
  { rewrite <- (map_chars_empty JS.upperChar s1), <- (map_chars_empty JS.upperChar s2).
    unfold JS.toUpperCase in H. now rewrite H. }
  rewrite E, H. reflexivity.
Qed.

(** ** Field validators *)

(** The state code validator answers on every string. *)
Lemma validateStateCode_string (s : string) :
  JS.returns (validateStateCode (JS.Str s)) = true.
Proof. reflexivity. Qed.

(** C8: the validators are not all total.  [validateStateCode] applied to
    [null], to [undefined], to a number or to a boolean throws a
    [TypeError] instead of answering with a boolean. *)
Theorem validateStateCode_throws_on_non_string :
  validateStateCode JS.Null = JS.Throw JS.TypeError
  /\ validateStateCode JS.Undefined = JS.Throw JS.TypeError
  /\ validateStateCode (JS.Numeric (JS.Num 12)) = JS.Throw JS.TypeError
  /\ (forall v, JS.returns (validateStateCode v) = true <-> exists s, v = JS.Str s).
Proof.
  repeat split; try reflexivity.
  - destruct v; simpl; intros H; try discriminate. now exists s.
  - intros [s ->]. reflexivity.
Qed.

(** ** Roof sizes: rendering an integer and reading it back *)

Lemma append_empty (s : string) : s +:+ "" = s.
Proof.
  induction s as [|c s IH]; [reflexivity|].
  change (String c (s +:+ "") = String c s). now rewrite IH.
Qed.

Lemma spanDigits_uint (d : Decimal.uint) :
  JS.spanDigits (NilEmpty.string_of_uint d) = (NilEmpty.string_of_uint d, "").
Proof. induction d; simpl; try rewrite IHd; reflexivity. Qed.

Ltac digit_value :=
  repeat match goal with
         | |- context [JS.digitValue ?c] =>
             let v := eval vm_compute in (JS.digitValue c) in
             change (JS.digitValue c) with v
         end.

Lemma digitsValue_acc (d : Decimal.uint) (acc : positive) :
  JS.digitsValue (Z.pos acc) (NilEmpty.string_of_uint d) = Z.pos (Pos.of_uint_acc d acc).
Proof.
  revert acc. induction d; intros acc; simpl; [reflexivity|..];
    digit_value; rewrite <- IHd; f_equal; lia.
Qed.

Lemma digitsValue_uint (d : Decimal.uint) :
  JS.digitsValue 0 (NilEmpty.string_of_uint d) = Z.of_N (Pos.of_uint d).
Proof.
  induction d; simpl; [reflexivity|..]; digit_value; simpl;
    first [assumption | apply digitsValue_acc].
Qed.

(** The rendering of a positive integer is a digit followed by digits,
    and reading the digits gives the integer back. *)
Lemma toString_pos (p : positive) :
  exists c s,
    JS.toString (Z.pos p) = String c s
    /\ JS.isDigit c = true
    /\ JS.spanDigits s = (s, "")
    /\ JS.digitsValue 0 (String c s) = Z.pos p.
Proof.
  assert (E : JS.toString (Z.pos p) = NilEmpty.string_of_uint (Pos.to_uint p)).
  { unfold JS.toString. simpl. pose proof (Unsigned.to_uint_nonnil p).
    destruct (Pos.to_uint p); [contradiction|reflexivity..]. }
  assert (V : JS.digitsValue 0 (JS.toString (Z.pos p)) = Z.pos p)
    by now rewrite E, digitsValue_uint, Unsigned.of_to.
  rewrite E in *. pose proof (Unsigned.to_uint_nonnil p).
  destruct (Pos.to_uint p) as [|d|d|d|d|d|d|d|d|d|d]; [contradiction|..];
    do 2 eexists; (split; [reflexivity|]); (split; [reflexivity|]);
    (split; [apply spanDigits_uint|exact V]).
Qed.

Lemma toString_neg (p : positive) :
  JS.toString (Z.neg p) = String "-" (JS.toString (Z.pos p)).
Proof. reflexivity. Qed.

Lemma Qlt_bool_inject_l (a b : Z) :
  Validator.Qlt_bool (inject_Z a * Qpower (inject_Z 10) 0) (inject_Z b) = (a <? b)%Z.
Proof.
  unfold Validator.Qlt_bool, Qle_bool. simpl.
  rewrite Z.ltb_antisym. do 2 f_equal; lia.
Qed.

Lemma Qlt_bool_inject_r (a b : Z) :
  Validator.Qlt_bool (inject_Z b) (inject_Z a * Qpower (inject_Z 10) 0) = (b <? a)%Z.
Proof.
  unfold Validator.Qlt_bool, Qle_bool. simpl.
  rewrite Z.ltb_antisym. do 2 f_equal; lia.
Qed.

Ltac digit_cases c H :=
  destruct c as [[] [] [] [] [] [] [] []];
  try (vm_compute in H; discriminate H); clear H.

Lemma isNumeric_digits (c : ascii) (s : string) :
  JS.isDigit c = true -> JS.spanDigits s = (s, "") ->
  Validator.isNumeric (String c s) = true
  /\ Validator.isNumeric (String "-" (String c s)) = true.
Proof.
  intros Hc Hs. digit_cases c Hc;
    unfold Validator.isNumeric; simpl; rewrite Hs; split; reflexivity.
Qed.

Lemma isFloat_digits (gt lt : Z) (c : ascii) (s : string) :
  JS.isDigit c = true -> JS.spanDigits s = (s, "") ->
  let n := JS.digitsValue 0 (String c s) in
  Validator.isFloat gt lt (String c s) = ((n <? lt) && (gt <? n))%Z
  /\ Validator.isFloat gt lt (String "-" (String c s)) = ((- n <? lt) && (gt <? - n))%Z.
Proof.
  intros Hc Hs n. subst n. digit_cases c Hc;
    unfold Validator.isFloat, Validator.parseFloat; simpl; rewrite Hs; simpl;
    rewrite append_empty, !Qlt_bool_inject_l, !Qlt_bool_inject_r;
    split; repeat f_equal; lia.
Qed.

(** The chain of the controller accepts the integers strictly between 0
    and 1,000,000. *)
Lemma roofSizeChain_accepts (n : Z) :
  passes roofSizeChain (JS.toString n) = ((0 <? n) && (n <? 1000000))%Z.
Proof.
  destruct n as [|p|p]; [reflexivity|..]; try rewrite toString_neg;
    destruct (toString_pos p) as (c & s & -> & Hc & Hs & Hv);
    destruct (isNumeric_digits c s Hc Hs) as [Hn Hn'];
    destruct (isFloat_digits 0 1000000 c s Hc Hs) as [Hf Hf'];
    cbv zeta in Hf, Hf'; rewrite Hv in Hf, Hf';
    unfold roofSizeChain, passes, passesOn; rewrite ?Hn, ?Hn', ?Hf, ?Hf'; simpl.
  - now rewrite !andb_true_r.
  - reflexivity.
Qed.

(** The validator of the schema accepts the integers above 0 up to
    1,000,000, the bound included. *)
Lemma validateRoofSize_accepts (n : Z) :
  validateRoofSize (JS.Numeric (JS.Num n)) = ((0 <? n) && (n <=? 1000000))%Z.
Proof. reflexivity. Qed.

(** C1: the two layers do not decide alike.  On every integer roof size
    the chain of the controller accepts exactly [0 < n < 1000000], because
    [isFloat] is given the strict bound [lt], and [validateRoofSize] of
    the schema accepts exactly [0 < n <= 1000000]; at 1,000,000 the chain
    reports its error and the schema validator accepts. *)
Theorem roofSize_layers_disagree_at_upper_bound :
  (forall n : Z,
     passes roofSizeChain (JS.toString n) = ((0 <? n) && (n <? 1000000))%Z
     /\ validateRoofSize (JS.Numeric (JS.Num n)) = ((0 <? n) && (n <=? 1000000))%Z)
  /\ snd (runChain "roofSize" (fun _ => JS.Numeric (JS.Num 1000000))
            roofSizeChain (JS.toString 1000000))
     = [ ValidationError.mk "roofSize"
           "Roof size must be between 1 and 1,000,000 square feet"
           (JS.Numeric (JS.Num 1000000)) ]
  /\ validateRoofSize (JS.Numeric (JS.Num 1000000)) = true.
Proof.
  split; [|split; vm_compute; reflexivity].
  intros n. split; [apply roofSizeChain_accepts|apply validateRoofSize_accepts].
Qed.

(** ** Retrieval *)

(** C9: an empty string in [state] or in [roofType] is no filter, for the
    listing and for the export. *)
Theorem empty_filter_is_no_filter
    (env : Env) (store : Store) (state roofType : option string) (page limit : option Z) :
  getQuotes store (ReqQuery.mk (Some "") roofType page limit)
  = getQuotes store (ReqQuery.mk None roofType page limit)
  /\ getQuotes store (ReqQuery.mk state (Some "") page limit)
     = getQuotes store (ReqQuery.mk state None page limit)
  /\ exportQuotesCSV env store (ReqQuery.mk (Some "") roofType page limit)
     = exportQuotesCSV env store (ReqQuery.mk None roofType page limit)
  /\ exportQuotesCSV env store (ReqQuery.mk state (Some "") page limit)
     = exportQuotesCSV env store (ReqQuery.mk state None page limit).
Proof. repeat split; reflexivity. Qed.

(** ** Pages of the listing *)

Lemma length_sortByCreatedAtDesc (l : list Quote.t) :
  length (sortByCreatedAtDesc l) = length l.
Proof. apply Permutation_length, merge_sort_Permutation. Qed.

Lemma exportedQuotes_length (store : Store) (req : ReqQuery.t) :
  Z.of_nat (length (exportedQuotes store req))
  = countDocuments (buildQuery (ReqQuery.state req) (ReqQuery.roofType req)) store.
Proof. unfold exportedQuotes, countDocuments. now rewrite length_sortByCreatedAtDesc. Qed.

(** The ceiling of an exact quotient by a positive divisor is the least
    number of pages of that size that hold the total. *)
Lemma ceilDiv_spec (a b : Z) :
  (0 < b)%Z ->
  exists p, ceilDiv a b = Some p /\ ((p - 1) * b < a <= p * b)%Z.
Proof.
  intros Hb. unfold ceilDiv.
  destruct (Z.eqb_spec b 0) as [->|_]; [lia|].
  eexists; split; [reflexivity|].
  destruct b as [|d|d]; try lia.
  unfold Qceiling, Qdiv, Qmult, Qinv, inject_Z, Qopp, Qfloor; simpl.
  rewrite ?Z.mul_1_r, ?Pos.mul_1_l.
  pose proof (Z.mul_div_le (- a) (Z.pos d) ltac:(lia)).
  pose proof (Z.mul_succ_div_gt (- a) (Z.pos d) ltac:(lia)).
  lia.
Qed.

(** With a page and a limit of at least one, the listing answers with a
    slice of the sorted matches and with the metadata of the whole match
    set. *)
Lemma getQuotes_slice (store : Store) (req : ReqQuery.t) :
  let page := default 1%Z (ReqQuery.page req) in
  let limit := default 10%Z (ReqQuery.limit req) in
  let total := Z.of_nat (length (exportedQuotes store req)) in
  (1 <= page)%Z -> (1 <= limit)%Z ->
  getQuotes store req
  = Some (Listing.mk
            (take (Z.to_nat limit)
               (drop (Z.to_nat ((page - 1) * limit)) (exportedQuotes store req)))
            (Pagination.mk page (ceilDiv total limit) total (page * limit <? total)%Z)).
Proof.
  intros page limit total Hp Hl. subst total.
  rewrite exportedQuotes_length.
  unfold getQuotes, findWithOptions, applyLimit, exportedQuotes.
  fold page limit.
  destruct (Z.ltb_spec ((page - 1) * limit) 0); [nia|].
  destruct (Z.eqb_spec limit 0); [lia|].
  now rewrite Z.abs_eq by lia.
Qed.

(** C5: the pagination metadata.  For a page and a limit of at least one,
    [totalQuotes] is the number of all matches, [totalPages] is the
    ceiling of [totalQuotes / limit] (the least [p] with
    [totalQuotes <= p * limit]), [hasMore] says whether
    [page * limit < totalQuotes], and a page beyond [totalPages] has no
    quotes and [hasMore] false. *)
Theorem pagination_metadata (store : Store) (req : ReqQuery.t) :
  let page := default 1%Z (ReqQuery.page req) in
  let limit := default 10%Z (ReqQuery.limit req) in
  let total :=
    Z.of_nat (length (find (buildQuery (ReqQuery.state req) (ReqQuery.roofType req)) store)) in
  (1 <= page)%Z -> (1 <= limit)%Z ->
  exists listing totalPages,
    getQuotes store req = Some listing
    /\ Pagination.currentPage (Listing.pagination listing) = page
    /\ Pagination.totalQuotes (Listing.pagination listing) = total
    /\ Pagination.totalPages (Listing.pagination listing) = Some totalPages
    /\ totalPages = Qceiling (inject_Z total / inject_Z limit)
    /\ ((totalPages - 1) * limit < total <= totalPages * limit)%Z
    /\ Pagination.hasMore (Listing.pagination listing) = (page * limit <? total)%Z
    /\ ((totalPages < page)%Z ->
        Listing.quotes listing = []
        /\ Pagination.hasMore (Listing.pagination listing) = false).
Proof.
  intros page limit total Hp Hl.
  destruct (ceilDiv_spec total limit ltac:(lia)) as (p & Hceil & Hbounds).
  pose proof (getQuotes_slice store req Hp Hl) as Hget.
  assert (Htotal : Z.of_nat (length (exportedQuotes store req)) = total).
  { unfold exportedQuotes. now rewrite length_sortByCreatedAtDesc. }
  cbv zeta in Hget. fold page limit in Hget. rewrite Htotal in Hget.
  eexists; exists p. split; [exact Hget|]. simpl.
  repeat split; try assumption; try lia.
  - unfold ceilDiv in Hceil.
    destruct (Z.eqb_spec limit 0); [lia|congruence].
  - rewrite drop_ge; [apply take_nil|].
    apply Nat2Z.inj_le. rewrite Htotal, Z2Nat.id by nia. nia.
  - apply Z.ltb_ge. nia.
Qed.

(** The third page of the Texan quotes, one quote a page. *)
Lemma pagination_metadata_witness :
  (1 <= 3)%Z /\ (1 <= 1)%Z
  /\ exists listing totalPages,
       getQuotes exampleStore texasPage3 = Some listing
       /\ Pagination.currentPage (Listing.pagination listing) = 3%Z
       /\ Pagination.totalQuotes (Listing.pagination listing) = 2%Z
       /\ Pagination.totalPages (Listing.pagination listing) = Some totalPages
       /\ totalPages = Qceiling (inject_Z 2 / inject_Z 1)
       /\ ((totalPages - 1) * 1 < 2 <= totalPages * 1)%Z
       /\ Pagination.hasMore (Listing.pagination listing) = (3 * 1 <? 2)%Z
       /\ ((totalPages < 3)%Z ->
           Listing.quotes listing = []
           /\ Pagination.hasMore (Listing.pagination listing) = false).
Proof.
  split; [lia|]. split; [lia|].
  apply (pagination_metadata exampleStore texasPage3); simpl; lia.
Defined.

Lemma exportedQuotes_atPage (store : Store) (req : ReqQuery.t) (page : Z) :
  exportedQuotes store (atPage req page) = exportedQuotes store req.
Proof. reflexivity. Qed.

(** Both handlers start from the same query object. *)
Lemma listing_and_export_share_query (store : Store) (req : ReqQuery.t) :
  exportedQuotes store req
  = sortByCreatedAtDesc
      (find (buildQuery (ReqQuery.state req) (ReqQuery.roofType req)) store)
  /\ (forall listing,
        getQuotes store req = Some listing ->
        Pagination.totalQuotes (Listing.pagination listing)
        = countDocuments (buildQuery (ReqQuery.state req) (ReqQuery.roofType req)) store).
Proof.
  split; [reflexivity|].
  intros listing. unfold getQuotes.
  destruct findWithOptions; [|discriminate].
  intros [= <-]. reflexivity.
Qed.

(** C3: under the same filters, the records of all the pages of the
    listing are exactly the records of the CSV export. *)
Theorem listing_pages_equal_export (store : Store) (req : ReqQuery.t) :
  (1 <= default 10%Z (ReqQuery.limit req))%Z ->
  forall q : Quote.t,
    q ∈ exportedQuotes store req
    <-> exists page listing,
          (1 <= page)%Z
          /\ getQuotes store (atPage req page) = Some listing
          /\ q ∈ Listing.quotes listing.
Proof.
  intros Hl q.
  set (limit := default 10%Z (ReqQuery.limit req)) in *.
  set (n := Z.to_nat limit).
  assert (Hn : n <> 0) by (subst n; lia).
  split.
  - intros [i Hi]%list_elem_of_lookup.
    exists (Z.of_nat (i / n) + 1)%Z. eexists.
    split; [lia|]. split.
    + apply getQuotes_slice; simpl; fold limit; lia.
    + simpl. fold limit. fold n. rewrite exportedQuotes_atPage.
      apply elem_of_take. exists (i mod n). split.
      * rewrite lookup_drop, <- Hi. f_equal.
        replace (Z.of_nat (i / n) + 1 - 1)%Z with (Z.of_nat (i / n)) by lia.
        replace limit with (Z.of_nat n) by (subst n; lia).
        rewrite <- Nat2Z.inj_mul, Nat2Z.id.
        rewrite (Nat.div_mod_eq i n) at 3. lia.
      * now apply Nat.mod_upper_bound.
  - intros (page & listing & Hp & Hget & Hq).
    rewrite getQuotes_slice in Hget by (simpl; fold limit; lia).
    injection Hget as <-. simpl in Hq.
    rewrite exportedQuotes_atPage in Hq.
    eapply elem_of_sublist; [exact Hq|].
    etransitivity; [apply sublist_take|apply sublist_drop].
Qed.

(** The Texan quotes of the example store, one quote a page. *)
Lemma listing_pages_equal_export_witness :
  (1 <= 1)%Z
  /\ (smithQuote ∈ exportedQuotes exampleStore texasPage3
      <-> exists page listing,
            (1 <= page)%Z
            /\ getQuotes exampleStore (atPage texasPage3 page) = Some listing
            /\ smithQuote ∈ Listing.quotes listing).
Proof.
  split; [lia|].
  apply (listing_pages_equal_export exampleStore texasPage3). simpl. lia.
Defined.

(** ** Order of the export *)

#[local] Instance newestFirst_trans : Transitive newestFirst.
Proof. unfold Transitive, newestFirst. intros; lia. Qed.

#[local] Instance newestFirst_total : Total newestFirst.
Proof. unfold Total, newestFirst. intros; lia. Qed.




(** ** Submission: the errors of the chains *)


Lemma runChain_passes (f : string) (reify : string -> JS.Value) (c : Chain) (v : string) :
  snd (runChain f reify c v) = [] <-> passesOn reify c v = true.
Proof.
  revert reify v. induction c as [|[g|p m|g] c IH]; intros reify v; simpl.
  - tauto.
  - apply IH.
  - specialize (IH reify v). destruct (runChain f reify c v) as [v' errs]; simpl in *.
    destruct (p v); simpl; [assumption|]. split; discriminate.
  - specialize (IH reify v). destruct (runChain f reify c v) as [v' errs]; simpl in *.
    destruct (g (reify v)); simpl; [|assumption]. split; discriminate.
Qed.

(** The errors [validateQuote] leaves are the errors of the seven chains,
    field after field. *)
Lemma validateQuote_errors (env : Env) (b : Body.t) :
  snd (validateQuote env b) = fields ≫= errorsOf env b.
Proof.
  assert (E : fields ≫= errorsOf env b
              = (snd (runField "contractorName" contractorNameChain (Body.contractorName b))
                 ++ snd (runField "company" companyChain (Body.company b))
                 ++ snd (runField "roofSize" roofSizeChain (Body.roofSize b))
                 ++ snd (runField "roofType" roofTypeChain (Body.roofType b))
                 ++ snd (runField "projectCity" projectCityChain (Body.projectCity b))
                 ++ snd (runField "projectState" projectStateChain (Body.projectState b))
                 ++ snd (runField "projectDate" (projectDateChain env) (Body.projectDate b))
                 ++ [])%list) by reflexivity.
  rewrite E. clear E. unfold validateQuote.
  repeat match goal with
         | |- context [runField ?f ?c ?v] => destruct (runField f c v)
         end.
  simpl. now rewrite app_nil_r.
Qed.

(** *** The chains and their rules *)

Lemma isUppercase_upper (s : string) :
  JS.all_chars JS.isUpper s = true -> Validator.isUppercase s = true.
Proof.
  unfold Validator.isUppercase, JS.toUpperCase.
  induction s as [|c s IH]; [reflexivity|].
  cbn [JS.all_chars JS.map_chars]. intros [Hc Hs]%andb_true_iff.
  assert (E : JS.upperChar c = c).
  { revert Hc. destruct c as [[] [] [] [] [] [] [] []]; vm_compute;
      first [reflexivity | discriminate]. }
  rewrite E. apply String.eqb_eq. f_equal. apply String.eqb_eq, IH, Hs.
Qed.

Lemma nameChain_rule (v : JS.Value) :
  passesOn (fun _ => v) contractorNameChain (fieldText v) = nameRule v.
Proof.
  unfold nameRule, contractorNameChain, passesOn, Validator.trim,
    Validator.isLength, lengthBetween, matchesName.
  destruct (JS.trim (fieldText v)) as [|c t]; [reflexivity|].
  cbn [String.eqb negb andb]. now rewrite andb_true_r.
Qed.

Lemma companyChain_rule (v : JS.Value) :
  passesOn (fun _ => v) companyChain (fieldText v) = companyRule v.
Proof.
  unfold companyRule, companyChain, passesOn, Validator.trim, Validator.isLength,
    lengthBetween.
  now rewrite andb_true_r.
Qed.

Lemma roofSizeChain_rule (v : JS.Value) :
  passesOn (fun _ => v) roofSizeChain (fieldText v) = roofSizeRule v.
Proof. unfold roofSizeRule, roofSizeChain, passesOn. now rewrite andb_true_r. Qed.

(** On an integer the rule of the roof size is the open interval from 0
    to 1,000,000. *)
Lemma roofSizeRule_integer (n : Z) :
  (Z.abs n < 10 ^ 21)%Z ->
  roofSizeRule (JS.Numeric (JS.Num n)) = ((0 <? n) && (n <? 1000000))%Z.
Proof.
  intros Hn. rewrite <- roofSizeChain_accepts.
  unfold roofSizeRule, passes, roofSizeChain, passesOn.
  cbn [fieldText JS.numberToString].
  destruct (Z.ltb_spec (Z.abs n) (10 ^ 21)) as [_|H]; [|lia].
  now rewrite andb_true_r.
Qed.

Lemma roofTypeChain_rule (v : JS.Value) :
  passesOn (fun _ => v) roofTypeChain (fieldText v) = roofTypeRule v.
Proof.
  unfold roofTypeRule, roofTypeChain, passesOn, Validator.isIn, validTypes.
  now rewrite andb_true_r.
Qed.

Lemma cityChain_rule (v : JS.Value) :
  passesOn (fun _ => v) projectCityChain (fieldText v) = cityRule v.
Proof.
  unfold cityRule, projectCityChain, passesOn, Validator.trim, matchesName.
  now rewrite andb_true_r.
Qed.

Lemma stateChain_rule (v : JS.Value) :
  passesOn (fun _ => v) projectStateChain (fieldText v) = stateRule v.
Proof.
  unfold stateRule, projectStateChain, passesOn, Validator.trim, Validator.isLength,
    matchesTwoUpper.
  set (t := JS.trim (fieldText v)).
  rewrite andb_true_r.
  destruct (Nat.eqb_spec (String.length t) 2) as [E|E].
  - rewrite E. cbn [Nat.leb andb].
    destruct (JS.all_chars JS.isUpper t) eqn:Hup.
    + now rewrite (isUppercase_upper t Hup).
    + now rewrite andb_false_r.
  - cbn [andb]. rewrite !andb_false_r. reflexivity.
Qed.

Lemma dateChain_rule (env : Env) (v : JS.Value) :
  passesOn (fun _ => v) (projectDateChain env) (fieldText v) = dateRule env v.
Proof.
  unfold dateRule, projectDateChain, passesOn, projectDateCustom.
  destruct (isDate env (fieldText v)); [|reflexivity].
  destruct (dateBefore (newDate env v) (now env)); [reflexivity|].
  destruct (dateAfter (newDate env v) (twoYearsFromNow env)); reflexivity.
Qed.

Ltac each_field H :=
  unfold fields in H;
  repeat match type of H with
         | _ ∈ _ :: _ => apply elem_of_cons in H as [->|H]
         | _ ∈ [] => inversion H
         end.

(** The chain of a field passes on a value exactly when the value
    satisfies the rule of the field. *)
Lemma chain_rule (env : Env) (f : string) (v : JS.Value) :
  f ∈ fields ->
  passesOn (fun _ => v) (chainOf env f) (fieldText v) = fieldRule env f v.
Proof.
  intros Hf. each_field Hf.
  - apply nameChain_rule.
  - apply companyChain_rule.
  - apply roofSizeChain_rule.
  - apply roofTypeChain_rule.
  - apply cityChain_rule.
  - apply stateChain_rule.
  - apply dateChain_rule.
Qed.

(** A field fails its rule exactly when its chain reports an error. *)
Lemma fieldRule_errors (env : Env) (b : Body.t) (f : string) :
  f ∈ fields ->
  fieldRule env f (Body.get b f) = false <-> errorsOf env b f <> [].
Proof.
  intros Hf. rewrite <- (chain_rule env f _ Hf), <- not_true_iff_false.
  unfold errorsOf, runField. now rewrite runChain_passes.
Qed.



(** Nothing is stored when a chain reported an error, and the rejection
    carries the formatted errors with status 400. *)
Lemma postQuote_rejected (env : Env) (store : Store) (raw : Body.t) :
  snd (validateQuote env raw) <> [] ->
  postQuote env store raw
  = (store,
     SubmitNext (Operational
       (AppError.new
          (formatMessage (errorMessages (snd (validateQuote env raw))))
          400))).
Proof.
  intros Hne. unfold postQuote.
  destruct (validateQuote env raw) as [body errors]; simpl in *.
  destruct errors; [congruence|reflexivity].
Qed.

(** The message of the rejection, entry by entry. *)
Lemma formatMessage_entries (errors : list ValidationError.t) :
  formatMessage (errorMessages errors)
  = JS.join ". "
      (map (fun e => ValidationError.param e +:+ ": " +:+ ValidationError.msg e) errors).
Proof.
  unfold formatMessage, errorMessages. now rewrite map_map.
Qed.

(** A body of which a field fails its rule is rejected by the route. *)
Lemma failing_field_rejected (env : Env) (store : Store) (body : Body.t) :
  (exists f, f ∈ fields /\ fieldRule env f (Body.get body f) = false) ->
  snd (validateQuote env body) <> []
  /\ postQuote env store body
     = (store,
        SubmitNext (Operational
          (AppError.mk
             (JS.join ". "
                (map (fun e => ValidationError.param e +:+ ": " +:+ ValidationError.msg e)
                     (snd (validateQuote env body))))
             400 "fail" true))).
Proof.
  intros (f0 & Hf0 & Hbad).
  assert (Hne : snd (validateQuote env body) <> []).
  { rewrite validateQuote_errors. intros Hnil.
    apply (fieldRule_errors env body f0 Hf0) in Hbad. apply Hbad.
    destruct (errorsOf env body f0) as [|x l] eqn:E; [reflexivity|].
    assert (Hx : x ∈ fields ≫= errorsOf env body).
    { apply list_elem_of_bind. exists f0. rewrite E. split; [left|assumption]. }
    rewrite Hnil in Hx. inversion Hx. }
  split; [exact Hne|].
  rewrite (postQuote_rejected env store body Hne), formatMessage_entries.
  reflexivity.
Qed.




(** Two upper-case letters that are no state pass every chain; the
    validator of the schema refuses them, nothing is stored, and the
    error that reaches the error handler is the one of the schema. *)
Lemma unknown_state_passes_the_chains :
  validateStateCode (Body.projectState unknownStateBody) = JS.Normal false
  /\ snd (validateQuote exampleEnv unknownStateBody) = []
  /\ postQuote exampleEnv exampleStore unknownStateBody
     = (exampleStore,
        SubmitNext (SchemaValidation
          [ ("projectState",
             Message "Invalid state code. Must be a 2-letter US state code") ])).
Proof. repeat split; vm_compute; reflexivity. Qed.

(** ** What an accepted submission stores *)

(** The body the chains leave in the request: the three free texts and
    the state are trimmed and escaped texts, the other fields are as the
    request had them. *)
Lemma validateQuote_body (env : Env) (b : Body.t) :
  fst (validateQuote env b)
  = Body.mk (JS.Str (Validator.escape (Validator.trim (fieldText (Body.contractorName b)))))
            (JS.Str (Validator.escape (Validator.trim (fieldText (Body.company b)))))
            (Body.roofSize b)
            (Body.roofType b)
            (JS.Str (Validator.escape (Validator.trim (fieldText (Body.projectCity b)))))
            (JS.Str (Validator.escape (Validator.trim (fieldText (Body.projectState b)))))
            (Body.projectDate b).
Proof.
  unfold validateQuote.
  assert (F : forall f c v, runField f c v = (fst (runField f c v), snd (runField f c v))).
  { intros. now destruct (runField f c v). }
  rewrite (F "contractorName"), (F "company"), (F "roofSize"), (F "roofType"),
    (F "projectCity"), (F "projectState"), (F "projectDate").
  cbn [fst].
  reflexivity.
Qed.

(** An accepted submission passed every chain and every rule of the
    schema, and appends the one record that [insert] builds from the body
    the chains left. *)
Lemma postQuote_created (env : Env) (store store' : Store) (raw : Body.t) (q : Quote.t) :
  postQuote env store raw = (store', Created q) ->
  snd (validateQuote env raw) = []
  /\ store' = (store ++ [q])%list
  /\ validateSync env (newQuote env (fst (validateQuote env raw))) = []
  /\ insert env store (newQuote env (fst (validateQuote env raw))) = Some q.
Proof.
  unfold postQuote.
  destruct (validateQuote env raw) as [body errors]; simpl.
  destruct errors as [|e errors]; simpl; [|discriminate].
  destruct (validateSync env (newQuote env body)); [|discriminate].
  destruct (insert env store (newQuote env body)); [|discriminate].
  intros [= <- <-]. repeat split.
Qed.

(** The record of an accepted submission: its sanitized text fields hold
    [storedText] of the text of the request, its state the upper-cased
    text the chain left, and the store gave it a fresh identifier and the
    time of the submission. *)
Lemma insert_fields (env : Env) (store : Store) (raw : Body.t) (q : Quote.t) :
  insert env store (newQuote env (fst (validateQuote env raw))) = Some q ->
  Quote._id q = freshId store
  /\ Quote.contractorName q = storedText (fieldText (Body.contractorName raw))
  /\ Quote.company q = storedText (fieldText (Body.company raw))
  /\ Quote.projectCity q = storedText (fieldText (Body.projectCity raw))
  /\ Quote.projectState q
     = JS.toUpperCase (Validator.escape (Validator.trim (fieldText (Body.projectState raw))))
  /\ castNumber (Body.roofSize raw) = Held (Quote.roofSize q)
  /\ castString (Body.roofType raw) = Held (Quote.roofType q)
  /\ castDate env (Body.projectDate raw) = Held (Quote.projectDate q)
  /\ Quote.createdAt q = now env
  /\ Quote.updatedAt q = now env.
Proof.
  rewrite validateQuote_body. unfold insert, newQuote.
  cbn [Body.contractorName Body.company Body.roofSize Body.roofType Body.projectCity
       Body.projectState Body.projectDate Candidate.contractorName Candidate.company
       Candidate.roofSize Candidate.roofType Candidate.projectCity
       Candidate.projectState Candidate.projectDate sanitizedPath uppercasePath
       castString].
  destruct (castNumber (Body.roofSize raw)); try discriminate.
  destruct (castString (Body.roofType raw)); try discriminate.
  destruct (castDate env (Body.projectDate raw)); try discriminate.
  intros [= <-]. repeat split.
Qed.

(** C7: an apostrophe in a valid name does not survive to storage.  The
    body with the contractor name [O'Brien] passes every chain and is
    stored, [sanitizeString] alone leaves the name as it is, and yet the
    stored name is [Ox27Brien]: the chain escapes the apostrophe to
    [&#x27;] before the setter of the schema strips [&], [#] and [;]. *)
Theorem apostrophe_does_not_survive_to_storage :
  let body := exampleBody "O'Brien" "Smith Roofing LLC" 2500 in
  snd (validateQuote exampleEnv body) = []
  /\ sanitizeString (JS.Str "O'Brien") = JS.Str "O'Brien"
  /\ Validator.escape "O'Brien" = "O&#x27;Brien"
  /\ exists q,
       postQuote exampleEnv [] body = ([q], Created q)
       /\ Quote.contractorName q = "Ox27Brien".
Proof.
  repeat split; try (vm_compute; reflexivity).
  eexists. split; vm_compute; reflexivity.
Qed.

(** ** Cells of the export *)

(** C4: the export does not quote its cells.  The company
    [O'Brien, "Pro" Roofing] is emitted as it is, where the formatter of
    the CSV generator module would wrap it in quotes and double the
    quotes inside; a company with a line break, stored by the submission
    route, is emitted as it is too. *)
Theorem exportQuotesCSV_emits_raw_cells :
  csvRow exampleEnv obrienQuote !! 1 = Some obrienCompany
  /\ formatField obrienCompany
     = quote +:+ "O'Brien, " +:+ quote +:+ quote +:+ "Pro" +:+ quote +:+ quote
       +:+ " Roofing" +:+ quote
  /\ formatField obrienCompany <> obrienCompany
  /\ exportQuotesCSV exampleEnv [obrienQuote] (ReqQuery.mk None None None None)
     = JS.join "," csvHeader +:+ newline
       +:+ "John Smith,O'Brien, " +:+ quote +:+ "Pro" +:+ quote
       +:+ " Roofing,2500,Metal,Austin,TX,12/2/2026,11/2/2026"
  /\ exists q,
       postQuote exampleEnv [] (exampleBody "John Smith" twoLineCompany 2500)
       = ([q], Created q)
       /\ Quote.company q = twoLineCompany
       /\ csvRow exampleEnv q !! 1 = Some twoLineCompany
       /\ formatField twoLineCompany <> twoLineCompany.
Proof.
  split; [reflexivity|]. split; [vm_compute; reflexivity|].
  split; [vm_compute; discriminate|]. split; [vm_compute; reflexivity|].
  eexists. split; [vm_compute; reflexivity|].
  repeat split; try (vm_compute; reflexivity).
  vm_compute. discriminate.
Qed.

(** * Properties of the rest of the code *)

(** ** Characters and trimming *)

Lemma all_chars_filter_chars (p : ascii -> bool) (s : string) :
  JS.all_chars p (JS.filter_chars p s) = true.
Proof.
  induction s as [|c s IH]; simpl; [reflexivity|].
  destruct (p c) eqn:E; simpl; [now rewrite E|assumption].
Qed.

Lemma filter_chars_all (p : ascii -> bool) (s : string) :
  JS.all_chars p s = true -> JS.filter_chars p s = s.
Proof.
  induction s as [|c s IH]; simpl; [reflexivity|].
  intros [Hc Hs]%andb_true_iff. rewrite Hc. now rewrite IH.
Qed.

Lemma length_filter_chars (p : ascii -> bool) (s : string) :
  String.length (JS.filter_chars p s) <= String.length s.
Proof.
  induction s as [|c s IH]; simpl; [lia|]. destruct (p c); simpl; lia.
Qed.

Lemma length_trimStart (s : string) :
  String.length (JS.trimStart s) <= String.length s.
Proof.
  induction s as [|c s IH]; simpl; [lia|].
  destruct (JS.isWhiteSpace c); simpl; lia.
Qed.

Lemma length_trimEnd (s : string) :
  String.length (JS.trimEnd s) <= String.length s.
Proof.
  induction s as [|c s IH]; simpl; [lia|].
  destruct (JS.trimEnd s); [destruct (JS.isWhiteSpace c)|]; simpl in *; lia.
Qed.

Lemma length_trim (s : string) : String.length (JS.trim s) <= String.length s.
Proof.
  unfold JS.trim. pose proof (length_trimEnd (JS.trimStart s)).
  pose proof (length_trimStart s). lia.
Qed.

Lemma all_chars_trimStart (p : ascii -> bool) (s : string) :
  JS.all_chars p s = true -> JS.all_chars p (JS.trimStart s) = true.
Proof.
  induction s as [|c s IH]; simpl; [reflexivity|].
  intros [Hc Hs]%andb_true_iff.
  destruct (JS.isWhiteSpace c); [auto|]. simpl. now rewrite Hc, Hs.
Qed.

Lemma all_chars_trimEnd (p : ascii -> bool) (s : string) :
  JS.all_chars p s = true -> JS.all_chars p (JS.trimEnd s) = true.
Proof.
  induction s as [|c s IH]; simpl; [reflexivity|].
  intros [Hc Hs]%andb_true_iff. specialize (IH Hs).
  destruct (JS.trimEnd s); [destruct (JS.isWhiteSpace c)|];
    simpl in *; rewrite ?Hc; auto.
Qed.

Lemma all_chars_trim (p : ascii -> bool) (s : string) :
  JS.all_chars p s = true -> JS.all_chars p (JS.trim s) = true.
Proof. intros H. now apply all_chars_trimEnd, all_chars_trimStart. Qed.

Lemma all_chars_impl (p q : ascii -> bool) (s : string) :
  (forall c, p c = true -> q c = true) ->
  JS.all_chars p s = true -> JS.all_chars q s = true.
Proof.
  intros Hpq. induction s as [|c s IH]; simpl; [reflexivity|].
  intros [Hc Hs]%andb_true_iff. now rewrite (Hpq c Hc), IH.
Qed.

(** A text with no white space in it is its own trim. *)
Lemma trim_no_white_space (s : string) :
  JS.all_chars (fun c => negb (JS.isWhiteSpace c)) s = true -> JS.trim s = s.
Proof.
  intros H. unfold JS.trim.
  assert (E : JS.trimStart s = s).
  { destruct s as [|c s]; [reflexivity|]. simpl in *.
    apply andb_true_iff in H as [Hc _]. now destruct (JS.isWhiteSpace c). }
  rewrite E. clear E.
  induction s as [|c s IH]; [reflexivity|]. simpl in *.
  apply andb_true_iff in H as [Hc Hs]. rewrite (IH Hs).
  destruct s; [now destruct (JS.isWhiteSpace c)|reflexivity].
Qed.

(** ** utils/validation.js: sanitizeString *)

(** X1: what [sanitizeString] returns for a string holds letters, digits,
    white space, hyphens and apostrophes only, and is not longer than the
    string. *)
Theorem sanitizeString_keeps_allowed_only (s : string) :
  exists t,
    sanitizeString (JS.Str s) = JS.Str t
    /\ JS.all_chars sanitizeAllowed t = true
    /\ String.length t <= String.length s.
Proof.
  exists (sanitizeText s). split; [reflexivity|]. unfold sanitizeText. split.
  - apply all_chars_filter_chars.
  - pose proof (length_filter_chars sanitizeAllowed (JS.trim s)).
    pose proof (length_trim s). lia.
Qed.

(** X2: on a string of allowed characters [sanitizeString] does nothing
    but trim. *)
Theorem sanitizeString_trims_clean_text (s : string) :
  JS.all_chars sanitizeAllowed s = true ->
  sanitizeString (JS.Str s) = JS.Str (JS.trim s).
Proof.
  intros H. unfold sanitizeString, sanitizeText.
  now rewrite filter_chars_all by now apply all_chars_trim.
Qed.

Lemma sanitizeString_trims_clean_text_witness :
  JS.all_chars sanitizeAllowed "  O'Brien-Smith 2 " = true
  /\ sanitizeString (JS.Str "  O'Brien-Smith 2 ")
     = JS.Str (JS.trim "  O'Brien-Smith 2 ").
Proof.
  split; [reflexivity|].
  apply (sanitizeString_trims_clean_text "  O'Brien-Smith 2 "). reflexivity.
Defined.

(** ** utils/validation.js: validateStateCode *)

Lemma length_map_chars (f : ascii -> ascii) (s : string) :
  String.length (JS.map_chars f s) = String.length s.
Proof. induction s as [|c s IH]; simpl; [reflexivity|]. now rewrite IH. Qed.

Lemma isUpper_upperChar (c : ascii) :
  JS.isUpper (JS.upperChar c) = true -> JS.isLetter c = true.
Proof.
  destruct c as [[] [] [] [] [] [] [] []]; vm_compute; intros H;
    first [reflexivity | discriminate H].
Qed.

Lemma all_upper_toUpperCase (s : string) :
  JS.all_chars JS.isUpper (JS.toUpperCase s) = true ->
  JS.all_chars JS.isLetter s = true.
Proof.
  unfold JS.toUpperCase. induction s as [|c s IH]; simpl; [reflexivity|].
  intros [Hc Hs]%andb_true_iff. now rewrite (isUpper_upperChar c Hc), IH.
Qed.

Lemma validStateCodes_shape :
  Forall (fun code => String.length code = 2 /\ JS.all_chars JS.isUpper code = true)
         validStateCodes.
Proof. unfold validStateCodes. repeat constructor. Qed.

(** X3: an ASCII text that [validateStateCode] accepts has exactly two
    characters and both are letters; there is no trimming. *)
Theorem validateStateCode_accepts_two_letters (s : string) :
  JS.isASCII s = true ->
  validateStateCode (JS.Str s) = JS.Normal true ->
  String.length s = 2 /\ JS.all_chars JS.isLetter s = true.
Proof.
  unfold validateStateCode. intros _ [= H%bool_decide_eq_true].
  pose proof validStateCodes_shape as Hall.
  rewrite Forall_forall in Hall. destruct (Hall _ H) as [Hlen Hup].
  split.
  - unfold JS.toUpperCase in Hlen. now rewrite length_map_chars in Hlen.
  - now apply all_upper_toUpperCase.
Qed.

Lemma validateStateCode_accepts_two_letters_witness :
  JS.isASCII "tx" = true
  /\ validateStateCode (JS.Str "tx") = JS.Normal true
  /\ String.length "tx" = 2 /\ JS.all_chars JS.isLetter "tx" = true.
Proof.
  split; [reflexivity|]. split; [reflexivity|].
  apply (validateStateCode_accepts_two_letters "tx"); reflexivity.
Defined.

(** ** utils/validation.js: validateRoofSize and validatePrice on text *)

Lemma spanDigits_all_digits (s : string) :
  JS.spanDigits s = (s, "") -> JS.all_chars JS.isDigit s = true.
Proof.
  induction s as [|c s IH]; simpl; [reflexivity|].
  destruct (JS.isDigit c); [|discriminate].
  destruct (JS.spanDigits s) as [d r]. intros [= -> ->]. simpl. now apply IH.
Qed.

Lemma digit_not_white_space (c : ascii) :
  JS.isDigit c = true -> negb (JS.isWhiteSpace c) = true.
Proof. intros H. digit_cases c H; reflexivity. Qed.

Lemma spanSign_digit (c : ascii) (s : string) :
  JS.isDigit c = true -> JS.spanSign (String c s) = (1%Z, String c s).
Proof. intros H. digit_cases c H; reflexivity. Qed.

Lemma radixLiteral_digits (c : ascii) (s : string) :
  JS.isDigit c = true -> JS.all_chars JS.isDigit s = true ->
  JS.radixLiteral (String c s) = None.
Proof.
  intros Hc Hs. unfold JS.radixLiteral.
  destruct s as [|d r].
  - digit_cases c Hc; reflexivity.
  - cbn [JS.all_chars] in Hs. apply andb_true_iff in Hs as [Hd _].
    digit_cases c Hc; try reflexivity.
    digit_cases d Hd; reflexivity.
Qed.

Lemma not_Infinity_digit (c : ascii) (s : string) :
  JS.isDigit c = true -> (String c s =? "Infinity") = false.
Proof. intros Hc. digit_cases c Hc; reflexivity. Qed.

(** Reading the rendering of an integer gives the integer back. *)
Lemma StringToNumber_toString (n : Z) :
  JS.StringToNumber (JS.toString n) = JS.Num n.
Proof.
  destruct n as [|p|p]; [reflexivity|..]; try rewrite toString_neg;
    destruct (toString_pos p) as (c & s & -> & Hc & Hs & Hv);
    pose proof (spanDigits_all_digits s Hs) as Hd;
    pose proof (digit_not_white_space c Hc) as Hw;
    assert (Hws : JS.all_chars (fun c => negb (JS.isWhiteSpace c)) s = true)
      by (eapply all_chars_impl; [apply digit_not_white_space|exact Hd]);
    assert (Hsp : JS.spanDigits (String c s) = (String c s, ""))
      by (simpl; now rewrite Hc, Hs);
    unfold JS.StringToNumber.
  - rewrite trim_no_white_space by (simpl; now rewrite Hw, Hws).
    simpl (_ =? _). rewrite (radixLiteral_digits c s Hc Hd).
    unfold JS.decimalLiteral.
    rewrite (spanSign_digit c s Hc), (not_Infinity_digit c s Hc), Hsp.
    cbn [JS.exponentPart String.eqb andb String.length].
    rewrite append_empty, Hv. unfold JS.scaled. simpl. f_equal. lia.
  - rewrite trim_no_white_space by (simpl; now rewrite Hw, Hws).
    simpl (_ =? _). cbn [JS.radixLiteral JS.decimalLiteral JS.spanSign].
    rewrite (not_Infinity_digit c s Hc), Hsp.
    cbn [JS.exponentPart String.eqb andb String.length].
    rewrite append_empty, Hv. unfold JS.scaled. simpl. f_equal. lia.
Qed.

(** X4: [validateRoofSize] converts its argument, so it decides the
    decimal text of an integer like the integer itself, which it accepts
    from 1 to 1,000,000; [validatePrice] asks for a number first: it
    refuses the text of every integer, accepts the integers from 0 to
    1,000,000,000, and accepts every number that [validateRoofSize]
    accepts. *)
Theorem roofSize_coerces_text_price_does_not (n : Z) :
  validateRoofSize (JS.Str (JS.toString n)) = validateRoofSize (JS.Numeric (JS.Num n))
  /\ validateRoofSize (JS.Numeric (JS.Num n)) = ((0 <? n) && (n <=? 1000000))%Z
  /\ validatePrice (JS.Str (JS.toString n)) = false
  /\ validatePrice (JS.Numeric (JS.Num n)) = ((0 <=? n) && (n <=? 1000000000))%Z
  /\ (forall x : JS.Number,
        validateRoofSize (JS.Numeric x) = true -> validatePrice (JS.Numeric x) = true).
Proof.
  split; [|split; [reflexivity|split; [reflexivity|split; [reflexivity|]]]].
  - unfold validateRoofSize, JS.gt, JS.le. simpl JS.ToNumber.
    now rewrite StringToNumber_toString.
  - intros x. unfold validateRoofSize, validatePrice, JS.gt, JS.le, JS.ge.
    cbn [JS.ToNumber].
    destruct x as [|z|m e|[]]; try discriminate; try reflexivity.
    + rewrite !andb_true_iff, Z.ltb_lt, !Z.leb_le. lia.
    + pose proof (Z.pow_pos_nonneg 10 (Z.pos e) ltac:(lia) ltac:(lia)) as Hp.
      rewrite !andb_true_iff, Z.ltb_lt, !Z.leb_le. lia.
Qed.

(** ** utils/validation.js: validatePhone *)

Lemma filter_chars_idem (p : ascii -> bool) (s : string) :
  JS.filter_chars p (JS.filter_chars p s) = JS.filter_chars p s.
Proof. apply filter_chars_all, all_chars_filter_chars. Qed.

Lemma strip_plus_eq (s : string) :
  match s with String "+" r => r | _ => s end
  = match s with
    | String c r => if Ascii.eqb c "+" then r else s
    | EmptyString => s
    end.
Proof.
  destruct s as [|c r]; [reflexivity|].
  destruct c as [[] [] [] [] [] [] [] []]; reflexivity.
Qed.

Lemma phoneRegex_eq (s : string) :
  phoneRegex s
  = let s1 := match s with
              | String c r => if Ascii.eqb c "+" then r else s
              | EmptyString => s
              end in
    match s1 with
    | String c r =>
        (Ascii.eqb c "1" && digitsBetween 10 14 r) || digitsBetween 10 14 s1
    | EmptyString => false
    end.
Proof.
  unfold phoneRegex. rewrite strip_plus_eq. cbv zeta.
  destruct (match s with
            | String c r => if Ascii.eqb c "+" then r else s
            | EmptyString => s
            end) as [|c r]; [reflexivity|].
  destruct c as [[] [] [] [] [] [] [] []]; reflexivity.
Qed.

Lemma digitsBetween_spec (lo hi : nat) (s : string) :
  digitsBetween lo hi s = true
  <-> JS.all_chars JS.isDigit s = true /\ lo <= String.length s <= hi.
Proof.
  unfold digitsBetween. rewrite !andb_true_iff, !Nat.leb_le. tauto.
Qed.

Lemma phoneRegex_digits (d : string) :
  match d with
  | String c r => (Ascii.eqb c "1" && digitsBetween 10 14 r) || digitsBetween 10 14 d
  | EmptyString => false
  end = true
  <-> phoneDigits d.
Proof.
  unfold phoneDigits. destruct d as [|c r].
  - simpl. split; [discriminate|]. intros [_ [H|[H _]]]; simpl in H; lia.
  - rewrite orb_true_iff, andb_true_iff, !digitsBetween_spec. simpl.
    rewrite Ascii.eqb_eq. split.
    + intros [[-> [Hr Hlen]]|[Hd Hlen]].
      * split; [exact Hr|].
        destruct (Nat.eq_dec (String.length r) 14);
          [right; split; [lia|eauto]|left; lia].
      * split; [exact Hd|left; lia].
    + intros [Hd [Hlen|[Hlen [r' [= -> ->]]]]].
      * right. split; [exact Hd|lia].
      * left. split; [reflexivity|]. simpl in Hd. split; [exact Hd|lia].
Qed.

(** X5: [validatePhone] looks at the digits and plus signs of a string
    only, whatever else it holds; it accepts when they are a number of
    ten to fourteen digits, or of fifteen digits beginning with 1, after
    at most one plus sign in front; on a value that is not a string it
    throws. *)
Theorem validatePhone_reads_digits_only (s : string) :
  validatePhone (JS.Str s) = validatePhone (JS.Str (JS.filter_chars phoneChar s))
  /\ (validatePhone (JS.Str s) = JS.Normal true
      <-> exists d,
            (JS.filter_chars phoneChar s = d
             \/ JS.filter_chars phoneChar s = String "+" d)
            /\ phoneDigits d)
  /\ validatePhone JS.Null = JS.Throw JS.TypeError
  /\ validatePhone JS.Undefined = JS.Throw JS.TypeError
  /\ (forall n, validatePhone (JS.Numeric n) = JS.Throw JS.TypeError).
Proof.
  split; [|split; [|repeat split]].
  - unfold validatePhone. now rewrite filter_chars_idem.
  - unfold validatePhone. set (t := JS.filter_chars phoneChar s).
    rewrite phoneRegex_eq. cbv zeta. split.
    + intros [= H]. destruct t as [|c r].
      * discriminate H.
      * destruct (Ascii.eqb c "+") eqn:E.
        -- apply Ascii.eqb_eq in E as ->. exists r. split; [now right|].
           now apply phoneRegex_digits.
        -- exists (String c r). split; [now left|]. now apply phoneRegex_digits.
    + intros (d & [->| ->] & Hd).
      * pose proof Hd as Hd'. apply phoneRegex_digits in Hd'.
        destruct d as [|c r]; [discriminate Hd'|].
        destruct (Ascii.eqb c "+") eqn:E; [|now rewrite Hd'].
        apply Ascii.eqb_eq in E as ->. destruct Hd as [Hd _]. discriminate Hd.
      * simpl. apply phoneRegex_digits in Hd. now rewrite Hd.
Qed.

(** ** utils/validation.js: validateEmail *)

Lemma splitAtFirst_spec (c : ascii) (s a b : string) :
  splitAtFirst c s = Some (a, b) ->
  s = a +:+ String c b /\ countChar c a = 0.
Proof.
  revert a. induction s as [|d s IH]; simpl; [discriminate|]. intros a.
  destruct (Ascii.eqb c d) eqn:E.
  - apply Ascii.eqb_eq in E as ->. intros [= <- <-]. split; reflexivity.
  - destruct (splitAtFirst c s) as [[a' b']|]; [|discriminate].
    intros [= <- <-]. destruct (IH a' eq_refl) as [-> Hc].
    split; [reflexivity|]. simpl. now rewrite E.
Qed.

Lemma splitAtFirst_none (c : ascii) (s : string) :
  JS.all_chars (fun d => negb (Ascii.eqb c d)) s = true -> splitAtFirst c s = None.
Proof.
  induction s as [|d s IH]; simpl; [reflexivity|].
  intros [Hd Hs]%andb_true_iff. apply negb_true_iff in Hd. rewrite Hd.
  now rewrite IH.
Qed.

Lemma countChar_app (c : ascii) (a b : string) :
  countChar c (a +:+ b) = countChar c a + countChar c b.
Proof.
  induction a as [|d a IH]; [reflexivity|].
  change (countChar c (String d (a +:+ b)) = countChar c (String d a) + countChar c b).
  simpl. rewrite IH. lia.
Qed.

Lemma length_app (a b : string) :
  String.length (a +:+ b) = String.length a + String.length b.
Proof.
  induction a as [|d a IH]; [reflexivity|].
  change (String.length (String d (a +:+ b)) = String.length (String d a) + String.length b).
  simpl. now rewrite IH.
Qed.

Lemma all_chars_app (p : ascii -> bool) (a b : string) :
  JS.all_chars p (a +:+ b) = JS.all_chars p a && JS.all_chars p b.
Proof.
  induction a as [|d a IH]; [reflexivity|].
  change (JS.all_chars p (String d (a +:+ b)) = JS.all_chars p (String d a) && JS.all_chars p b).
  simpl. now rewrite IH, andb_assoc.
Qed.

Lemma emailChar_count (s : string) :
  JS.all_chars emailChar s = true -> countChar "@" s = 0.
Proof.
  induction s as [|d s IH]; cbn [countChar JS.all_chars]; [reflexivity|].
  intros [Hd Hs]%andb_true_iff. unfold emailChar in Hd.
  apply andb_true_iff in Hd as [_ Hd]. apply negb_true_iff in Hd.
  rewrite Ascii.eqb_sym in Hd. rewrite Hd. now rewrite IH.
Qed.

Lemma pointThenMore_length (s : string) :
  pointThenMore s = true -> 2 <= String.length s.
Proof.
  induction s as [|c s IH]; simpl; [discriminate|].
  intros [[_ H]%andb_true_iff|H]%orb_true_iff.
  - destruct s; [discriminate H|simpl; lia].
  - specialize (IH H). lia.
Qed.

(** X6: a string that [validateEmail] accepts has exactly one [@], no
    white space and at least five characters. *)
Theorem validateEmail_accepts_one_at (s : string) :
  validateEmail (JS.Str s) = true ->
  countChar "@" s = 1
  /\ JS.all_chars (fun c => negb (JS.isWhiteSpace c)) s = true
  /\ 5 <= String.length s.
Proof.
  unfold validateEmail, emailRegex. cbn [ToString]. intros H.
  destruct (splitAtFirst "@" s) as [[name domain]|] eqn:E; [|discriminate].
  apply splitAtFirst_spec in E as [-> _].
  apply andb_true_iff in H as [H Hpoint].
  apply andb_true_iff in H as [H Hdomain].
  apply andb_true_iff in H as [Hne Hname].
  assert (Hw : forall c, emailChar c = true -> negb (JS.isWhiteSpace c) = true).
  { intros c Hc. unfold emailChar in Hc. now apply andb_true_iff in Hc as [Hc _]. }
  split; [|split].
  - rewrite countChar_app. simpl.
    rewrite (emailChar_count name Hname), (emailChar_count domain Hdomain). reflexivity.
  - rewrite all_chars_app. simpl.
    rewrite (all_chars_impl _ _ name Hw Hname), (all_chars_impl _ _ domain Hw Hdomain).
    reflexivity.
  - rewrite length_app. simpl.
    destruct name as [|a name]; [discriminate Hne|].
    destruct domain as [|b rest]; [discriminate Hpoint|].
    apply pointThenMore_length in Hpoint. simpl. lia.
Qed.

Lemma validateEmail_accepts_one_at_witness :
  validateEmail (JS.Str "a@b.c") = true
  /\ countChar "@" "a@b.c" = 1
  /\ JS.all_chars (fun c => negb (JS.isWhiteSpace c)) "a@b.c" = true
  /\ 5 <= String.length "a@b.c".
Proof.
  split; [reflexivity|].
  apply (validateEmail_accepts_one_at "a@b.c"). reflexivity.
Defined.

(** ** utils/csvGenerator.js: formatField and generateQuotesCSV *)

Lemma app_assoc_string (a b c : string) : (a +:+ b) +:+ c = a +:+ (b +:+ c).
Proof.
  induction a as [|d a IH]; [reflexivity|].
  change (String d ((a +:+ b) +:+ c) = String d (a +:+ (b +:+ c))). now rewrite IH.
Qed.

Lemma app_one (cell : string) (c : ascii) (s : string) :
  (cell +:+ String c EmptyString) +:+ s = cell +:+ String c s.
Proof. now rewrite app_assoc_string. Qed.

Lemma includesChar_cons (c d : ascii) (s : string) :
  JS.includesChar c (String d s) = false ->
  Ascii.eqb d c = false /\ JS.includesChar c s = false.
Proof.
  cbn [JS.includesChar]. intros [H1 H2]%orb_false_iff.
  now rewrite Ascii.eqb_sym.
Qed.

Lemma length_replaceAll (c : ascii) (by_ s : string) :
  1 <= String.length by_ ->
  String.length s <= String.length (JS.replaceAll c by_ s).
Proof.
  intros Hb. induction s as [|d s IH]; cbn [JS.replaceAll]; [lia|].
  destruct (Ascii.eqb c d); [rewrite length_app|]; simpl; lia.
Qed.

(** [formatField] on a text. *)
Lemma formatField_text (s : string) :
  formatField (JS.Str s)
  = if plainCell s then s
    else quote +:+ JS.replaceAll "034" (quote +:+ quote) s +:+ quote.
Proof.
  unfold formatField, plainCell. cbn [ToString].
  now destruct (JS.includesChar "," s || JS.includesChar "010" s || JS.includesChar "034" s).
Qed.

(** X7: [formatField] returns a text as it is exactly when the text has
    no comma, no line feed and no quote in it, so that a carriage return
    alone is left without quotes; [null] and [undefined] are the empty
    cell, like the empty text. *)
Theorem formatField_unchanged_iff_plain (s : string) :
  (formatField (JS.Str s) = s <-> plainCell s = true)
  /\ formatField (JS.Str (String "013" s))
     = (if plainCell s then String "013" s
        else quote +:+ JS.replaceAll "034" (quote +:+ quote) (String "013" s) +:+ quote)
  /\ formatField JS.Null = EmptyString
  /\ formatField JS.Undefined = EmptyString
  /\ formatField (JS.Str EmptyString) = EmptyString.
Proof.
  split; [|repeat split].
  - rewrite formatField_text. destruct (plainCell s); [split; reflexivity|].
    split; [|discriminate]. intros H. apply (f_equal String.length) in H.
    rewrite !length_app in H.
    pose proof (length_replaceAll "034" (quote +:+ quote) s ltac:(simpl; lia)).
    simpl in H. lia.
  - rewrite formatField_text. reflexivity.
Qed.

(** *** Reading the cells back *)

Lemma readCsv_plain (row : list string) (s cell tail : string) :
  JS.includesChar "," s = false ->
  JS.includesChar "010" s = false ->
  JS.includesChar "013" s = false ->
  readCsv InPlain row cell (s +:+ tail) = readCsv InPlain row (cell +:+ s) tail.
Proof.
  revert cell. induction s as [|c s IH]; intros cell Hc Hn Hr.
  - now rewrite append_empty.
  - apply includesChar_cons in Hc as [Hc Hcs].
    apply includesChar_cons in Hn as [Hn Hns].
    apply includesChar_cons in Hr as [Hr Hrs].
    change (String c s +:+ tail) with (String c (s +:+ tail)).
    cbn [readCsv]. unfold isLineBreak. rewrite Hc, Hn, Hr. cbn [orb].
    destruct (Ascii.eqb c "034"); rewrite IH by assumption; now rewrite app_one.
Qed.

Lemma readCsv_quoted (row : list string) (s cell tail : string) :
  readCsv InQuoted row cell (JS.replaceAll "034" (quote +:+ quote) s +:+ tail)
  = readCsv InQuoted row (cell +:+ s) tail.
Proof.
  revert cell. induction s as [|c s IH]; intros cell.
  - now rewrite append_empty.
  - cbn [JS.replaceAll]. destruct (Ascii.eqb "034" c) eqn:E.
    + apply Ascii.eqb_eq in E as <-.
      change ((quote +:+ quote) +:+ JS.replaceAll "034" (quote +:+ quote) s)
        with (String "034" (String "034" (JS.replaceAll "034" (quote +:+ quote) s))).
      change (String "034" (String "034" (JS.replaceAll "034" (quote +:+ quote) s)) +:+ tail)
        with (String "034" (String "034" (JS.replaceAll "034" (quote +:+ quote) s +:+ tail))).
      cbn [readCsv]. cbn. rewrite IH. now rewrite app_one.
    + change (String c (JS.replaceAll "034" (quote +:+ quote) s) +:+ tail)
        with (String c (JS.replaceAll "034" (quote +:+ quote) s +:+ tail)).
      cbn [readCsv]. rewrite Ascii.eqb_sym, E, IH. now rewrite app_one.
Qed.

(** After a formatted cell the reader holds the text of the cell, and is
    past a closing quote, inside a plain cell, or, for the empty text,
    still at the start of the cell. *)
Lemma readCsv_formatField (row : list string) (s tail : string) :
  noCarriageReturn s = true ->
  exists m,
    readCsv AtStart row EmptyString (formatField (JS.Str s) +:+ tail)
    = readCsv m row s tail
    /\ (m = AfterQuote \/ m = InPlain \/ (m = AtStart /\ s = EmptyString)).
Proof.
  intros Hr. unfold noCarriageReturn in Hr. apply negb_true_iff in Hr.
  rewrite formatField_text. destruct (plainCell s) eqn:Hp.
  - unfold plainCell in Hp. apply negb_true_iff in Hp.
    apply orb_false_iff in Hp as [Hp Hq]. apply orb_false_iff in Hp as [Hc Hn].
    destruct s as [|c s].
    { exists AtStart. split; [reflexivity|]. right. right. now split. }
    exists InPlain. split; [|right; now left].
    apply includesChar_cons in Hc as [Hc Hcs].
    apply includesChar_cons in Hn as [Hn Hns].
    apply includesChar_cons in Hr as [Hr Hrs].
    apply includesChar_cons in Hq as [Hq _].
    change (String c s +:+ tail) with (String c (s +:+ tail)).
    cbn [readCsv]. unfold isLineBreak. rewrite Hc, Hn, Hr, Hq. cbn [orb].
    now rewrite readCsv_plain.
  - exists AfterQuote. split; [|now left].
    change ((quote +:+ JS.replaceAll "034" (quote +:+ quote) s +:+ quote) +:+ tail)
      with (String "034" ((JS.replaceAll "034" (quote +:+ quote) s +:+ quote) +:+ tail)).
    cbn [readCsv]. cbn. rewrite app_assoc_string, readCsv_quoted.
    reflexivity.
Qed.

Lemma readCsv_cell_comma (row : list string) (s rest : string) :
  noCarriageReturn s = true ->
  readCsv AtStart row EmptyString (formatField (JS.Str s) +:+ String "," rest)
  = readCsv AtStart (row ++ [s])%list EmptyString rest.
Proof.
  intros Hr. destruct (readCsv_formatField row s (String "," rest) Hr) as (m & -> & Hm).
  destruct Hm as [->|[->|[-> ->]]]; reflexivity.
Qed.

Lemma readCsv_cell_break (row : list string) (s rest : string) :
  noCarriageReturn s = true ->
  readCsv AtStart row EmptyString (formatField (JS.Str s) +:+ String "010" rest)
  = (row ++ [s])%list :: readCsv AtStart [] EmptyString rest.
Proof.
  intros Hr. destruct (readCsv_formatField row s (String "010" rest) Hr) as (m & -> & Hm).
  destruct Hm as [->|[->|[-> ->]]]; reflexivity.
Qed.

Lemma readCsv_cell_end (row : list string) (s : string) :
  noCarriageReturn s = true -> row <> [] ->
  readCsv AtStart row EmptyString (formatField (JS.Str s)) = [(row ++ [s])%list].
Proof.
  intros Hr Hrow. destruct (readCsv_formatField row s EmptyString Hr) as (m & E & Hm).
  rewrite append_empty in E. rewrite E.
  destruct Hm as [->|[->|[-> ->]]]; try reflexivity.
  destruct row; [congruence|reflexivity].
Qed.

(** The text of a row of cells. *)
Lemma join_cons (sep x y : string) (l : list string) :
  JS.join sep (x :: y :: l) = x +:+ sep +:+ JS.join sep (y :: l).
Proof. reflexivity. Qed.

(** A row of formatted cells that is followed by a line feed is read as
    one record, after the cells the reader already holds. *)
Lemma readCsv_row_break (cells row : list string) (rest : string) :
  Forall (fun s => noCarriageReturn s = true) cells -> cells <> [] ->
  readCsv AtStart row EmptyString
    (JS.join "," (map (fun s => formatField (JS.Str s)) cells) +:+ String "010" rest)
  = (row ++ cells)%list :: readCsv AtStart [] EmptyString rest.
Proof.
  revert row. induction cells as [|s cells IH]; intros row Hall Hne; [congruence|].
  apply Forall_cons in Hall as [Hs Hall].
  destruct cells as [|s2 cells].
  - cbn [map JS.join]. now rewrite readCsv_cell_break.
  - cbn [map]. rewrite join_cons. cbn [map] in IH.
    rewrite !app_assoc_string.
    change ("," +:+ ?x) with (String "," x).
    rewrite readCsv_cell_comma by assumption.
    rewrite IH by (assumption || discriminate).
    now rewrite <- app_assoc.
Qed.

(** The last row of a text, of which the reader holds a cell already or
    which has two cells or more. *)
Lemma readCsv_row_end (cells row : list string) :
  Forall (fun s => noCarriageReturn s = true) cells -> cells <> [] ->
  row <> [] \/ 2 <= length cells ->
  readCsv AtStart row EmptyString
    (JS.join "," (map (fun s => formatField (JS.Str s)) cells))
  = [(row ++ cells)%list].
Proof.
  revert row. induction cells as [|s cells IH]; intros row Hall Hne Hlen; [congruence|].
  apply Forall_cons in Hall as [Hs Hall].
  destruct cells as [|s2 cells].
  - cbn [map JS.join]. apply readCsv_cell_end; [assumption|].
    destruct Hlen as [H|H]; [assumption|simpl in H; lia].
  - cbn [map]. rewrite join_cons. cbn [map] in IH.
    change ("," +:+ ?x) with (String "," x).
    rewrite readCsv_cell_comma by assumption.
    rewrite IH; [now rewrite <- app_assoc|assumption|discriminate|].
    left. destruct row; discriminate.
Qed.

(** Rows of two cells or more, joined by line feeds, are read back as
    they are. *)
Lemma readCsv_rows (rows : list (list string)) :
  Forall (fun cells => Forall (fun s => noCarriageReturn s = true) cells
                       /\ 2 <= length cells) rows ->
  readCsv AtStart [] EmptyString
    (JS.join newline
       (map (fun cells => JS.join "," (map (fun s => formatField (JS.Str s)) cells)) rows))
  = rows.
Proof.
  induction rows as [|cells rows IH]; intros Hall; [reflexivity|].
  apply Forall_cons in Hall as [[Hcells Hlen] Hall].
  assert (Hne : cells <> []) by (destruct cells; [simpl in Hlen; lia|discriminate]).
  destruct rows as [|next rows].
  - cbn [map JS.join]. rewrite readCsv_row_end by auto. reflexivity.
  - cbn [map]. rewrite join_cons. cbn [map] in IH.
    change (newline +:+ ?x) with (String "010" x).
    rewrite readCsv_row_break by assumption.
    now rewrite IH.
Qed.

Lemma replaceAll_quote_inj (a b : string) :
  JS.replaceAll "034" (quote +:+ quote) a = JS.replaceAll "034" (quote +:+ quote) b ->
  a = b.
Proof.
  revert b. induction a as [|c a IH]; intros [|d b]; cbn [JS.replaceAll].
  - reflexivity.
  - destruct (Ascii.eqb "034" d); discriminate.
  - destruct (Ascii.eqb "034" c); discriminate.
  - destruct (Ascii.eqb_spec "034" c) as [<-|Hc]; destruct (Ascii.eqb_spec "034" d) as [<-|Hd].
    + change ((quote +:+ quote) +:+ ?x) with (String "034" (String "034" x)).
      intros [= H]. now rewrite (IH b H).
    + change ((quote +:+ quote) +:+ ?x) with (String "034" (String "034" x)).
      intros [= H _]. congruence.
    + change ((quote +:+ quote) +:+ ?x) with (String "034" (String "034" x)).
      intros [= H _]. congruence.
    + intros [= -> H]. now rewrite (IH b H).
Qed.

Lemma formatField_inj (a b : string) :
  formatField (JS.Str a) = formatField (JS.Str b) -> a = b.
Proof.
  rewrite !formatField_text.
  destruct (plainCell a) eqn:Ha; destruct (plainCell b) eqn:Hb.
  - trivial.
  - intros E. rewrite E in Ha.
    change (quote +:+ ?x) with (String "034" x) in Ha.
    unfold plainCell in Ha. cbn [JS.includesChar] in Ha.
    change (Ascii.eqb "034" "034") with true in Ha. cbn [orb] in Ha.
    now rewrite orb_true_r in Ha.
  - intros E. rewrite <- E in Hb.
    change (quote +:+ ?x) with (String "034" x) in Hb.
    unfold plainCell in Hb. cbn [JS.includesChar] in Hb.
    change (Ascii.eqb "034" "034") with true in Hb. cbn [orb] in Hb.
    now rewrite orb_true_r in Hb.
  - change (quote +:+ ?x) with (String "034" x). intros [= H].
    assert (Happ : forall x y, x +:+ quote = y +:+ quote -> x = y).
    { induction x as [|c x IHx]; intros [|d y] E.
      - reflexivity.
      - apply (f_equal String.length) in E.
        change (String d y +:+ quote) with (String d (y +:+ quote)) in E.
        rewrite length_app in E. simpl in E. rewrite length_app in E. simpl in E. lia.
      - apply (f_equal String.length) in E.
        change (String c x +:+ quote) with (String c (x +:+ quote)) in E.
        simpl in E. rewrite length_app in E. simpl in E. lia.
      - change (String c (x +:+ quote) = String d (y +:+ quote)) in E.
        injection E as -> E. now rewrite (IHx y E). }
    apply replaceAll_quote_inj, Happ, H.
Qed.

(** X8: a row of two or more formatted texts joined by commas is read
    back, cell by cell, as the texts it was made from, when none of them
    holds a carriage return; and two different texts never give the same
    cell. *)
Theorem formatField_row_round_trip (first second : string) (more : list string) :
  Forall (fun s => noCarriageReturn s = true) (first :: second :: more) ->
  readCsv AtStart [] EmptyString
    (JS.join "," (map (fun s => formatField (JS.Str s)) (first :: second :: more)))
  = [first :: second :: more]
  /\ (forall other, formatField (JS.Str first) = formatField (JS.Str other) ->
                    first = other).
Proof.
  intros Hall. split.
  - rewrite readCsv_row_end; [reflexivity|assumption|discriminate|].
    right. simpl. lia.
  - intros other. apply formatField_inj.
Qed.

Lemma formatField_row_round_trip_witness :
  Forall (fun s => noCarriageReturn s = true) [obrienCompany; twoLineCompany; ""]
  /\ readCsv AtStart [] EmptyString
       (JS.join ","
          (map (fun s => formatField (JS.Str s)) [obrienCompany; twoLineCompany; ""]))
     = [[obrienCompany; twoLineCompany; ""]].
Proof.
  assert (H : Forall (fun s => noCarriageReturn s = true)
                     [obrienCompany; twoLineCompany; ""])
    by (repeat constructor).
  split; [exact H|].
  exact (proj1 (formatField_row_round_trip obrienCompany twoLineCompany [""] H)).
Defined.

(** A carriage return alone is written without quotes, and the reader
    ends the record at it. *)
Lemma carriage_return_ends_the_record :
  formatField (JS.Str ("a" +:+ String "013" "b")) = "a" +:+ String "013" "b"
  /\ readCsv AtStart [] EmptyString
       (JS.join "," [ formatField (JS.Str ("a" +:+ String "013" "b"));
                      formatField (JS.Str "c") ])
     = [ ["a"]; ["b"; "c"] ].
Proof. split; reflexivity. Qed.

(** The cells of a stored quote are texts and a number: each is formatted
    like its text. *)
Lemma generatorRow_texts (isoDate : Z -> string) (q : Quote.t) :
  generatorRow isoDate q
  = JS.join "," (map (fun s => formatField (JS.Str s))
                     (map ToString (generatorCells isoDate q))).
Proof. reflexivity. Qed.

(** X9: on [null] the generator throws, and the text it writes for a
    list of stored quotes, also for the empty list, is read back as the
    header and, quote after quote, the texts of the seven values, when no
    value holds a carriage return. *)
Theorem generateQuotesCSV_round_trip (isoDate : Z -> string) (quotes : list Quote.t) :
  Forall (fun q => Forall (fun v => noCarriageReturn (ToString v) = true)
                          (generatorCells isoDate q)) quotes ->
  generateQuotesCSV isoDate None = JS.Throw JS.TypeError
  /\ exists text,
       generateQuotesCSV isoDate (Some quotes) = JS.Normal text
       /\ readCsv AtStart [] EmptyString text
          = generatorHeaders
            :: map (fun q => map ToString (generatorCells isoDate q)) quotes.
Proof.
  intros Hall. split; [reflexivity|].
  assert (Hhead : Forall (fun s => noCarriageReturn s = true) generatorHeaders)
    by (repeat constructor).
  destruct quotes as [|q quotes].
  - exists (JS.join "," (map (fun s => formatField (JS.Str s)) generatorHeaders)
            +:+ String "010" EmptyString).
    split; [reflexivity|].
    rewrite readCsv_row_break by (assumption || discriminate). reflexivity.
  - exists (JS.join newline
              (map (fun cells => JS.join "," (map (fun s => formatField (JS.Str s)) cells))
                   (generatorHeaders
                    :: map (fun q => map ToString (generatorCells isoDate q)) (q :: quotes)))).
    split.
    + unfold generateQuotesCSV. do 2 f_equal.
      rewrite (map_cons _ generatorHeaders). f_equal.
      rewrite map_map. apply map_ext. intros q'. apply generatorRow_texts.
    + apply readCsv_rows. constructor.
      * split; [assumption|simpl; lia].
      * apply Forall_fmap. eapply Forall_impl; [exact Hall|].
        intros q' Hq'. cbn beta. split; [|simpl; lia].
        apply Forall_fmap. exact Hq'.
Qed.

Lemma generateQuotesCSV_round_trip_witness :
  Forall (fun q => Forall (fun v => noCarriageReturn (ToString v) = true)
                          (generatorCells (fun _ => "2026-12-02") q))
         [obrienQuote]
  /\ exists text,
       generateQuotesCSV (fun _ => "2026-12-02") (Some [obrienQuote]) = JS.Normal text
       /\ readCsv AtStart [] EmptyString text
          = [ generatorHeaders;
              [ "John Smith"; obrienCompany; "2500"; "Metal"; "Austin"; "TX";
                "2026-12-02" ] ].
Proof.
  assert (H : Forall (fun q => Forall (fun v => noCarriageReturn (ToString v) = true)
                                      (generatorCells (fun _ => "2026-12-02") q))
                     [obrienQuote])
    by (repeat constructor).
  split; [exact H|].
  exact (proj2 (generateQuotesCSV_round_trip (fun _ => "2026-12-02") [obrienQuote] H)).
Defined.

(** ** Retrieval: what the filters select *)

Lemma setIfTruthy_Forall (P : string -> string -> Prop) (name : string)
    (x : option string) (f : string -> string) (query : QueryObject) :
  query !! name = None ->
  map_Forall P (setIfTruthy name x f query)
  <-> match x with
      | None => True
      | Some s => s = EmptyString \/ P name (f s)
      end /\ map_Forall P query.
Proof.
  intros Hnone. unfold setIfTruthy. destruct x as [s|]; [|tauto].
  unfold JS.truthy. destruct (String.eqb_spec s "") as [->|Hs]; cbn [negb].
  - tauto.
  - pose proof (map_Forall_insert P query name (f s) Hnone). tauto.
Qed.

Lemma matchesQuery_buildQuery (state roofType : option string) (q : Quote.t) :
  matchesQuery (buildQuery state roofType) q
  <-> filterHolds state JS.toUpperCase (Quote.projectState q)
      /\ filterHolds roofType id (Quote.roofType q).
Proof.
  unfold matchesQuery, buildQuery.
  rewrite setIfTruthy_Forall.
  - rewrite setIfTruthy_Forall by apply lookup_empty.
    unfold filterHolds.
    change (path q "roofType") with (Some (Quote.roofType q)).
    change (path q "projectState") with (Some (Quote.projectState q)).
    split.
    + intros (Hr & Hs & _). split.
      * destruct state; [|exact I]. destruct Hs as [?|[= ?]]; auto.
      * destruct roofType; [|exact I]. destruct Hr as [?|[= ?]]; auto.
    + intros (Hs & Hr). repeat split; [| |apply map_Forall_empty].
      * destruct roofType; [|exact I]. destruct Hr as [?|?]; [auto|right; congruence].
      * destruct state; [|exact I]. destruct Hs as [?|?]; [auto|right; congruence].
  - unfold setIfTruthy. destruct state as [s|]; [|apply lookup_empty].
    destruct (JS.truthy (JS.Str s)); [|apply lookup_empty].
    apply lookup_insert_None. split; [apply lookup_empty|discriminate].
Qed.

Lemma elem_of_exportedQuotes (store : Store) (req : ReqQuery.t) (q : Quote.t) :
  q ∈ exportedQuotes store req
  <-> q ∈ store
      /\ filterHolds (ReqQuery.state req) JS.toUpperCase (Quote.projectState q)
      /\ filterHolds (ReqQuery.roofType req) id (Quote.roofType q).
Proof.
  unfold exportedQuotes, sortByCreatedAtDesc, find.
  rewrite merge_sort_Permutation, list_elem_of_filter, matchesQuery_buildQuery.
  tauto.
Qed.

(** X10: the filters are a conjunction.  A stored quote is exported, and
    is on a page of the listing, exactly when its state equals the state
    filter in upper case (if that filter is given and not empty) and its
    roof type equals the roof type filter as it is written (if that one
    is given and not empty); and the listing counts exactly these. *)
Theorem filters_select_conjunction (store : Store) (req : ReqQuery.t) (q : Quote.t) :
  (q ∈ exportedQuotes store req
   <-> q ∈ store
       /\ filterHolds (ReqQuery.state req) JS.toUpperCase (Quote.projectState q)
       /\ filterHolds (ReqQuery.roofType req) id (Quote.roofType q))
  /\ (forall listing,
        getQuotes store req = Some listing ->
        (q ∈ Listing.quotes listing -> q ∈ exportedQuotes store req)
        /\ Pagination.totalQuotes (Listing.pagination listing)
           = Z.of_nat (length (exportedQuotes store req))).
Proof.
  split; [apply elem_of_exportedQuotes|].
  intros listing. unfold getQuotes, findWithOptions.
  destruct (_ <? 0)%Z; [discriminate|]. intros [= <-]. simpl. split.
  - intros Hq. unfold applyLimit in Hq.
    assert (Hd : q ∈ drop (Z.to_nat ((default 1%Z (ReqQuery.page req) - 1)
                                     * default 10%Z (ReqQuery.limit req)))
                      (exportedQuotes store req)).
    { destruct (_ =? 0)%Z; [exact Hq|].
      eapply elem_of_sublist; [exact Hq|apply sublist_take]. }
    eapply elem_of_sublist; [exact Hd|apply sublist_drop].
  - symmetry. apply exportedQuotes_length.
Qed.

Lemma validStateCodes_upper (s : string) :
  s ∈ validStateCodes -> JS.toUpperCase s = s.
Proof.
  intros H. pose proof validStateCodes_shape as Hall.
  rewrite Forall_forall in Hall. destruct (Hall _ H) as [_ Hup]. clear H Hall.
  unfold JS.toUpperCase. induction s as [|c s IH]; [reflexivity|].
  simpl in Hup. apply andb_true_iff in Hup as [Hc Hs]. simpl.
  rewrite (IH Hs). f_equal. clear -Hc.
  destruct c as [[] [] [] [] [] [] [] []];
    first [reflexivity | vm_compute in Hc; discriminate Hc].
Qed.

Lemma lowerChar_upperChar (c : ascii) : JS.lowerChar (JS.upperChar c) = JS.lowerChar c.
Proof. destruct c as [[] [] [] [] [] [] [] []]; reflexivity. Qed.

Lemma toLowerCase_toUpperCase (s : string) :
  JS.toLowerCase (JS.toUpperCase s) = JS.toLowerCase s.
Proof.
  unfold JS.toUpperCase, JS.toLowerCase.
  induction s as [|c s IH]; simpl; [reflexivity|].
  now rewrite lowerChar_upperChar, IH.
Qed.

(** The quotes of a page are among the exported ones. *)
Lemma listing_quotes_exported (store : Store) (req : ReqQuery.t) (listing : Listing.t)
    (q : Quote.t) :
  getQuotes store req = Some listing ->
  q ∈ Listing.quotes listing -> q ∈ exportedQuotes store req.
Proof.
  unfold getQuotes, findWithOptions.
  destruct (_ <? 0)%Z; [discriminate|]. intros [= <-]. simpl.
  intros Hq. unfold applyLimit in Hq.
  assert (Hd : q ∈ drop (Z.to_nat ((default 1%Z (ReqQuery.page req) - 1)
                                   * default 10%Z (ReqQuery.limit req)))
                    (exportedQuotes store req)).
  { destruct (_ =? 0)%Z; [exact Hq|].
    eapply elem_of_sublist; [exact Hq|apply sublist_take]. }
  eapply elem_of_sublist; [exact Hd|apply sublist_drop].
Qed.

(** C6: for a state filter of ASCII characters (the texts on which the
    case mappings are the ones of JavaScript), the listing is the same
    whether the filter is written in lower case, in upper case or as it
    is; unless the filter is empty, the filter in lower case selects the
    stored quotes whose state is the filter in upper case (and whose roof
    type fits), and every quote of a page is one of them.  The state code
    validator gives the same answer on a code in lower case, in upper
    case and as it is: it accepts a code that differs from a listed code
    by letter case only, and refuses every other text. *)
Theorem state_filter_case_insensitive
    (store : Store) (s : string) (roofType : option string) (page limit : option Z) :
  JS.isASCII s = true ->
  let lower := ReqQuery.mk (Some (JS.toLowerCase s)) roofType page limit in
  let upper := ReqQuery.mk (Some (JS.toUpperCase s)) roofType page limit in
  (getQuotes store lower = getQuotes store upper
   /\ getQuotes store (ReqQuery.mk (Some s) roofType page limit) = getQuotes store upper
   /\ (s <> EmptyString ->
       forall q,
         (q ∈ exportedQuotes store lower
          <-> q ∈ store /\ Quote.projectState q = JS.toUpperCase s
              /\ filterHolds roofType id (Quote.roofType q))
         /\ (forall listing,
               getQuotes store lower = Some listing ->
               q ∈ Listing.quotes listing -> q ∈ exportedQuotes store lower)))
  /\ (validateStateCode (JS.Str (JS.toLowerCase s)) = validateStateCode (JS.Str s)
      /\ validateStateCode (JS.Str (JS.toUpperCase s)) = validateStateCode (JS.Str s)
      /\ ((exists code, code ∈ validStateCodes /\ JS.toLowerCase code = JS.toLowerCase s) ->
          validateStateCode (JS.Str s) = JS.Normal true)
      /\ ((forall code, code ∈ validStateCodes -> JS.toLowerCase code <> JS.toLowerCase s) ->
          validateStateCode (JS.Str s) = JS.Normal false)).
Proof.
  intros _ lower upper. split; [split; [|split]|split; [|split; [|split]]].
  - unfold getQuotes, lower, upper; simpl.
    rewrite (buildQuery_case (JS.toLowerCase s) (JS.toUpperCase s)); [reflexivity|].
    now rewrite toUpperCase_toLowerCase, toUpperCase_idem.
  - unfold getQuotes, upper; simpl.
    rewrite (buildQuery_case s (JS.toUpperCase s)); [reflexivity|].
    now rewrite toUpperCase_idem.
  - intros Hs q. split.
    + rewrite elem_of_exportedQuotes. unfold lower. cbn [ReqQuery.state ReqQuery.roofType].
      unfold filterHolds at 1. rewrite toUpperCase_toLowerCase.
      split; [intros (Hq & [Hempty|Hstate] & Htype)|intros (Hq & Hstate & Htype)].
      * exfalso. apply Hs. destruct s; [reflexivity|discriminate Hempty].
      * tauto.
      * tauto.
    + intros listing Hlist. apply (listing_quotes_exported _ _ _ _ Hlist).
  - unfold validateStateCode. now rewrite toUpperCase_toLowerCase.
  - unfold validateStateCode. now rewrite toUpperCase_idem.
  - intros (code & Hcode & Hcase). unfold validateStateCode. f_equal.
    apply bool_decide_eq_true.
    rewrite <- toUpperCase_toLowerCase, <- Hcase, toUpperCase_toLowerCase.
    now rewrite (validStateCodes_upper code Hcode).
  - intros Hnone. unfold validateStateCode. f_equal.
    apply bool_decide_eq_false. intros Hin.
    apply (Hnone _ Hin), toLowerCase_toUpperCase.
Qed.

Lemma state_filter_case_insensitive_witness :
  JS.isASCII "tX" = true
  /\ getQuotes exampleStore (ReqQuery.mk (Some "tx") None None None)
     = getQuotes exampleStore (ReqQuery.mk (Some "TX") None None None)
  /\ getQuotes exampleStore (ReqQuery.mk (Some "tX") None None None)
     = getQuotes exampleStore (ReqQuery.mk (Some "TX") None None None)
  /\ validateStateCode (JS.Str "tX") = JS.Normal true.
Proof.
  assert (H : JS.isASCII "tX" = true) by reflexivity.
  split; [exact H|].
  destruct (state_filter_case_insensitive exampleStore "tX" None None None H)
    as ((Hlower & Hmixed & _) & _ & _ & Haccept & _).
  split; [exact Hlower|]. split; [exact Hmixed|].
  apply Haccept. exists "TX". split; [|reflexivity].
  apply (bool_decide_eq_true_1 ("TX" ∈ validStateCodes)). reflexivity.
Defined.

(** ** Submission: what reaches the store *)

Lemma checkPath_nil {A} (path required : string) (c : Cast A)
    (empty : A -> bool) (rules : A -> list (string * bool)) :
  checkPath path required c empty rules = [] ->
  exists a, c = Held a /\ empty a = false /\ Forall (fun rule => snd rule = true) (rules a).
Proof.
  unfold checkPath. destruct c as [| |a]; try discriminate.
  destruct (empty a) eqn:Ee; [discriminate|].
  destruct (list_find (fun rule => snd rule = false) (rules a)) as [[i [m ok]]|] eqn:E;
    [discriminate|].
  intros _. exists a. split; [reflexivity|]. split; [exact Ee|].
  apply list_find_None in E. eapply Forall_impl; [exact E|].
  intros [m ok]. simpl. now destruct ok.
Qed.

Lemma setSanitized_allowed (s : string) :
  JS.all_chars sanitizeAllowed (setSanitized s) = true.
Proof. unfold setSanitized. simpl. apply all_chars_trim, all_chars_filter_chars. Qed.

(** A number that the schema accepts is an integer below 10^21, or no
    integer. *)
Lemma fieldText_accepted_integer (n : Z) :
  validateRoofSize (JS.Numeric (JS.Num n)) = true ->
  fieldText (JS.Numeric (JS.Num n)) = JS.toString n.
Proof.
  rewrite validateRoofSize_accepts. intros [H1 H2]%andb_true_iff.
  apply Z.ltb_lt in H1. apply Z.leb_le in H2.
  cbn [fieldText JS.numberToString].
  destruct (Z.ltb_spec (Z.abs n) (10 ^ 21)) as [_|H]; [reflexivity|].
  exfalso. assert (1000000 < 10 ^ 21)%Z by reflexivity. lia.
Qed.

(** The rules a stored quote satisfies. *)
Lemma stored_quote_facts
    (env : Env) (store store' : Store) (raw : Body.t) (q : Quote.t) :
  postQuote env store raw = (store', Created q) ->
  (2 <= String.length (Quote.contractorName q) <= 100
   /\ JS.all_chars sanitizeAllowed (Quote.contractorName q) = true)
  /\ (2 <= String.length (Quote.company q) <= 100
      /\ JS.all_chars sanitizeAllowed (Quote.company q) = true)
  /\ (validateRoofSize (JS.Numeric (Quote.roofSize q)) = true
      /\ forall n, Body.roofSize raw = JS.Numeric (JS.Num n) ->
                   Quote.roofSize q = JS.Num n /\ (0 < n < 1000000)%Z)
  /\ Quote.roofType q ∈ validTypes
  /\ (Quote.projectCity q <> EmptyString
      /\ JS.all_chars sanitizeAllowed (Quote.projectCity q) = true)
  /\ Quote.projectState q ∈ validStateCodes
  /\ (now env <= Quote.projectDate q <= twoYearsFromNow env)%Z.
Proof.
  intros H.
  destruct (postQuote_created _ _ _ _ _ H) as (Herr & _ & Hsync & Hins).
  destruct (insert_fields _ _ _ _ Hins)
    as (_ & Hname & Hcomp & Hcity & Hstate & Hsize & Htype & Hdate & _).
  rewrite validateQuote_body in Hsync. unfold validateSync, newQuote in Hsync.
  cbn [Body.contractorName Body.company Body.roofSize Body.roofType Body.projectCity
       Body.projectState Body.projectDate Candidate.contractorName Candidate.company
       Candidate.roofSize Candidate.roofType Candidate.projectCity
       Candidate.projectState Candidate.projectDate sanitizedPath uppercasePath
       castString] in Hsync.
  rewrite Hsize, Htype, Hdate in Hsync.
  fold (storedText (fieldText (Body.contractorName raw))) in Hsync.
  fold (storedText (fieldText (Body.company raw))) in Hsync.
  fold (storedText (fieldText (Body.projectCity raw))) in Hsync.
  rewrite <- Hname, <- Hcomp, <- Hcity, <- Hstate in Hsync.
  repeat match type of Hsync with
         | (_ ++ _)%list = [] =>
             let Hpart := fresh "Hpart" in
             apply app_eq_nil in Hsync as [Hpart Hsync]
         end.
  apply checkPath_nil in Hpart as (a1 & [= <-] & _ & R1).
  apply checkPath_nil in Hpart0 as (a2 & [= <-] & _ & R2).
  apply checkPath_nil in Hpart1 as (a3 & [= <-] & _ & R3).
  apply checkPath_nil in Hpart2 as (a4 & [= <-] & _ & R4).
  apply checkPath_nil in Hpart3 as (a5 & [= <-] & E5 & _).
  apply checkPath_nil in Hpart4 as (a6 & [= <-] & _ & R6).
  apply checkPath_nil in Hsync as (a7 & [= <-] & _ & R7).
  apply Forall_cons in R1 as [L1 R1]. apply Forall_cons in R1 as [U1 _].
  apply Forall_cons in R2 as [L2 R2]. apply Forall_cons in R2 as [U2 _].
  apply Forall_cons in R3 as [S3 _]. apply Forall_cons in R4 as [T4 _].
  apply Forall_cons in R6 as [S6 _]. apply Forall_cons in R7 as [D7 _].
  cbn [snd] in *.
  apply Nat.leb_le in L1, U1, L2, U2.
  split; [split; [lia|rewrite Hname; apply setSanitized_allowed]|].
  split; [split; [lia|rewrite Hcomp; apply setSanitized_allowed]|].
  split.
  { split; [exact S3|]. intros n Hn. rewrite Hn in Hsize.
    cbn [castNumber] in Hsize. injection Hsize as Hq. split; [now symmetry|].
    rewrite <- Hq in S3.
    pose proof (validateQuote_errors env raw) as Hall. rewrite Herr in Hall.
    symmetry in Hall.
    change (fields ≫= errorsOf env raw)
      with (errorsOf env raw "contractorName"
            ++ errorsOf env raw "company"
            ++ errorsOf env raw "roofSize"
            ++ (["roofType"; "projectCity"; "projectState"; "projectDate"]
                  ≫= errorsOf env raw))%list in Hall.
    apply app_eq_nil in Hall as [_ Hall]. apply app_eq_nil in Hall as [_ Hall].
    apply app_eq_nil in Hall as [Hall _].
    unfold errorsOf, runField in Hall. apply runChain_passes in Hall.
    change (Body.get raw "roofSize") with (Body.roofSize raw) in Hall.
    change (chainOf env "roofSize") with roofSizeChain in Hall.
    rewrite Hn, (fieldText_accepted_integer n S3) in Hall.
    assert (Hp : passes roofSizeChain (JS.toString n) = true).
    { unfold passes. revert Hall. unfold roofSizeChain, passesOn. trivial. }
    rewrite roofSizeChain_accepts in Hp.
    apply andb_true_iff in Hp as [H1 H2]. apply Z.ltb_lt in H1, H2. lia. }
  split; [now apply bool_decide_eq_true in T4|].
  split.
  { split; [|rewrite Hcity; apply setSanitized_allowed].
    intros E. rewrite E in E5. discriminate E5. }
  split.
  { unfold holds, validateStateCode in S6. apply bool_decide_eq_true in S6.
    rewrite Hstate in S6 |- *. now rewrite toUpperCase_idem in S6. }
  unfold validateDate in D7. apply andb_true_iff in D7 as [H1 H2].
  apply Z.leb_le in H1, H2. lia.
Qed.

(** X12: every quote the submission route stores satisfies the rules of
    both layers: the name and the company have 2 to 100 characters, these
    and the city hold only letters, digits, white space, hyphens and
    apostrophes and the city is not empty, the roof size is above 0 and at
    most 1,000,000, and below 1,000,000 when the request gave it as an
    integer, the roof type and the state are of the lists, and the
    project date is in the window of two years. *)
Theorem stored_quote_invariants
    (env : Env) (store store' : Store) (raw : Body.t) (q : Quote.t) :
  postQuote env store raw = (store', Created q) ->
  (2 <= String.length (Quote.contractorName q) <= 100
   /\ JS.all_chars sanitizeAllowed (Quote.contractorName q) = true)
  /\ (2 <= String.length (Quote.company q) <= 100
      /\ JS.all_chars sanitizeAllowed (Quote.company q) = true)
  /\ (validateRoofSize (JS.Numeric (Quote.roofSize q)) = true
      /\ forall n, Body.roofSize raw = JS.Numeric (JS.Num n) ->
                   Quote.roofSize q = JS.Num n /\ (0 < n < 1000000)%Z)
  /\ Quote.roofType q ∈ validTypes
  /\ (Quote.projectCity q <> EmptyString
      /\ JS.all_chars sanitizeAllowed (Quote.projectCity q) = true)
  /\ Quote.projectState q ∈ validStateCodes
  /\ (now env <= Quote.projectDate q <= twoYearsFromNow env)%Z.
Proof. apply stored_quote_facts. Qed.

Lemma stored_quote_invariants_witness :
  postQuote exampleEnv [] (exampleBody "John Smith" "Smith Roofing LLC" 2500)
  = ([smithQuote], Created smithQuote)
  /\ (2 <= String.length (Quote.contractorName smithQuote) <= 100
      /\ JS.all_chars sanitizeAllowed (Quote.contractorName smithQuote) = true)
  /\ (2 <= String.length (Quote.company smithQuote) <= 100
      /\ JS.all_chars sanitizeAllowed (Quote.company smithQuote) = true)
  /\ (validateRoofSize (JS.Numeric (Quote.roofSize smithQuote)) = true
      /\ forall n,
           Body.roofSize (exampleBody "John Smith" "Smith Roofing LLC" 2500)
           = JS.Numeric (JS.Num n) ->
           Quote.roofSize smithQuote = JS.Num n /\ (0 < n < 1000000)%Z)
  /\ Quote.roofType smithQuote ∈ validTypes
  /\ (Quote.projectCity smithQuote <> EmptyString
      /\ JS.all_chars sanitizeAllowed (Quote.projectCity smithQuote) = true)
  /\ Quote.projectState smithQuote ∈ validStateCodes
  /\ (now exampleEnv <= Quote.projectDate smithQuote <= twoYearsFromNow exampleEnv)%Z.
Proof.
  assert (H : postQuote exampleEnv [] (exampleBody "John Smith" "Smith Roofing LLC" 2500)
              = ([smithQuote], Created smithQuote)) by (vm_compute; reflexivity).
  split; [exact H|].
  exact (stored_quote_invariants exampleEnv [] [smithQuote] _ smithQuote H).
Defined.

(** ** Submission, then retrieval *)

Lemma freshId_above (store : Store) :
  Forall (fun q => Quote._id q < freshId store) store.
Proof.
  unfold freshId. induction store as [|x store IH]; [constructor|].
  simpl. constructor; [lia|].
  eapply Forall_impl; [exact IH|]. simpl. intros y Hy. lia.
Qed.

(** The quote with the fresh identifier is the one a query for that
    identifier finds. *)
Lemma list_find_fresh (store : Store) (q : Quote.t) :
  Quote._id q = freshId store ->
  snd <$> list_find (fun x => Quote._id x = Quote._id q) (store ++ [q])%list = Some q.
Proof.
  intros Hid. rewrite list_find_app_r.
  - simpl. rewrite decide_True by reflexivity. reflexivity.
  - apply list_find_None. eapply Forall_impl; [apply freshId_above|].
    simpl. intros x Hx. lia.
Qed.

(** X13: a quote that was just accepted is found again.  It is in the
    export when the filters are its own state, in lower case or as
    stored, and its own roof type, or when there is no filter; and, where
    the text of its identifier is read back as the identifier, a PDF
    request with that text prints the quote, with its city and state on
    the location line. *)
Theorem submitted_quote_is_found_again
    (env : Env) (store store' : Store) (raw : Body.t) (q : Quote.t) :
  postQuote env store raw = (store', Created q) ->
  castObjectId env (objectIdText env (Quote._id q)) = Some (Quote._id q) ->
  q ∈ exportedQuotes store'
        (ReqQuery.mk (Some (JS.toLowerCase (Quote.projectState q)))
                     (Some (Quote.roofType q)) None None)
  /\ q ∈ exportedQuotes store'
           (ReqQuery.mk (Some (Quote.projectState q)) (Some (Quote.roofType q)) None None)
  /\ q ∈ exportedQuotes store' (ReqQuery.mk None None None None)
  /\ exists doc,
       generateQuotePDF env store' (objectIdText env (Quote._id q))
       = PdfDocument "application/pdf"
           ("attachment; filename=quote-" +:+ objectIdText env (Quote._id q) +:+ ".pdf")
           doc
       /\ Text ("Location: " +:+ Quote.location q) false ∈ doc
       /\ Text ("Contractor: " +:+ Quote.contractorName q) false ∈ doc.
Proof.
  intros H Hid.
  destruct (stored_quote_facts _ _ _ _ _ H) as (_ & _ & _ & Htype & _ & Hstate & _).
  destruct (postQuote_created _ _ _ _ _ H) as (_ & -> & _ & Hins).
  destruct (insert_fields _ _ _ _ Hins) as (Hfresh & _).
  assert (Hin : q ∈ (store ++ [q])%list) by (apply elem_of_app; right; left).
  apply validStateCodes_upper in Hstate.
  repeat split.
  - apply elem_of_exportedQuotes. split; [exact Hin|]. simpl. split; right.
    + now rewrite toUpperCase_toLowerCase.
    + reflexivity.
  - apply elem_of_exportedQuotes. split; [exact Hin|]. simpl. split; right.
    + now rewrite Hstate.
    + reflexivity.
  - apply elem_of_exportedQuotes. split; [exact Hin|]. simpl. split; exact I.
  - unfold generateQuotePDF, findById. rewrite Hid.
    rewrite (list_find_fresh store q Hfresh).
    eexists. split; [reflexivity|]. split.
    + unfold Quote.location. do 14 right. left.
    + do 6 right. left.
Qed.

Lemma submitted_quote_is_found_again_witness :
  postQuote exampleEnv [] (exampleBody "John Smith" "Smith Roofing LLC" 2500)
  = ([smithQuote], Created smithQuote)
  /\ castObjectId exampleEnv (objectIdText exampleEnv (Quote._id smithQuote))
     = Some (Quote._id smithQuote)
  /\ smithQuote ∈ exportedQuotes [smithQuote] (ReqQuery.mk (Some "tx") (Some "Metal") None None)
  /\ exists doc,
       generateQuotePDF exampleEnv [smithQuote] "000000000000000000000001"
       = PdfDocument "application/pdf"
           "attachment; filename=quote-000000000000000000000001.pdf" doc
       /\ Text "Location: Austin, TX" false ∈ doc.
Proof.
  assert (H : postQuote exampleEnv [] (exampleBody "John Smith" "Smith Roofing LLC" 2500)
              = ([smithQuote], Created smithQuote)) by (vm_compute; reflexivity).
  assert (Hid : castObjectId exampleEnv (objectIdText exampleEnv (Quote._id smithQuote))
                = Some (Quote._id smithQuote)) by reflexivity.
  split; [exact H|]. split; [exact Hid|].
  destruct (submitted_quote_is_found_again exampleEnv [] [smithQuote] _ smithQuote H Hid)
    as (Hlower & _ & _ & doc & Hpdf & Hloc & _).
  split; [exact Hlower|]. exists doc. split; [exact Hpdf|exact Hloc].
Defined.

(** X14: a PDF request whose identifier is malformed is passed on as a
    cast error; one whose identifier is well formed is answered with 404
    and no document exactly when no stored quote has the identifier, and
    otherwise with the document of a stored quote that has it. *)
Theorem generateQuotePDF_not_found_iff (env : Env) (store : Store) (id : string) :
  (generateQuotePDF env store id = PdfCastError <-> castObjectId env id = None)
  /\ (generateQuotePDF env store id = PdfNotFound "Quote not found"
      <-> exists n, castObjectId env id = Some n
                    /\ Forall (fun q => Quote._id q <> n) store)
  /\ (forall contentType disposition doc,
        generateQuotePDF env store id = PdfDocument contentType disposition doc ->
        exists n q,
          castObjectId env id = Some n
          /\ q ∈ store /\ Quote._id q = n
          /\ disposition
             = "attachment; filename=quote-" +:+ objectIdText env n +:+ ".pdf"
          /\ Text ("Contractor: " +:+ Quote.contractorName q) false ∈ doc
          /\ Text ("Company: " +:+ Quote.company q) false ∈ doc).
Proof.
  unfold generateQuotePDF, findById.
  destruct (castObjectId env id) as [n|].
  2:{ split; [tauto|]. split; [|intros ct cd doc; discriminate].
      split; [discriminate|]. intros (n & Hn & _). discriminate Hn. }
  destruct (list_find (fun q => Quote._id q = n) store) as [[i q]|] eqn:E; simpl.
  - apply list_find_Some in E as (Hi & Hid & _).
    split; [split; discriminate|]. split.
    + split; [discriminate|]. intros (n' & [= <-] & Hall).
      rewrite Forall_forall in Hall.
      exfalso. apply (Hall q); [|exact Hid]. eapply list_elem_of_lookup_2, Hi.
    + intros ct cd doc [= <- <- <-]. exists n, q.
      split; [reflexivity|]. split; [eapply list_elem_of_lookup_2, Hi|].
      split; [exact Hid|]. split; [now rewrite Hid|]. split.
      * do 6 right. left.
      * do 7 right. left.
  - apply list_find_None in E.
    split; [split; discriminate|]. split; [|intros ct cd doc; discriminate].
    split; [|reflexivity]. intros _. exists n. split; [reflexivity|exact E].
Qed.

(** ** Pages, the empty export and the list of the client *)

(** X15: the pages of a listing tile the sorted matches: a page holds at
    most [limit] quotes, and the quotes before it followed by its own are
    the first [page * limit] matches, so no quote is skipped and none is
    on two pages. *)
Theorem listing_pages_tile (store : Store) (req : ReqQuery.t) (page : Z) :
  let limit := default 10%Z (ReqQuery.limit req) in
  (1 <= page)%Z -> (1 <= limit)%Z ->
  exists listing,
    getQuotes store (atPage req page) = Some listing
    /\ (Z.of_nat (length (Listing.quotes listing)) <= limit)%Z
    /\ (take (Z.to_nat ((page - 1) * limit)) (exportedQuotes store req)
        ++ Listing.quotes listing)%list
       = take (Z.to_nat (page * limit)) (exportedQuotes store req).
Proof.
  intros limit Hp Hl.
  pose proof (getQuotes_slice store (atPage req page)) as Hget.
  cbv zeta in Hget. cbn [atPage ReqQuery.page ReqQuery.limit default] in Hget.
  fold limit in Hget. specialize (Hget Hp Hl).
  rewrite exportedQuotes_atPage in Hget.
  eexists. split; [exact Hget|]. cbn [Listing.quotes]. split.
  - rewrite length_take.
    pose proof (Nat.le_min_l (Z.to_nat limit)
                  (length (drop (Z.to_nat ((page - 1) * limit))
                             (exportedQuotes store req)))).
    lia.
  - rewrite take_take_drop. f_equal. unfold id.
    rewrite <- Z2Nat.inj_add by nia. f_equal. ring.
Qed.

Lemma listing_pages_tile_witness :
  (1 <= 2)%Z /\ (1 <= 1)%Z
  /\ exists listing,
       getQuotes exampleStore (atPage texasPage3 2) = Some listing
       /\ (Z.of_nat (length (Listing.quotes listing)) <= 1)%Z
       /\ (take (Z.to_nat ((2 - 1) * 1)) (exportedQuotes exampleStore texasPage3)
           ++ Listing.quotes listing)%list
          = take (Z.to_nat (2 * 1)) (exportedQuotes exampleStore texasPage3).
Proof.
  split; [lia|]. split; [lia|].
  apply (listing_pages_tile exampleStore texasPage3 2); simpl; lia.
Defined.

(** X16: when no stored quote satisfies the filters, the export is the
    header line alone, with its eight columns and no line break. *)
Theorem export_without_match_is_header (env : Env) (store : Store) (req : ReqQuery.t) :
  (forall q, q ∈ store ->
             ~ (filterHolds (ReqQuery.state req) JS.toUpperCase (Quote.projectState q)
                /\ filterHolds (ReqQuery.roofType req) id (Quote.roofType q))) ->
  exportQuotesCSV env store req
  = "Contractor Name,Company,Roof Size (sq ft),Roof Type,Project City,Project State,Project Date,Submission Date".
Proof.
  intros Hnone. unfold exportQuotesCSV, csvRows.
  assert (E : exportedQuotes store req = []).
  { destruct (exportedQuotes store req) as [|q l] eqn:E; [reflexivity|].
    assert (Hq : q ∈ exportedQuotes store req) by (rewrite E; left).
    apply elem_of_exportedQuotes in Hq as (Hin & Hs & Hr).
    exfalso. exact (Hnone q Hin (conj Hs Hr)). }
  rewrite E. reflexivity.
Qed.

Lemma export_without_match_is_header_witness :
  (forall q, q ∈ exampleStore ->
             ~ (filterHolds (Some "ny") JS.toUpperCase (Quote.projectState q)
                /\ filterHolds None id (Quote.roofType q)))
  /\ exportQuotesCSV exampleEnv exampleStore (ReqQuery.mk (Some "ny") None None None)
     = "Contractor Name,Company,Roof Size (sq ft),Roof Type,Project City,Project State,Project Date,Submission Date".
Proof.
  assert (H : forall q, q ∈ exampleStore ->
                        ~ (filterHolds (Some "ny") JS.toUpperCase (Quote.projectState q)
                           /\ filterHolds None id (Quote.roofType q))).
  { intros q Hq [[Hs|Hs] _]; [discriminate Hs|].
    unfold exampleStore in Hq.
    repeat (apply elem_of_cons in Hq as [->|Hq]; [discriminate Hs|]).
    inversion Hq. }
  split; [exact H|].
  exact (export_without_match_is_header exampleEnv exampleStore
           (ReqQuery.mk (Some "ny") None None None) H).
Defined.

(** X17: the list of the client asks for no page, so whatever the store
    holds it shows at most ten quotes: the ten newest that match its two
    filter texts, an empty text being no filter. *)
Theorem fetchQuotes_shows_ten_newest (store : Store) (state roofType : string) :
  fetchQuotes store state roofType
  = take 10 (exportedQuotes store (ReqQuery.mk (Some state) (Some roofType) None None))
  /\ length (fetchQuotes store state roofType) <= 10.
Proof.
  assert (E : fetchQuotes store state roofType
              = take 10 (exportedQuotes store
                           (ReqQuery.mk (Some state) (Some roofType) None None))).
  { unfold fetchQuotes.
    rewrite getQuotes_slice by (simpl; lia). cbn [Listing.quotes].
    cbn [clientQuery Filters.page Filters.limit appendNumber ReqQuery.page
         ReqQuery.limit default].
    change (Z.to_nat 10) with 10. change (Z.to_nat ((1 - 1) * 10)) with 0.
    rewrite drop_0. f_equal.
    unfold exportedQuotes, clientQuery, appendText.
    cbn [ReqQuery.state ReqQuery.roofType Filters.state Filters.roofType].
    unfold buildQuery, setIfTruthy.
    destruct (JS.truthy (JS.Str state)) eqn:Hs, (JS.truthy (JS.Str roofType)) eqn:Hr;
      rewrite ?Hs, ?Hr; reflexivity. }
  split; [exact E|]. rewrite E, length_take. lia.
Qed.

(** ** The error class and the error handler *)

Lemma status_by_code_table :
  forallb (fun k =>
    let code := (100 + Z.of_nat k)%Z in
    String.eqb (AppError.status (AppError.new EmptyString code))
      (if (400 <=? code)%Z && (code <=? 499)%Z then "fail" else "error"))
    (seq 0 900) = true.
Proof. vm_compute. reflexivity. Qed.

Lemma status_by_code (message : string) (statusCode : Z) :
  (100 <= statusCode <= 999)%Z ->
  AppError.status (AppError.new message statusCode)
  = if (400 <=? statusCode)%Z && (statusCode <=? 499)%Z then "fail" else "error".
Proof.
  intros Hcode.
  pose proof status_by_code_table as Htable.
  rewrite forallb_forall in Htable.
  specialize (Htable (Z.to_nat (statusCode - 100))).
  cbv zeta in Htable.
  replace (100 + Z.of_nat (Z.to_nat (statusCode - 100)))%Z with statusCode in Htable by lia.
  apply String.eqb_eq. apply Htable.
  apply in_seq. lia.
Qed.

(** X18: A new [AppError] with a three-digit status code is operational,
    and its status is ["fail"] exactly for the codes 400 to 499 and
    ["error"] for every other one, whatever the message. *)
Theorem AppError_status_by_code (message : string) (statusCode : Z) :
  (100 <= statusCode <= 999)%Z ->
  AppError.isOperational (AppError.new message statusCode) = true /\
  AppError.message (AppError.new message statusCode) = message /\
  (AppError.status (AppError.new message statusCode) = "fail"
   <-> (400 <= statusCode <= 499)%Z) /\
  (AppError.status (AppError.new message statusCode) = "error"
   <-> ~ (400 <= statusCode <= 499)%Z).
Proof.
  intros Hcode. rewrite (status_by_code message statusCode Hcode).
  split; [reflexivity|]. split; [reflexivity|].
  destruct (400 <=? statusCode)%Z eqn:Hlo; destruct (statusCode <=? 499)%Z eqn:Hhi;
    cbn [andb]; split; split; intros H; try discriminate; try reflexivity; try lia.
Qed.

Lemma AppError_status_by_code_witness :
  (100 <= 404 <= 999)%Z /\
  (AppError.status (AppError.new "Quote not found" 404) = "fail"
   <-> (400 <= 404 <= 499)%Z).
Proof.
  split; [lia|].
  apply (AppError_status_by_code "Quote not found" 404). lia.
Defined.

(** X19: The factories: [badRequest] keeps an absent message empty, every
    other factory replaces an absent or empty message by a text of its own
    and keeps any other message; all give the status ["fail"] except
    [internal], which gives ["error"]. *)
Theorem factories_default_message (message : option string) :
  AppError.message (badRequest None) = EmptyString /\
  Forall (fun factory : option string -> AppError.t =>
            AppError.message (factory None) <> EmptyString /\
            factory (Some EmptyString) = factory None /\
            (forall m, m <> EmptyString -> AppError.message (factory (Some m)) = m))
         [unauthorized; forbidden; notFound; conflict; validation; internal] /\
  Forall (fun factory : option string -> AppError.t =>
            AppError.status (factory message) = "fail")
         [badRequest; unauthorized; forbidden; notFound; conflict; validation] /\
  AppError.status (internal message) = "error".
Proof.
  assert (Hkeep : forall m fallback, m <> EmptyString -> orElse (Some m) fallback = m).
  { intros m fallback Hm. unfold orElse. simpl.
    destruct (String.eqb_spec m ""); [contradiction|reflexivity]. }
  split; [reflexivity|]. split; [|split].
  - repeat constructor; try discriminate;
      intros m Hm; cbn [AppError.message AppError.new unauthorized forbidden
                        notFound conflict validation internal];
      apply Hkeep; assumption.
  - repeat constructor.
  - reflexivity.
Qed.

Ltac handler_step :=
  cbv beta iota zeta;
  cbn [Err.name Err.code Err.type Err.isOperational Err.statusCode Err.status
       Err.message Err.stack Err.path Err.value Err.errors Err.errmsg].

(** X20: Outside development, an error of no kind the handler knows is
    answered with its own code, status and message when it is operational
    (500 and ["error"] where it has none), and otherwise with 500,
    ["error"] and the fixed text, whatever its message. *)
Theorem errorHandler_hides_unexpected_errors (err : Err.t) :
  recognised err = false ->
  errorHandler false false err
  = JS.Normal
      (if Err.isOperational err then
         ProdJson (Some (codeOr (Err.statusCode err) 500))
                  (Some (orElse (Err.status err) "error")) (Err.message err)
       else ProdJson (Some 500%Z) (Some "error") "Something went wrong!").
Proof.
  destruct err as [name code type statusCode status isOperational message stack
                   path value errors errmsg].
  unfold recognised.
  cbn [Err.name Err.code Err.type Err.isOperational Err.statusCode Err.status
       Err.message].
  intros Hkind.
  repeat (apply orb_false_elim in Hkind; destruct Hkind as [Hkind ?]).
  unfold errorHandler, thenIf, mapNormal, sendErrorProd.
  cbv beta zeta.
  cbn [Err.name Err.code Err.type Err.isOperational Err.statusCode Err.status
       Err.message].
  repeat match goal with
         | H : bool_decide _ = false |- _ =>
             rewrite H;
             cbn [Err.name Err.code Err.type Err.isOperational Err.statusCode
                  Err.status Err.message];
             clear H
         end.
  destruct isOperational; reflexivity.
Qed.

Lemma errorHandler_hides_unexpected_errors_witness :
  errorHandler false false
    (Err.mk (Some "TypeError") None None None None false
            "Cannot read properties of undefined" "at getQuotes"
            JS.Undefined JS.Undefined None None)
  = JS.Normal (ProdJson (Some 500%Z) (Some "error") "Something went wrong!").
Proof.
  apply (errorHandler_hides_unexpected_errors
           (Err.mk (Some "TypeError") None None None None false
                   "Cannot read properties of undefined" "at getQuotes"
                   JS.Undefined JS.Undefined None None)).
  reflexivity.
Defined.

(** X21: Outside development the first kind that fits decides the answer:
    a cast error, then a duplicate key, then a validation error, then a
    body that did not parse, then the two database kinds; the error a
    handler built fits no later kind.  A duplicate key without a quoted
    segment in [errmsg], and a validation error without [errors], make the
    handler throw. *)
Theorem errorHandler_first_kind_wins (err : Err.t) :
  errorHandler false false err =
  if bool_decide (Err.name err = Some "CastError") then
    JS.Normal (ProdJson (Some 400%Z) (Some "fail")
                 ("Invalid " +:+ ToString (Err.path err) +:+ ": "
                  +:+ ToString (Err.value err)))
  else if bool_decide (Err.code err = Some 11000%Z) then
    match Err.errmsg err ≫= firstQuoted with
    | Some value =>
        JS.Normal (ProdJson (Some 400%Z) (Some "fail")
                     ("Duplicate field value: " +:+ value
                      +:+ ". Please use another value!"))
    | None => JS.Throw JS.TypeError
    end
  else if bool_decide (Err.name err = Some "ValidationError") then
    match Err.errors err with
    | Some errors =>
        JS.Normal (ProdJson (Some 400%Z) (Some "fail")
                     ("Invalid input data. " +:+ JS.join ". " errors))
    | None => JS.Throw JS.TypeError
    end
  else if bool_decide (Err.type err = Some "entity.parse.failed") then
    JS.Normal (ProdJson (Some 400%Z) (Some "fail")
                 "Invalid JSON format in request body")
  else if bool_decide (Err.name err = Some "MongooseError") then
    JS.Normal (ProdJson (Some 500%Z) (Some "error")
                 "Database operation failed. Please try again.")
  else if bool_decide (Err.name err = Some "MongoServerError") then
    JS.Normal (ProdJson (Some 503%Z) (Some "error")
                 "Database connection error. Please try again later.")
  else if Err.isOperational err then
    JS.Normal (ProdJson (Some (codeOr (Err.statusCode err) 500))
                 (Some (orElse (Err.status err) "error")) (Err.message err))
  else JS.Normal (ProdJson (Some 500%Z) (Some "error") "Something went wrong!").
Proof.
  destruct err as [name code type statusCode status isOperational message stack
                   path value errors errmsg].
  unfold errorHandler, thenIf, mapNormal, sendErrorProd, handleDuplicateFieldsDB,
    handleValidationErrorDB, handleMongooseError.
  cbv beta zeta.
  cbn [Err.name Err.code Err.type Err.isOperational Err.statusCode Err.status
       Err.message Err.path Err.value Err.errors Err.errmsg].
  destruct (bool_decide (name = Some "CastError")); [reflexivity|].
  handler_step.
  destruct (bool_decide (code = Some 11000%Z)).
  { destruct errmsg as [m|]; [|reflexivity]. cbn [mbind option_bind].
    destruct (firstQuoted m); reflexivity. }
  handler_step.
  destruct (bool_decide (name = Some "ValidationError")).
  { destruct errors; reflexivity. }
  handler_step.
  destruct (bool_decide (type = Some "entity.parse.failed")); [reflexivity|].
  handler_step.
  destruct (bool_decide (name = Some "MongooseError")); [reflexivity|].
  handler_step.
  destruct (bool_decide (name = Some "MongoServerError")); [reflexivity|].
  destruct isOperational; reflexivity.
Qed.

(** X22: Outside development, a duplicate-key error whose [errmsg] is
    absent, or holds neither a single nor a double quote, is not answered:
    the handler throws. *)
Theorem duplicate_key_without_quote_throws (err : Err.t) :
  Err.name err <> Some "CastError" ->
  Err.code err = Some 11000%Z ->
  (forall m, Err.errmsg err = Some m ->
             JS.all_chars (fun c => negb (isQuoteChar c)) m = true) ->
  errorHandler false false err = JS.Throw JS.TypeError.
Proof.
  intros Hname Hcode Hplain.
  assert (Hnone : forall m, JS.all_chars (fun c => negb (isQuoteChar c)) m = true ->
                            firstQuoted m = None).
  { induction m as [|c m IH]; [reflexivity|].
    cbn [JS.all_chars firstQuoted]. intros H.
    apply andb_true_iff in H as [Hc Hm].
    apply negb_true_iff in Hc. rewrite Hc. apply IH, Hm. }
  unfold errorHandler, thenIf, mapNormal, handleDuplicateFieldsDB.
  cbv beta zeta.
  cbn [Err.name Err.code Err.type Err.isOperational Err.statusCode Err.status
       Err.message Err.path Err.value Err.errors Err.errmsg].
  rewrite (bool_decide_eq_false_2 _ Hname). handler_step.
  rewrite (bool_decide_eq_true_2 _ Hcode).
  destruct (Err.errmsg err) as [m|]; [|reflexivity].
  rewrite (Hnone m (Hplain m eq_refl)). reflexivity.
Qed.

Lemma duplicate_key_without_quote_throws_witness :
  errorHandler false false
    (Err.mk (Some "MongoServerError") (Some 11000%Z) None None None false
            "E11000 duplicate key error" EmptyString JS.Undefined JS.Undefined
            None (Some "E11000 duplicate key error: { email: 1 }"))
  = JS.Throw JS.TypeError.
Proof.
  apply (duplicate_key_without_quote_throws
           (Err.mk (Some "MongoServerError") (Some 11000%Z) None None None false
                   "E11000 duplicate key error" EmptyString JS.Undefined
                   JS.Undefined None
                   (Some "E11000 duplicate key error: { email: 1 }"))).
  - discriminate.
  - reflexivity.
  - intros m Hm. injection Hm as <-. reflexivity.
Defined.

Lemma quotedTail_sound (q : ascii) (n : nat) :
  forall s m, (String.length s <= n)%nat -> quotedTail q s = Some m ->
  exists body after, m = body +:+ String q EmptyString /\ s = m +:+ after.
Proof.
  induction n as [|n IH]; intros s m Hlen Hq.
  - destruct s; [discriminate|simpl in Hlen; lia].
  - destruct s as [|c rest]; [discriminate|].
    cbn [quotedTail] in Hq. simpl in Hlen.
    destruct (Ascii.eqb_spec c q) as [->|Hcq].
    { injection Hq as <-. exists EmptyString, rest. split; reflexivity. }
    assert (Halone :
      (if isLineTerminator c then None else String c <$> quotedTail q rest) = Some m ->
      exists body after, m = body +:+ String q EmptyString /\ String c rest = m +:+ after).
    { destruct (isLineTerminator c); [discriminate|].
      destruct (quotedTail q rest) as [m'|] eqn:Hrest; [|discriminate].
      intros H. injection H as <-.
      destruct (IH rest m' ltac:(lia) Hrest) as (body & after & -> & Hs).
      exists (String c body), after. split; [reflexivity|].
      change (String c rest = String c ((body +:+ String q "") +:+ after)).
      rewrite <- Hs. reflexivity. }
    destruct (Ascii.eqb c "\"); [|exact (Halone Hq)].
    destruct rest as [|d rest']; [exact (Halone Hq)|].
    destruct (isLineTerminator d); [exact (Halone Hq)|].
    destruct (quotedTail q rest') as [m'|] eqn:Hrest; [|exact (Halone Hq)].
    injection Hq as <-. simpl in Hlen.
    destruct (IH rest' m' ltac:(lia) Hrest) as (body & after & -> & Hs).
    exists (String c (String d body)), after. split; [reflexivity|].
    change (String c (String d rest')
            = String c (String d ((body +:+ String q "") +:+ after))).
    rewrite <- Hs. reflexivity.
Qed.

(** X23: The value the duplicate-key handler reads from [errmsg] is a
    piece of [errmsg] that starts with a single or a double quote and ends
    with the same one. *)
Theorem firstQuoted_sound (s value : string) :
  firstQuoted s = Some value ->
  exists (q : ascii) (body before after : string),
    isQuoteChar q = true /\
    value = String q (body +:+ String q EmptyString) /\
    s = before +:+ value +:+ after.
Proof.
  induction s as [|c rest IH]; [discriminate|].
  cbn [firstQuoted].
  assert (Hskip : firstQuoted rest = Some value ->
    exists (q : ascii) (body before after : string),
      isQuoteChar q = true /\
      value = String q (body +:+ String q EmptyString) /\
      String c rest = before +:+ value +:+ after).
  { intros H. destruct (IH H) as (q & body & before & after & Hq & Hv & Hs).
    exists q, body, (String c before), after. repeat split; try assumption.
    change (String c rest = String c (before +:+ value +:+ after)).
    rewrite <- Hs. reflexivity. }
  destruct (isQuoteChar c) eqn:Hc; [|exact Hskip].
  destruct (quotedTail c rest) as [m|] eqn:Hm; [|exact Hskip].
  intros H. injection H as <-.
  destruct (quotedTail_sound c (String.length rest) rest m (le_n _) Hm)
    as (body & after & -> & Hs).
  exists c, body, EmptyString, after. repeat split; try assumption.
  change (String c rest = String c ((body +:+ String c "") +:+ after)).
  rewrite <- Hs. reflexivity.
Qed.

Lemma firstQuoted_sound_witness :
  firstQuoted "dup key: { name: 'O\'Brien' }" = Some "'O\'Brien'" /\
  exists (q : ascii) (body before after : string),
    isQuoteChar q = true /\
    "'O\'Brien'" = String q (body +:+ String q EmptyString) /\
    "dup key: { name: 'O\'Brien' }" = before +:+ "'O\'Brien'" +:+ after.
Proof.
  split; [reflexivity|].
  apply (firstQuoted_sound "dup key: { name: 'O\'Brien' }" "'O\'Brien'").
  reflexivity.
Defined.

(** X24: A submission of which a field fails the rule of its chain leaves
    the store as it was, and the error it passes on is answered with 400
    and ["fail"], outside development with the message that joins, as
    [field: message], the errors of all the chains, and in development
    with the same message beside the error and its stack. *)
Theorem rejected_submission_is_answered_400 (env : Env) (store : Store) (body : Body.t) :
  (exists f, f ∈ fields /\ fieldRule env f (Body.get body f) = false) ->
  let message :=
    JS.join ". "
      (map (fun e => ValidationError.param e +:+ ": " +:+ ValidationError.msg e)
           (snd (validateQuote env body))) in
  exists e : AppError.t,
    postQuote env store body = (store, SubmitNext (Operational e))
    /\ errorHandler false false (thrownAppError e)
       = JS.Normal (ProdJson (Some 400%Z) (Some "fail") message)
    /\ exists shown : Err.t,
         errorHandler true false (thrownAppError e)
         = JS.Normal (DevJson (Some 400%Z) (Some "fail") shown message (Err.stack shown))
         /\ Err.statusCode shown = Some 400%Z.
Proof.
  intros Hbad message.
  destruct (failing_field_rejected env store body Hbad) as [_ Hpost].
  eexists. split; [exact Hpost|]. split; [reflexivity|].
  eexists. split; reflexivity.
Qed.

Lemma rejected_submission_is_answered_400_witness :
  (exists f, f ∈ fields /\ fieldRule exampleEnv f (Body.get rejectedBody f) = false)
  /\ exists e : AppError.t,
       postQuote exampleEnv exampleStore rejectedBody
       = (exampleStore, SubmitNext (Operational e))
       /\ errorHandler false false (thrownAppError e)
          = JS.Normal
              (ProdJson (Some 400%Z) (Some "fail")
                 (JS.join ". "
                    (map (fun e => ValidationError.param e +:+ ": " +:+ ValidationError.msg e)
                         (snd (validateQuote exampleEnv rejectedBody))))).
Proof.
  assert (H : exists f, f ∈ fields
                        /\ fieldRule exampleEnv f (Body.get rejectedBody f) = false).
  { exists "contractorName". split; [left|vm_compute; reflexivity]. }
  split; [exact H|].
  destruct (rejected_submission_is_answered_400 exampleEnv exampleStore rejectedBody H)
    as (e & Hpost & Hprod & _).
  exists e. split; [exact Hpost|exact Hprod].
Defined.
